(** * InvoiceMerger: column detection and normalisation (utils.py, database.py)

    A shallow embedding of the file pipeline of [utils.py] and of the insert
    loop of [database.py].

    Modelling conventions.
    - A Python [str] is a list of Unicode code points ([list N]).  The
      character tables ([str.isspace], [\w], [str.upper], [str.islower],
      [str.isupper] and the decimal digits) are those of Python 3.11
      (Unicode 14.0), as ranges; the case folding of [re.IGNORECASE] is only
      needed against lowercase ASCII literals, where it is given exactly.
    - pandas cells are [VNaN] (None or NaN), [VNum r] (a number whose [str]
      is [r]: an [int] when [r] is an integer numeral, a [float]
      otherwise), [VBool b] (a [bool]) or [VStr s].
    - A row label of [pd.read_csv]'s index is a cell as well.
    - pandas' own string parser is run with IEEE double arithmetic
      ([SpecFloat]).  Other Python floats (ratios, means, the value of a
      [float] cell) are exact rationals; for tables of realistic size the
      double rounding of such a value never moves it across the constants it
      is compared with. *)

From Stdlib Require Import String Ascii.
From Stdlib Require Import List Bool Arith NArith ZArith QArith Lia.
From Corelib.Floats Require Import SpecFloat.
Import ListNotations.
Local Close Scope Q_scope.

(* ================================================================== *)
(** ** Python text *)

Definition pchar := N.
Definition pstr := list pchar.

(** A string literal of the source, as code points. *)
Definition u (s : string) : pstr := map N_of_ascii (list_ascii_of_string s).

Definition in_range (lo hi c : N) : bool := (lo <=? c)%N && (c <=? hi)%N.

(** [str.isspace] on one code point: what [str.strip], [str.split] and
    [float] treat as whitespace. *)
Definition is_space (c : pchar) : bool :=
  in_range 9 13 c || in_range 28 32 c || N.eqb c 133 || N.eqb c 160
  || N.eqb c 5760 || in_range 8192 8202 c || N.eqb c 8232 || N.eqb c 8233
  || N.eqb c 8239 || N.eqb c 8287 || N.eqb c 12288.

(** The code points [is_space] accepts. *)
Definition space_chars : list N :=
  [9; 10; 11; 12; 13; 28; 29; 30; 31; 32; 133; 160; 5760; 8192; 8193; 8194; 8195; 8196;
   8197; 8198; 8199; 8200; 8201; 8202; 8232; 8233; 8239; 8287; 12288]%N.

Definition is_digit (c : pchar) : bool := in_range 48 57 c.

(* ------------------------------------------------------------------ *)
(** *** Python's character tables (Python 3.11, Unicode 14.0)

    [word_ranges]: the characters [\w] matches in a [str] pattern
    ([str.isalnum] or underscore).  [lower_title_ranges]: [str.islower] or
    titlecase.  [upper_ranges]: [str.isupper].  [decimal_zeros]: the digit
    zero of every run of ten decimal digits ([int(c)] of the digit [zero +
    k] is [k]).  [upper_runs]: [(lo, hi, step, delta)], the characters
    [lo, lo + step, ..., hi] whose [str.upper] is the one character
    [c + delta]; [upper_special]: the characters whose [str.upper] has
    several characters. *)

Definition word_ranges_0 : list (N * N) :=
  [(48, 57); (65, 90); (95, 95); (97, 122); (170, 170); (178, 179);
  (181, 181); (185, 186); (188, 190); (192, 214); (216, 246); (248, 705);
  (710, 721); (736, 740); (748, 748); (750, 750); (880, 884); (886, 887);
  (890, 893); (895, 895); (902, 902); (904, 906); (908, 908); (910, 929);
  (931, 1013); (1015, 1153); (1162, 1327); (1329, 1366); (1369, 1369); (1376, 1416);
  (1488, 1514); (1519, 1522); (1568, 1610); (1632, 1641); (1646, 1647); (1649, 1747);
  (1749, 1749); (1765, 1766); (1774, 1788); (1791, 1791); (1808, 1808); (1810, 1839);
  (1869, 1957); (1969, 1969); (1984, 2026); (2036, 2037); (2042, 2042); (2048, 2069);
  (2074, 2074); (2084, 2084); (2088, 2088); (2112, 2136); (2144, 2154); (2160, 2183);
  (2185, 2190); (2208, 2249); (2308, 2361); (2365, 2365); (2384, 2384); (2392, 2401);
  (2406, 2415); (2417, 2432); (2437, 2444); (2447, 2448); (2451, 2472); (2474, 2480);
  (2482, 2482); (2486, 2489); (2493, 2493); (2510, 2510); (2524, 2525); (2527, 2529);
  (2534, 2545); (2548, 2553); (2556, 2556); (2565, 2570); (2575, 2576); (2579, 2600);
  (2602, 2608); (2610, 2611); (2613, 2614); (2616, 2617); (2649, 2652); (2654, 2654);
  (2662, 2671); (2674, 2676); (2693, 2701); (2703, 2705); (2707, 2728); (2730, 2736);
  (2738, 2739); (2741, 2745); (2749, 2749); (2768, 2768); (2784, 2785); (2790, 2799);
  (2809, 2809); (2821, 2828); (2831, 2832); (2835, 2856); (2858, 2864); (2866, 2867);
  (2869, 2873); (2877, 2877); (2908, 2909); (2911, 2913); (2918, 2927); (2929, 2935);
  (2947, 2947); (2949, 2954); (2958, 2960); (2962, 2965); (2969, 2970); (2972, 2972);
  (2974, 2975); (2979, 2980); (2984, 2986); (2990, 3001); (3024, 3024); (3046, 3058)]%N.

Definition word_ranges_1 : list (N * N) :=
  [(3077, 3084); (3086, 3088); (3090, 3112); (3114, 3129); (3133, 3133); (3160, 3162);
  (3165, 3165); (3168, 3169); (3174, 3183); (3192, 3198); (3200, 3200); (3205, 3212);
  (3214, 3216); (3218, 3240); (3242, 3251); (3253, 3257); (3261, 3261); (3293, 3294);
  (3296, 3297); (3302, 3311); (3313, 3314); (3332, 3340); (3342, 3344); (3346, 3386);
  (3389, 3389); (3406, 3406); (3412, 3414); (3416, 3425); (3430, 3448); (3450, 3455);
  (3461, 3478); (3482, 3505); (3507, 3515); (3517, 3517); (3520, 3526); (3558, 3567);
  (3585, 3632); (3634, 3635); (3648, 3654); (3664, 3673); (3713, 3714); (3716, 3716);
  (3718, 3722); (3724, 3747); (3749, 3749); (3751, 3760); (3762, 3763); (3773, 3773);
  (3776, 3780); (3782, 3782); (3792, 3801); (3804, 3807); (3840, 3840); (3872, 3891);
  (3904, 3911); (3913, 3948); (3976, 3980); (4096, 4138); (4159, 4169); (4176, 4181);
  (4186, 4189); (4193, 4193); (4197, 4198); (4206, 4208); (4213, 4225); (4238, 4238);
  (4240, 4249); (4256, 4293); (4295, 4295); (4301, 4301); (4304, 4346); (4348, 4680);
  (4682, 4685); (4688, 4694); (4696, 4696); (4698, 4701); (4704, 4744); (4746, 4749);
  (4752, 4784); (4786, 4789); (4792, 4798); (4800, 4800); (4802, 4805); (4808, 4822);
  (4824, 4880); (4882, 4885); (4888, 4954); (4969, 4988); (4992, 5007); (5024, 5109);
  (5112, 5117); (5121, 5740); (5743, 5759); (5761, 5786); (5792, 5866); (5870, 5880);
  (5888, 5905); (5919, 5937); (5952, 5969); (5984, 5996); (5998, 6000); (6016, 6067);
  (6103, 6103); (6108, 6108); (6112, 6121); (6128, 6137); (6160, 6169); (6176, 6264);
  (6272, 6276); (6279, 6312); (6314, 6314); (6320, 6389); (6400, 6430); (6470, 6509);
  (6512, 6516); (6528, 6571); (6576, 6601); (6608, 6618); (6656, 6678); (6688, 6740)]%N.

Definition word_ranges_2 : list (N * N) :=
  [(6784, 6793); (6800, 6809); (6823, 6823); (6917, 6963); (6981, 6988); (6992, 7001);
  (7043, 7072); (7086, 7141); (7168, 7203); (7232, 7241); (7245, 7293); (7296, 7304);
  (7312, 7354); (7357, 7359); (7401, 7404); (7406, 7411); (7413, 7414); (7418, 7418);
  (7424, 7615); (7680, 7957); (7960, 7965); (7968, 8005); (8008, 8013); (8016, 8023);
  (8025, 8025); (8027, 8027); (8029, 8029); (8031, 8061); (8064, 8116); (8118, 8124);
  (8126, 8126); (8130, 8132); (8134, 8140); (8144, 8147); (8150, 8155); (8160, 8172);
  (8178, 8180); (8182, 8188); (8304, 8305); (8308, 8313); (8319, 8329); (8336, 8348);
  (8450, 8450); (8455, 8455); (8458, 8467); (8469, 8469); (8473, 8477); (8484, 8484);
  (8486, 8486); (8488, 8488); (8490, 8493); (8495, 8505); (8508, 8511); (8517, 8521);
  (8526, 8526); (8528, 8585); (9312, 9371); (9450, 9471); (10102, 10131); (11264, 11492);
  (11499, 11502); (11506, 11507); (11517, 11517); (11520, 11557); (11559, 11559); (11565, 11565);
  (11568, 11623); (11631, 11631); (11648, 11670); (11680, 11686); (11688, 11694); (11696, 11702);
  (11704, 11710); (11712, 11718); (11720, 11726); (11728, 11734); (11736, 11742); (11823, 11823);
  (12293, 12295); (12321, 12329); (12337, 12341); (12344, 12348); (12353, 12438); (12445, 12447);
  (12449, 12538); (12540, 12543); (12549, 12591); (12593, 12686); (12690, 12693); (12704, 12735);
  (12784, 12799); (12832, 12841); (12872, 12879); (12881, 12895); (12928, 12937); (12977, 12991);
  (13312, 19903); (19968, 42124); (42192, 42237); (42240, 42508); (42512, 42539); (42560, 42606);
  (42623, 42653); (42656, 42735); (42775, 42783); (42786, 42888); (42891, 42954); (42960, 42961);
  (42963, 42963); (42965, 42969); (42994, 43009); (43011, 43013); (43015, 43018); (43020, 43042);
  (43056, 43061); (43072, 43123); (43138, 43187); (43216, 43225); (43250, 43255); (43259, 43259)]%N.

Definition word_ranges_3 : list (N * N) :=
  [(43261, 43262); (43264, 43301); (43312, 43334); (43360, 43388); (43396, 43442); (43471, 43481);
  (43488, 43492); (43494, 43518); (43520, 43560); (43584, 43586); (43588, 43595); (43600, 43609);
  (43616, 43638); (43642, 43642); (43646, 43695); (43697, 43697); (43701, 43702); (43705, 43709);
  (43712, 43712); (43714, 43714); (43739, 43741); (43744, 43754); (43762, 43764); (43777, 43782);
  (43785, 43790); (43793, 43798); (43808, 43814); (43816, 43822); (43824, 43866); (43868, 43881);
  (43888, 44002); (44016, 44025); (44032, 55203); (55216, 55238); (55243, 55291); (63744, 64109);
  (64112, 64217); (64256, 64262); (64275, 64279); (64285, 64285); (64287, 64296); (64298, 64310);
  (64312, 64316); (64318, 64318); (64320, 64321); (64323, 64324); (64326, 64433); (64467, 64829);
  (64848, 64911); (64914, 64967); (65008, 65019); (65136, 65140); (65142, 65276); (65296, 65305);
  (65313, 65338); (65345, 65370); (65382, 65470); (65474, 65479); (65482, 65487); (65490, 65495);
  (65498, 65500); (65536, 65547); (65549, 65574); (65576, 65594); (65596, 65597); (65599, 65613);
  (65616, 65629); (65664, 65786); (65799, 65843); (65856, 65912); (65930, 65931); (66176, 66204);
  (66208, 66256); (66273, 66299); (66304, 66339); (66349, 66378); (66384, 66421); (66432, 66461);
  (66464, 66499); (66504, 66511); (66513, 66517); (66560, 66717); (66720, 66729); (66736, 66771);
  (66776, 66811); (66816, 66855); (66864, 66915); (66928, 66938); (66940, 66954); (66956, 66962);
  (66964, 66965); (66967, 66977); (66979, 66993); (66995, 67001); (67003, 67004); (67072, 67382);
  (67392, 67413); (67424, 67431); (67456, 67461); (67463, 67504); (67506, 67514); (67584, 67589);
  (67592, 67592); (67594, 67637); (67639, 67640); (67644, 67644); (67647, 67669); (67672, 67702);
  (67705, 67742); (67751, 67759); (67808, 67826); (67828, 67829); (67835, 67867); (67872, 67897);
  (67968, 68023); (68028, 68047); (68050, 68096); (68112, 68115); (68117, 68119); (68121, 68149)]%N.

Definition word_ranges_4 : list (N * N) :=
  [(68160, 68168); (68192, 68222); (68224, 68255); (68288, 68295); (68297, 68324); (68331, 68335);
  (68352, 68405); (68416, 68437); (68440, 68466); (68472, 68497); (68521, 68527); (68608, 68680);
  (68736, 68786); (68800, 68850); (68858, 68899); (68912, 68921); (69216, 69246); (69248, 69289);
  (69296, 69297); (69376, 69415); (69424, 69445); (69457, 69460); (69488, 69505); (69552, 69579);
  (69600, 69622); (69635, 69687); (69714, 69743); (69745, 69746); (69749, 69749); (69763, 69807);
  (69840, 69864); (69872, 69881); (69891, 69926); (69942, 69951); (69956, 69956); (69959, 69959);
  (69968, 70002); (70006, 70006); (70019, 70066); (70081, 70084); (70096, 70106); (70108, 70108);
  (70113, 70132); (70144, 70161); (70163, 70187); (70272, 70278); (70280, 70280); (70282, 70285);
  (70287, 70301); (70303, 70312); (70320, 70366); (70384, 70393); (70405, 70412); (70415, 70416);
  (70419, 70440); (70442, 70448); (70450, 70451); (70453, 70457); (70461, 70461); (70480, 70480);
  (70493, 70497); (70656, 70708); (70727, 70730); (70736, 70745); (70751, 70753); (70784, 70831);
  (70852, 70853); (70855, 70855); (70864, 70873); (71040, 71086); (71128, 71131); (71168, 71215);
  (71236, 71236); (71248, 71257); (71296, 71338); (71352, 71352); (71360, 71369); (71424, 71450);
  (71472, 71483); (71488, 71494); (71680, 71723); (71840, 71922); (71935, 71942); (71945, 71945);
  (71948, 71955); (71957, 71958); (71960, 71983); (71999, 71999); (72001, 72001); (72016, 72025);
  (72096, 72103); (72106, 72144); (72161, 72161); (72163, 72163); (72192, 72192); (72203, 72242);
  (72250, 72250); (72272, 72272); (72284, 72329); (72349, 72349); (72368, 72440); (72704, 72712);
  (72714, 72750); (72768, 72768); (72784, 72812); (72818, 72847); (72960, 72966); (72968, 72969);
  (72971, 73008); (73030, 73030); (73040, 73049); (73056, 73061); (73063, 73064); (73066, 73097);
  (73112, 73112); (73120, 73129); (73440, 73458); (73648, 73648); (73664, 73684); (73728, 74649)]%N.

Definition word_ranges_5 : list (N * N) :=
  [(74752, 74862); (74880, 75075); (77712, 77808); (77824, 78894); (82944, 83526); (92160, 92728);
  (92736, 92766); (92768, 92777); (92784, 92862); (92864, 92873); (92880, 92909); (92928, 92975);
  (92992, 92995); (93008, 93017); (93019, 93025); (93027, 93047); (93053, 93071); (93760, 93846);
  (93952, 94026); (94032, 94032); (94099, 94111); (94176, 94177); (94179, 94179); (94208, 100343);
  (100352, 101589); (101632, 101640); (110576, 110579); (110581, 110587); (110589, 110590); (110592, 110882);
  (110928, 110930); (110948, 110951); (110960, 111355); (113664, 113770); (113776, 113788); (113792, 113800);
  (113808, 113817); (119520, 119539); (119648, 119672); (119808, 119892); (119894, 119964); (119966, 119967);
  (119970, 119970); (119973, 119974); (119977, 119980); (119982, 119993); (119995, 119995); (119997, 120003);
  (120005, 120069); (120071, 120074); (120077, 120084); (120086, 120092); (120094, 120121); (120123, 120126);
  (120128, 120132); (120134, 120134); (120138, 120144); (120146, 120485); (120488, 120512); (120514, 120538);
  (120540, 120570); (120572, 120596); (120598, 120628); (120630, 120654); (120656, 120686); (120688, 120712);
  (120714, 120744); (120746, 120770); (120772, 120779); (120782, 120831); (122624, 122654); (123136, 123180);
  (123191, 123197); (123200, 123209); (123214, 123214); (123536, 123565); (123584, 123627); (123632, 123641);
  (124896, 124902); (124904, 124907); (124909, 124910); (124912, 124926); (124928, 125124); (125127, 125135);
  (125184, 125251); (125259, 125259); (125264, 125273); (126065, 126123); (126125, 126127); (126129, 126132);
  (126209, 126253); (126255, 126269); (126464, 126467); (126469, 126495); (126497, 126498); (126500, 126500);
  (126503, 126503); (126505, 126514); (126516, 126519); (126521, 126521); (126523, 126523); (126530, 126530);
  (126535, 126535); (126537, 126537); (126539, 126539); (126541, 126543); (126545, 126546); (126548, 126548);
  (126551, 126551); (126553, 126553); (126555, 126555); (126557, 126557); (126559, 126559); (126561, 126562);
  (126564, 126564); (126567, 126570); (126572, 126578); (126580, 126583); (126585, 126588); (126590, 126590)]%N.

Definition word_ranges_6 : list (N * N) :=
  [(126592, 126601); (126603, 126619); (126625, 126627); (126629, 126633); (126635, 126651); (127232, 127244);
  (130032, 130041); (131072, 173791); (173824, 177976); (177984, 178205); (178208, 183969); (183984, 191456);
  (194560, 195101); (196608, 201546)]%N.

Definition word_ranges : list (N * N) := word_ranges_0 ++ word_ranges_1 ++ word_ranges_2 ++ word_ranges_3 ++ word_ranges_4 ++ word_ranges_5 ++ word_ranges_6.

Definition lower_title_ranges_0 : list (N * N) :=
  [(97, 122); (170, 170); (181, 181); (186, 186); (223, 246); (248, 255);
  (257, 257); (259, 259); (261, 261); (263, 263); (265, 265); (267, 267);
  (269, 269); (271, 271); (273, 273); (275, 275); (277, 277); (279, 279);
  (281, 281); (283, 283); (285, 285); (287, 287); (289, 289); (291, 291);
  (293, 293); (295, 295); (297, 297); (299, 299); (301, 301); (303, 303);
  (305, 305); (307, 307); (309, 309); (311, 312); (314, 314); (316, 316);
  (318, 318); (320, 320); (322, 322); (324, 324); (326, 326); (328, 329);
  (331, 331); (333, 333); (335, 335); (337, 337); (339, 339); (341, 341);
  (343, 343); (345, 345); (347, 347); (349, 349); (351, 351); (353, 353);
  (355, 355); (357, 357); (359, 359); (361, 361); (363, 363); (365, 365);
  (367, 367); (369, 369); (371, 371); (373, 373); (375, 375); (378, 378);
  (380, 380); (382, 384); (387, 387); (389, 389); (392, 392); (396, 397);
  (402, 402); (405, 405); (409, 411); (414, 414); (417, 417); (419, 419);
  (421, 421); (424, 424); (426, 427); (429, 429); (432, 432); (436, 436);
  (438, 438); (441, 442); (445, 447); (453, 454); (456, 457); (459, 460);
  (462, 462); (464, 464); (466, 466); (468, 468); (470, 470); (472, 472);
  (474, 474); (476, 477); (479, 479); (481, 481); (483, 483); (485, 485);
  (487, 487); (489, 489); (491, 491); (493, 493); (495, 496); (498, 499);
  (501, 501); (505, 505); (507, 507); (509, 509); (511, 511); (513, 513);
  (515, 515); (517, 517); (519, 519); (521, 521); (523, 523); (525, 525)]%N.

Definition lower_title_ranges_1 : list (N * N) :=
  [(527, 527); (529, 529); (531, 531); (533, 533); (535, 535); (537, 537);
  (539, 539); (541, 541); (543, 543); (545, 545); (547, 547); (549, 549);
  (551, 551); (553, 553); (555, 555); (557, 557); (559, 559); (561, 561);
  (563, 569); (572, 572); (575, 576); (578, 578); (583, 583); (585, 585);
  (587, 587); (589, 589); (591, 659); (661, 696); (704, 705); (736, 740);
  (837, 837); (881, 881); (883, 883); (887, 887); (890, 893); (912, 912);
  (940, 974); (976, 977); (981, 983); (985, 985); (987, 987); (989, 989);
  (991, 991); (993, 993); (995, 995); (997, 997); (999, 999); (1001, 1001);
  (1003, 1003); (1005, 1005); (1007, 1011); (1013, 1013); (1016, 1016); (1019, 1020);
  (1072, 1119); (1121, 1121); (1123, 1123); (1125, 1125); (1127, 1127); (1129, 1129);
  (1131, 1131); (1133, 1133); (1135, 1135); (1137, 1137); (1139, 1139); (1141, 1141);
  (1143, 1143); (1145, 1145); (1147, 1147); (1149, 1149); (1151, 1151); (1153, 1153);
  (1163, 1163); (1165, 1165); (1167, 1167); (1169, 1169); (1171, 1171); (1173, 1173);
  (1175, 1175); (1177, 1177); (1179, 1179); (1181, 1181); (1183, 1183); (1185, 1185);
  (1187, 1187); (1189, 1189); (1191, 1191); (1193, 1193); (1195, 1195); (1197, 1197);
  (1199, 1199); (1201, 1201); (1203, 1203); (1205, 1205); (1207, 1207); (1209, 1209);
  (1211, 1211); (1213, 1213); (1215, 1215); (1218, 1218); (1220, 1220); (1222, 1222);
  (1224, 1224); (1226, 1226); (1228, 1228); (1230, 1231); (1233, 1233); (1235, 1235);
  (1237, 1237); (1239, 1239); (1241, 1241); (1243, 1243); (1245, 1245); (1247, 1247);
  (1249, 1249); (1251, 1251); (1253, 1253); (1255, 1255); (1257, 1257); (1259, 1259)]%N.

Definition lower_title_ranges_2 : list (N * N) :=
  [(1261, 1261); (1263, 1263); (1265, 1265); (1267, 1267); (1269, 1269); (1271, 1271);
  (1273, 1273); (1275, 1275); (1277, 1277); (1279, 1279); (1281, 1281); (1283, 1283);
  (1285, 1285); (1287, 1287); (1289, 1289); (1291, 1291); (1293, 1293); (1295, 1295);
  (1297, 1297); (1299, 1299); (1301, 1301); (1303, 1303); (1305, 1305); (1307, 1307);
  (1309, 1309); (1311, 1311); (1313, 1313); (1315, 1315); (1317, 1317); (1319, 1319);
  (1321, 1321); (1323, 1323); (1325, 1325); (1327, 1327); (1376, 1416); (4304, 4346);
  (4349, 4351); (5112, 5117); (7296, 7304); (7424, 7615); (7681, 7681); (7683, 7683);
  (7685, 7685); (7687, 7687); (7689, 7689); (7691, 7691); (7693, 7693); (7695, 7695);
  (7697, 7697); (7699, 7699); (7701, 7701); (7703, 7703); (7705, 7705); (7707, 7707);
  (7709, 7709); (7711, 7711); (7713, 7713); (7715, 7715); (7717, 7717); (7719, 7719);
  (7721, 7721); (7723, 7723); (7725, 7725); (7727, 7727); (7729, 7729); (7731, 7731);
  (7733, 7733); (7735, 7735); (7737, 7737); (7739, 7739); (7741, 7741); (7743, 7743);
  (7745, 7745); (7747, 7747); (7749, 7749); (7751, 7751); (7753, 7753); (7755, 7755);
  (7757, 7757); (7759, 7759); (7761, 7761); (7763, 7763); (7765, 7765); (7767, 7767);
  (7769, 7769); (7771, 7771); (7773, 7773); (7775, 7775); (7777, 7777); (7779, 7779);
  (7781, 7781); (7783, 7783); (7785, 7785); (7787, 7787); (7789, 7789); (7791, 7791);
  (7793, 7793); (7795, 7795); (7797, 7797); (7799, 7799); (7801, 7801); (7803, 7803);
  (7805, 7805); (7807, 7807); (7809, 7809); (7811, 7811); (7813, 7813); (7815, 7815);
  (7817, 7817); (7819, 7819); (7821, 7821); (7823, 7823); (7825, 7825); (7827, 7827);
  (7829, 7837); (7839, 7839); (7841, 7841); (7843, 7843); (7845, 7845); (7847, 7847)]%N.

Definition lower_title_ranges_3 : list (N * N) :=
  [(7849, 7849); (7851, 7851); (7853, 7853); (7855, 7855); (7857, 7857); (7859, 7859);
  (7861, 7861); (7863, 7863); (7865, 7865); (7867, 7867); (7869, 7869); (7871, 7871);
  (7873, 7873); (7875, 7875); (7877, 7877); (7879, 7879); (7881, 7881); (7883, 7883);
  (7885, 7885); (7887, 7887); (7889, 7889); (7891, 7891); (7893, 7893); (7895, 7895);
  (7897, 7897); (7899, 7899); (7901, 7901); (7903, 7903); (7905, 7905); (7907, 7907);
  (7909, 7909); (7911, 7911); (7913, 7913); (7915, 7915); (7917, 7917); (7919, 7919);
  (7921, 7921); (7923, 7923); (7925, 7925); (7927, 7927); (7929, 7929); (7931, 7931);
  (7933, 7933); (7935, 7943); (7952, 7957); (7968, 7975); (7984, 7991); (8000, 8005);
  (8016, 8023); (8032, 8039); (8048, 8061); (8064, 8116); (8118, 8119); (8124, 8124);
  (8126, 8126); (8130, 8132); (8134, 8135); (8140, 8140); (8144, 8147); (8150, 8151);
  (8160, 8167); (8178, 8180); (8182, 8183); (8188, 8188); (8305, 8305); (8319, 8319);
  (8336, 8348); (8458, 8458); (8462, 8463); (8467, 8467); (8495, 8495); (8500, 8500);
  (8505, 8505); (8508, 8509); (8518, 8521); (8526, 8526); (8560, 8575); (8580, 8580);
  (9424, 9449); (11312, 11359); (11361, 11361); (11365, 11366); (11368, 11368); (11370, 11370);
  (11372, 11372); (11377, 11377); (11379, 11380); (11382, 11389); (11393, 11393); (11395, 11395);
  (11397, 11397); (11399, 11399); (11401, 11401); (11403, 11403); (11405, 11405); (11407, 11407);
  (11409, 11409); (11411, 11411); (11413, 11413); (11415, 11415); (11417, 11417); (11419, 11419);
  (11421, 11421); (11423, 11423); (11425, 11425); (11427, 11427); (11429, 11429); (11431, 11431);
  (11433, 11433); (11435, 11435); (11437, 11437); (11439, 11439); (11441, 11441); (11443, 11443);
  (11445, 11445); (11447, 11447); (11449, 11449); (11451, 11451); (11453, 11453); (11455, 11455)]%N.

Definition lower_title_ranges_4 : list (N * N) :=
  [(11457, 11457); (11459, 11459); (11461, 11461); (11463, 11463); (11465, 11465); (11467, 11467);
  (11469, 11469); (11471, 11471); (11473, 11473); (11475, 11475); (11477, 11477); (11479, 11479);
  (11481, 11481); (11483, 11483); (11485, 11485); (11487, 11487); (11489, 11489); (11491, 11492);
  (11500, 11500); (11502, 11502); (11507, 11507); (11520, 11557); (11559, 11559); (11565, 11565);
  (42561, 42561); (42563, 42563); (42565, 42565); (42567, 42567); (42569, 42569); (42571, 42571);
  (42573, 42573); (42575, 42575); (42577, 42577); (42579, 42579); (42581, 42581); (42583, 42583);
  (42585, 42585); (42587, 42587); (42589, 42589); (42591, 42591); (42593, 42593); (42595, 42595);
  (42597, 42597); (42599, 42599); (42601, 42601); (42603, 42603); (42605, 42605); (42625, 42625);
  (42627, 42627); (42629, 42629); (42631, 42631); (42633, 42633); (42635, 42635); (42637, 42637);
  (42639, 42639); (42641, 42641); (42643, 42643); (42645, 42645); (42647, 42647); (42649, 42649);
  (42651, 42653); (42787, 42787); (42789, 42789); (42791, 42791); (42793, 42793); (42795, 42795);
  (42797, 42797); (42799, 42801); (42803, 42803); (42805, 42805); (42807, 42807); (42809, 42809);
  (42811, 42811); (42813, 42813); (42815, 42815); (42817, 42817); (42819, 42819); (42821, 42821);
  (42823, 42823); (42825, 42825); (42827, 42827); (42829, 42829); (42831, 42831); (42833, 42833);
  (42835, 42835); (42837, 42837); (42839, 42839); (42841, 42841); (42843, 42843); (42845, 42845);
  (42847, 42847); (42849, 42849); (42851, 42851); (42853, 42853); (42855, 42855); (42857, 42857);
  (42859, 42859); (42861, 42861); (42863, 42872); (42874, 42874); (42876, 42876); (42879, 42879);
  (42881, 42881); (42883, 42883); (42885, 42885); (42887, 42887); (42892, 42892); (42894, 42894);
  (42897, 42897); (42899, 42901); (42903, 42903); (42905, 42905); (42907, 42907); (42909, 42909);
  (42911, 42911); (42913, 42913); (42915, 42915); (42917, 42917); (42919, 42919); (42921, 42921)]%N.

Definition lower_title_ranges_5 : list (N * N) :=
  [(42927, 42927); (42933, 42933); (42935, 42935); (42937, 42937); (42939, 42939); (42941, 42941);
  (42943, 42943); (42945, 42945); (42947, 42947); (42952, 42952); (42954, 42954); (42961, 42961);
  (42963, 42963); (42965, 42965); (42967, 42967); (42969, 42969); (42998, 42998); (43000, 43002);
  (43824, 43866); (43868, 43880); (43888, 43967); (64256, 64262); (64275, 64279); (65345, 65370);
  (66600, 66639); (66776, 66811); (66967, 66977); (66979, 66993); (66995, 67001); (67003, 67004);
  (67456, 67456); (67459, 67461); (67463, 67504); (67506, 67514); (68800, 68850); (71872, 71903);
  (93792, 93823); (119834, 119859); (119886, 119892); (119894, 119911); (119938, 119963); (119990, 119993);
  (119995, 119995); (119997, 120003); (120005, 120015); (120042, 120067); (120094, 120119); (120146, 120171);
  (120198, 120223); (120250, 120275); (120302, 120327); (120354, 120379); (120406, 120431); (120458, 120485);
  (120514, 120538); (120540, 120545); (120572, 120596); (120598, 120603); (120630, 120654); (120656, 120661);
  (120688, 120712); (120714, 120719); (120746, 120770); (120772, 120777); (120779, 120779); (122624, 122633);
  (122635, 122654); (125218, 125251)]%N.

Definition lower_title_ranges : list (N * N) := lower_title_ranges_0 ++ lower_title_ranges_1 ++ lower_title_ranges_2 ++ lower_title_ranges_3 ++ lower_title_ranges_4 ++ lower_title_ranges_5.

Definition upper_ranges_0 : list (N * N) :=
  [(65, 90); (192, 214); (216, 222); (256, 256); (258, 258); (260, 260);
  (262, 262); (264, 264); (266, 266); (268, 268); (270, 270); (272, 272);
  (274, 274); (276, 276); (278, 278); (280, 280); (282, 282); (284, 284);
  (286, 286); (288, 288); (290, 290); (292, 292); (294, 294); (296, 296);
  (298, 298); (300, 300); (302, 302); (304, 304); (306, 306); (308, 308);
  (310, 310); (313, 313); (315, 315); (317, 317); (319, 319); (321, 321);
  (323, 323); (325, 325); (327, 327); (330, 330); (332, 332); (334, 334);
  (336, 336); (338, 338); (340, 340); (342, 342); (344, 344); (346, 346);
  (348, 348); (350, 350); (352, 352); (354, 354); (356, 356); (358, 358);
  (360, 360); (362, 362); (364, 364); (366, 366); (368, 368); (370, 370);
  (372, 372); (374, 374); (376, 377); (379, 379); (381, 381); (385, 386);
  (388, 388); (390, 391); (393, 395); (398, 401); (403, 404); (406, 408);
  (412, 413); (415, 416); (418, 418); (420, 420); (422, 423); (425, 425);
  (428, 428); (430, 431); (433, 435); (437, 437); (439, 440); (444, 444);
  (452, 452); (455, 455); (458, 458); (461, 461); (463, 463); (465, 465);
  (467, 467); (469, 469); (471, 471); (473, 473); (475, 475); (478, 478);
  (480, 480); (482, 482); (484, 484); (486, 486); (488, 488); (490, 490);
  (492, 492); (494, 494); (497, 497); (500, 500); (502, 504); (506, 506);
  (508, 508); (510, 510); (512, 512); (514, 514); (516, 516); (518, 518);
  (520, 520); (522, 522); (524, 524); (526, 526); (528, 528); (530, 530)]%N.

Definition upper_ranges_1 : list (N * N) :=
  [(532, 532); (534, 534); (536, 536); (538, 538); (540, 540); (542, 542);
  (544, 544); (546, 546); (548, 548); (550, 550); (552, 552); (554, 554);
  (556, 556); (558, 558); (560, 560); (562, 562); (570, 571); (573, 574);
  (577, 577); (579, 582); (584, 584); (586, 586); (588, 588); (590, 590);
  (880, 880); (882, 882); (886, 886); (895, 895); (902, 902); (904, 906);
  (908, 908); (910, 911); (913, 929); (931, 939); (975, 975); (978, 980);
  (984, 984); (986, 986); (988, 988); (990, 990); (992, 992); (994, 994);
  (996, 996); (998, 998); (1000, 1000); (1002, 1002); (1004, 1004); (1006, 1006);
  (1012, 1012); (1015, 1015); (1017, 1018); (1021, 1071); (1120, 1120); (1122, 1122);
  (1124, 1124); (1126, 1126); (1128, 1128); (1130, 1130); (1132, 1132); (1134, 1134);
  (1136, 1136); (1138, 1138); (1140, 1140); (1142, 1142); (1144, 1144); (1146, 1146);
  (1148, 1148); (1150, 1150); (1152, 1152); (1162, 1162); (1164, 1164); (1166, 1166);
  (1168, 1168); (1170, 1170); (1172, 1172); (1174, 1174); (1176, 1176); (1178, 1178);
  (1180, 1180); (1182, 1182); (1184, 1184); (1186, 1186); (1188, 1188); (1190, 1190);
  (1192, 1192); (1194, 1194); (1196, 1196); (1198, 1198); (1200, 1200); (1202, 1202);
  (1204, 1204); (1206, 1206); (1208, 1208); (1210, 1210); (1212, 1212); (1214, 1214);
  (1216, 1217); (1219, 1219); (1221, 1221); (1223, 1223); (1225, 1225); (1227, 1227);
  (1229, 1229); (1232, 1232); (1234, 1234); (1236, 1236); (1238, 1238); (1240, 1240);
  (1242, 1242); (1244, 1244); (1246, 1246); (1248, 1248); (1250, 1250); (1252, 1252);
  (1254, 1254); (1256, 1256); (1258, 1258); (1260, 1260); (1262, 1262); (1264, 1264)]%N.

Definition upper_ranges_2 : list (N * N) :=
  [(1266, 1266); (1268, 1268); (1270, 1270); (1272, 1272); (1274, 1274); (1276, 1276);
  (1278, 1278); (1280, 1280); (1282, 1282); (1284, 1284); (1286, 1286); (1288, 1288);
  (1290, 1290); (1292, 1292); (1294, 1294); (1296, 1296); (1298, 1298); (1300, 1300);
  (1302, 1302); (1304, 1304); (1306, 1306); (1308, 1308); (1310, 1310); (1312, 1312);
  (1314, 1314); (1316, 1316); (1318, 1318); (1320, 1320); (1322, 1322); (1324, 1324);
  (1326, 1326); (1329, 1366); (4256, 4293); (4295, 4295); (4301, 4301); (5024, 5109);
  (7312, 7354); (7357, 7359); (7680, 7680); (7682, 7682); (7684, 7684); (7686, 7686);
  (7688, 7688); (7690, 7690); (7692, 7692); (7694, 7694); (7696, 7696); (7698, 7698);
  (7700, 7700); (7702, 7702); (7704, 7704); (7706, 7706); (7708, 7708); (7710, 7710);
  (7712, 7712); (7714, 7714); (7716, 7716); (7718, 7718); (7720, 7720); (7722, 7722);
  (7724, 7724); (7726, 7726); (7728, 7728); (7730, 7730); (7732, 7732); (7734, 7734);
  (7736, 7736); (7738, 7738); (7740, 7740); (7742, 7742); (7744, 7744); (7746, 7746);
  (7748, 7748); (7750, 7750); (7752, 7752); (7754, 7754); (7756, 7756); (7758, 7758);
  (7760, 7760); (7762, 7762); (7764, 7764); (7766, 7766); (7768, 7768); (7770, 7770);
  (7772, 7772); (7774, 7774); (7776, 7776); (7778, 7778); (7780, 7780); (7782, 7782);
  (7784, 7784); (7786, 7786); (7788, 7788); (7790, 7790); (7792, 7792); (7794, 7794);
  (7796, 7796); (7798, 7798); (7800, 7800); (7802, 7802); (7804, 7804); (7806, 7806);
  (7808, 7808); (7810, 7810); (7812, 7812); (7814, 7814); (7816, 7816); (7818, 7818);
  (7820, 7820); (7822, 7822); (7824, 7824); (7826, 7826); (7828, 7828); (7838, 7838);
  (7840, 7840); (7842, 7842); (7844, 7844); (7846, 7846); (7848, 7848); (7850, 7850)]%N.

Definition upper_ranges_3 : list (N * N) :=
  [(7852, 7852); (7854, 7854); (7856, 7856); (7858, 7858); (7860, 7860); (7862, 7862);
  (7864, 7864); (7866, 7866); (7868, 7868); (7870, 7870); (7872, 7872); (7874, 7874);
  (7876, 7876); (7878, 7878); (7880, 7880); (7882, 7882); (7884, 7884); (7886, 7886);
  (7888, 7888); (7890, 7890); (7892, 7892); (7894, 7894); (7896, 7896); (7898, 7898);
  (7900, 7900); (7902, 7902); (7904, 7904); (7906, 7906); (7908, 7908); (7910, 7910);
  (7912, 7912); (7914, 7914); (7916, 7916); (7918, 7918); (7920, 7920); (7922, 7922);
  (7924, 7924); (7926, 7926); (7928, 7928); (7930, 7930); (7932, 7932); (7934, 7934);
  (7944, 7951); (7960, 7965); (7976, 7983); (7992, 7999); (8008, 8013); (8025, 8025);
  (8027, 8027); (8029, 8029); (8031, 8031); (8040, 8047); (8120, 8123); (8136, 8139);
  (8152, 8155); (8168, 8172); (8184, 8187); (8450, 8450); (8455, 8455); (8459, 8461);
  (8464, 8466); (8469, 8469); (8473, 8477); (8484, 8484); (8486, 8486); (8488, 8488);
  (8490, 8493); (8496, 8499); (8510, 8511); (8517, 8517); (8544, 8559); (8579, 8579);
  (9398, 9423); (11264, 11311); (11360, 11360); (11362, 11364); (11367, 11367); (11369, 11369);
  (11371, 11371); (11373, 11376); (11378, 11378); (11381, 11381); (11390, 11392); (11394, 11394);
  (11396, 11396); (11398, 11398); (11400, 11400); (11402, 11402); (11404, 11404); (11406, 11406);
  (11408, 11408); (11410, 11410); (11412, 11412); (11414, 11414); (11416, 11416); (11418, 11418);
  (11420, 11420); (11422, 11422); (11424, 11424); (11426, 11426); (11428, 11428); (11430, 11430);
  (11432, 11432); (11434, 11434); (11436, 11436); (11438, 11438); (11440, 11440); (11442, 11442);
  (11444, 11444); (11446, 11446); (11448, 11448); (11450, 11450); (11452, 11452); (11454, 11454);
  (11456, 11456); (11458, 11458); (11460, 11460); (11462, 11462); (11464, 11464); (11466, 11466)]%N.

Definition upper_ranges_4 : list (N * N) :=
  [(11468, 11468); (11470, 11470); (11472, 11472); (11474, 11474); (11476, 11476); (11478, 11478);
  (11480, 11480); (11482, 11482); (11484, 11484); (11486, 11486); (11488, 11488); (11490, 11490);
  (11499, 11499); (11501, 11501); (11506, 11506); (42560, 42560); (42562, 42562); (42564, 42564);
  (42566, 42566); (42568, 42568); (42570, 42570); (42572, 42572); (42574, 42574); (42576, 42576);
  (42578, 42578); (42580, 42580); (42582, 42582); (42584, 42584); (42586, 42586); (42588, 42588);
  (42590, 42590); (42592, 42592); (42594, 42594); (42596, 42596); (42598, 42598); (42600, 42600);
  (42602, 42602); (42604, 42604); (42624, 42624); (42626, 42626); (42628, 42628); (42630, 42630);
  (42632, 42632); (42634, 42634); (42636, 42636); (42638, 42638); (42640, 42640); (42642, 42642);
  (42644, 42644); (42646, 42646); (42648, 42648); (42650, 42650); (42786, 42786); (42788, 42788);
  (42790, 42790); (42792, 42792); (42794, 42794); (42796, 42796); (42798, 42798); (42802, 42802);
  (42804, 42804); (42806, 42806); (42808, 42808); (42810, 42810); (42812, 42812); (42814, 42814);
  (42816, 42816); (42818, 42818); (42820, 42820); (42822, 42822); (42824, 42824); (42826, 42826);
  (42828, 42828); (42830, 42830); (42832, 42832); (42834, 42834); (42836, 42836); (42838, 42838);
  (42840, 42840); (42842, 42842); (42844, 42844); (42846, 42846); (42848, 42848); (42850, 42850);
  (42852, 42852); (42854, 42854); (42856, 42856); (42858, 42858); (42860, 42860); (42862, 42862);
  (42873, 42873); (42875, 42875); (42877, 42878); (42880, 42880); (42882, 42882); (42884, 42884);
  (42886, 42886); (42891, 42891); (42893, 42893); (42896, 42896); (42898, 42898); (42902, 42902);
  (42904, 42904); (42906, 42906); (42908, 42908); (42910, 42910); (42912, 42912); (42914, 42914);
  (42916, 42916); (42918, 42918); (42920, 42920); (42922, 42926); (42928, 42932); (42934, 42934);
  (42936, 42936); (42938, 42938); (42940, 42940); (42942, 42942); (42944, 42944); (42946, 42946)]%N.

Definition upper_ranges_5 : list (N * N) :=
  [(42948, 42951); (42953, 42953); (42960, 42960); (42966, 42966); (42968, 42968); (42997, 42997);
  (65313, 65338); (66560, 66599); (66736, 66771); (66928, 66938); (66940, 66954); (66956, 66962);
  (66964, 66965); (68736, 68786); (71840, 71871); (93760, 93791); (119808, 119833); (119860, 119885);
  (119912, 119937); (119964, 119964); (119966, 119967); (119970, 119970); (119973, 119974); (119977, 119980);
  (119982, 119989); (120016, 120041); (120068, 120069); (120071, 120074); (120077, 120084); (120086, 120092);
  (120120, 120121); (120123, 120126); (120128, 120132); (120134, 120134); (120138, 120144); (120172, 120197);
  (120224, 120249); (120276, 120301); (120328, 120353); (120380, 120405); (120432, 120457); (120488, 120512);
  (120546, 120570); (120604, 120628); (120662, 120686); (120720, 120744); (120778, 120778); (125184, 125217);
  (127280, 127305); (127312, 127337); (127344, 127369)]%N.

Definition upper_ranges : list (N * N) := upper_ranges_0 ++ upper_ranges_1 ++ upper_ranges_2 ++ upper_ranges_3 ++ upper_ranges_4 ++ upper_ranges_5.

Definition decimal_zeros : list N :=
  [48; 1632; 1776; 1984; 2406; 2534; 2662; 2790; 2918; 3046;
   3174; 3302; 3430; 3558; 3664; 3792; 3872; 4160; 4240; 6112;
   6160; 6470; 6608; 6784; 6800; 6992; 7088; 7232; 7248; 42528;
   43216; 43264; 43472; 43504; 43600; 44016; 65296; 66720; 68912; 69734;
   69872; 69942; 70096; 70384; 70736; 70864; 71248; 71360; 71472; 71904;
   72016; 72784; 73040; 73120; 92768; 92864; 93008; 120782; 120792; 120802;
   120812; 120822; 123200; 123632; 125264; 130032]%N.

Definition upper_runs_0 : list (N * N * N * Z) :=
  [(97, 122, 1, (-32)%Z); (181, 181, 1, 743%Z); (224, 246, 1, (-32)%Z); (248, 254, 1, (-32)%Z);
  (255, 255, 1, 121%Z); (257, 303, 2, (-1)%Z); (305, 305, 1, (-232)%Z); (307, 311, 2, (-1)%Z);
  (314, 328, 2, (-1)%Z); (331, 375, 2, (-1)%Z); (378, 382, 2, (-1)%Z); (383, 383, 1, (-300)%Z);
  (384, 384, 1, 195%Z); (387, 389, 2, (-1)%Z); (392, 392, 1, (-1)%Z); (396, 396, 1, (-1)%Z);
  (402, 402, 1, (-1)%Z); (405, 405, 1, 97%Z); (409, 409, 1, (-1)%Z); (410, 410, 1, 163%Z);
  (414, 414, 1, 130%Z); (417, 421, 2, (-1)%Z); (424, 424, 1, (-1)%Z); (429, 429, 1, (-1)%Z);
  (432, 432, 1, (-1)%Z); (436, 438, 2, (-1)%Z); (441, 441, 1, (-1)%Z); (445, 445, 1, (-1)%Z);
  (447, 447, 1, 56%Z); (453, 453, 1, (-1)%Z); (454, 454, 1, (-2)%Z); (456, 456, 1, (-1)%Z);
  (457, 457, 1, (-2)%Z); (459, 459, 1, (-1)%Z); (460, 460, 1, (-2)%Z); (462, 476, 2, (-1)%Z);
  (477, 477, 1, (-79)%Z); (479, 495, 2, (-1)%Z); (498, 498, 1, (-1)%Z); (499, 499, 1, (-2)%Z);
  (501, 501, 1, (-1)%Z); (505, 543, 2, (-1)%Z); (547, 563, 2, (-1)%Z); (572, 572, 1, (-1)%Z);
  (575, 576, 1, 10815%Z); (578, 578, 1, (-1)%Z); (583, 591, 2, (-1)%Z); (592, 592, 1, 10783%Z);
  (593, 593, 1, 10780%Z); (594, 594, 1, 10782%Z); (595, 595, 1, (-210)%Z); (596, 596, 1, (-206)%Z);
  (598, 599, 1, (-205)%Z); (601, 601, 1, (-202)%Z); (603, 603, 1, (-203)%Z); (604, 604, 1, 42319%Z);
  (608, 608, 1, (-205)%Z); (609, 609, 1, 42315%Z); (611, 611, 1, (-207)%Z); (613, 613, 1, 42280%Z);
  (614, 614, 1, 42308%Z); (616, 616, 1, (-209)%Z); (617, 617, 1, (-211)%Z); (618, 618, 1, 42308%Z);
  (619, 619, 1, 10743%Z); (620, 620, 1, 42305%Z); (623, 623, 1, (-211)%Z); (625, 625, 1, 10749%Z);
  (626, 626, 1, (-213)%Z); (629, 629, 1, (-214)%Z); (637, 637, 1, 10727%Z); (640, 640, 1, (-218)%Z);
  (642, 642, 1, 42307%Z); (643, 643, 1, (-218)%Z); (647, 647, 1, 42282%Z); (648, 648, 1, (-218)%Z);
  (649, 649, 1, (-69)%Z); (650, 651, 1, (-217)%Z); (652, 652, 1, (-71)%Z); (658, 658, 1, (-219)%Z);
  (669, 669, 1, 42261%Z); (670, 670, 1, 42258%Z); (837, 837, 1, 84%Z); (881, 883, 2, (-1)%Z);
  (887, 887, 1, (-1)%Z); (891, 893, 1, 130%Z); (940, 940, 1, (-38)%Z); (941, 943, 1, (-37)%Z);
  (945, 961, 1, (-32)%Z); (962, 962, 1, (-31)%Z); (963, 971, 1, (-32)%Z); (972, 972, 1, (-64)%Z);
  (973, 974, 1, (-63)%Z); (976, 976, 1, (-62)%Z); (977, 977, 1, (-57)%Z); (981, 981, 1, (-47)%Z);
  (982, 982, 1, (-54)%Z); (983, 983, 1, (-8)%Z); (985, 1007, 2, (-1)%Z); (1008, 1008, 1, (-86)%Z);
  (1009, 1009, 1, (-80)%Z); (1010, 1010, 1, 7%Z); (1011, 1011, 1, (-116)%Z); (1013, 1013, 1, (-96)%Z);
  (1016, 1016, 1, (-1)%Z); (1019, 1019, 1, (-1)%Z); (1072, 1103, 1, (-32)%Z); (1104, 1119, 1, (-80)%Z);
  (1121, 1153, 2, (-1)%Z); (1163, 1215, 2, (-1)%Z); (1218, 1230, 2, (-1)%Z); (1231, 1231, 1, (-15)%Z);
  (1233, 1327, 2, (-1)%Z); (1377, 1414, 1, (-48)%Z); (4304, 4346, 1, 3008%Z); (4349, 4351, 1, 3008%Z);
  (5112, 5117, 1, (-8)%Z); (7296, 7296, 1, (-6254)%Z); (7297, 7297, 1, (-6253)%Z); (7298, 7298, 1, (-6244)%Z)]%N.

Definition upper_runs_1 : list (N * N * N * Z) :=
  [(7299, 7300, 1, (-6242)%Z); (7301, 7301, 1, (-6243)%Z); (7302, 7302, 1, (-6236)%Z); (7303, 7303, 1, (-6181)%Z);
  (7304, 7304, 1, 35266%Z); (7545, 7545, 1, 35332%Z); (7549, 7549, 1, 3814%Z); (7566, 7566, 1, 35384%Z);
  (7681, 7829, 2, (-1)%Z); (7835, 7835, 1, (-59)%Z); (7841, 7935, 2, (-1)%Z); (7936, 7943, 1, 8%Z);
  (7952, 7957, 1, 8%Z); (7968, 7975, 1, 8%Z); (7984, 7991, 1, 8%Z); (8000, 8005, 1, 8%Z);
  (8017, 8023, 2, 8%Z); (8032, 8039, 1, 8%Z); (8048, 8049, 1, 74%Z); (8050, 8053, 1, 86%Z);
  (8054, 8055, 1, 100%Z); (8056, 8057, 1, 128%Z); (8058, 8059, 1, 112%Z); (8060, 8061, 1, 126%Z);
  (8112, 8113, 1, 8%Z); (8126, 8126, 1, (-7205)%Z); (8144, 8145, 1, 8%Z); (8160, 8161, 1, 8%Z);
  (8165, 8165, 1, 7%Z); (8526, 8526, 1, (-28)%Z); (8560, 8575, 1, (-16)%Z); (8580, 8580, 1, (-1)%Z);
  (9424, 9449, 1, (-26)%Z); (11312, 11359, 1, (-48)%Z); (11361, 11361, 1, (-1)%Z); (11365, 11365, 1, (-10795)%Z);
  (11366, 11366, 1, (-10792)%Z); (11368, 11372, 2, (-1)%Z); (11379, 11379, 1, (-1)%Z); (11382, 11382, 1, (-1)%Z);
  (11393, 11491, 2, (-1)%Z); (11500, 11502, 2, (-1)%Z); (11507, 11507, 1, (-1)%Z); (11520, 11557, 1, (-7264)%Z);
  (11559, 11559, 1, (-7264)%Z); (11565, 11565, 1, (-7264)%Z); (42561, 42605, 2, (-1)%Z); (42625, 42651, 2, (-1)%Z);
  (42787, 42799, 2, (-1)%Z); (42803, 42863, 2, (-1)%Z); (42874, 42876, 2, (-1)%Z); (42879, 42887, 2, (-1)%Z);
  (42892, 42892, 1, (-1)%Z); (42897, 42899, 2, (-1)%Z); (42900, 42900, 1, 48%Z); (42903, 42921, 2, (-1)%Z);
  (42933, 42947, 2, (-1)%Z); (42952, 42954, 2, (-1)%Z); (42961, 42961, 1, (-1)%Z); (42967, 42969, 2, (-1)%Z);
  (42998, 42998, 1, (-1)%Z); (43859, 43859, 1, (-928)%Z); (43888, 43967, 1, (-38864)%Z); (65345, 65370, 1, (-32)%Z);
  (66600, 66639, 1, (-40)%Z); (66776, 66811, 1, (-40)%Z); (66967, 66977, 1, (-39)%Z); (66979, 66993, 1, (-39)%Z);
  (66995, 67001, 1, (-39)%Z); (67003, 67004, 1, (-39)%Z); (68800, 68850, 1, (-64)%Z); (71872, 71903, 1, (-32)%Z);
  (93792, 93823, 1, (-32)%Z); (125218, 125251, 1, (-34)%Z)]%N.

Definition upper_runs : list (N * N * N * Z) := upper_runs_0 ++ upper_runs_1.

Definition upper_special_0 : list (N * list N) :=
  [(223, [83; 83]); (329, [700; 78]); (496, [74; 780]); (912, [921; 776; 769]);
  (944, [933; 776; 769]); (1415, [1333; 1362]); (7830, [72; 817]); (7831, [84; 776]);
  (7832, [87; 778]); (7833, [89; 778]); (7834, [65; 702]); (8016, [933; 787]);
  (8018, [933; 787; 768]); (8020, [933; 787; 769]); (8022, [933; 787; 834]); (8064, [7944; 921]);
  (8065, [7945; 921]); (8066, [7946; 921]); (8067, [7947; 921]); (8068, [7948; 921]);
  (8069, [7949; 921]); (8070, [7950; 921]); (8071, [7951; 921]); (8072, [7944; 921]);
  (8073, [7945; 921]); (8074, [7946; 921]); (8075, [7947; 921]); (8076, [7948; 921]);
  (8077, [7949; 921]); (8078, [7950; 921]); (8079, [7951; 921]); (8080, [7976; 921]);
  (8081, [7977; 921]); (8082, [7978; 921]); (8083, [7979; 921]); (8084, [7980; 921]);
  (8085, [7981; 921]); (8086, [7982; 921]); (8087, [7983; 921]); (8088, [7976; 921]);
  (8089, [7977; 921]); (8090, [7978; 921]); (8091, [7979; 921]); (8092, [7980; 921]);
  (8093, [7981; 921]); (8094, [7982; 921]); (8095, [7983; 921]); (8096, [8040; 921]);
  (8097, [8041; 921]); (8098, [8042; 921]); (8099, [8043; 921]); (8100, [8044; 921]);
  (8101, [8045; 921]); (8102, [8046; 921]); (8103, [8047; 921]); (8104, [8040; 921]);
  (8105, [8041; 921]); (8106, [8042; 921]); (8107, [8043; 921]); (8108, [8044; 921]);
  (8109, [8045; 921]); (8110, [8046; 921]); (8111, [8047; 921]); (8114, [8122; 921]);
  (8115, [913; 921]); (8116, [902; 921]); (8118, [913; 834]); (8119, [913; 834; 921]);
  (8124, [913; 921]); (8130, [8138; 921]); (8131, [919; 921]); (8132, [905; 921]);
  (8134, [919; 834]); (8135, [919; 834; 921]); (8140, [919; 921]); (8146, [921; 776; 768]);
  (8147, [921; 776; 769]); (8150, [921; 834]); (8151, [921; 776; 834]); (8162, [933; 776; 768]);
  (8163, [933; 776; 769]); (8164, [929; 787]); (8166, [933; 834]); (8167, [933; 776; 834]);
  (8178, [8186; 921]); (8179, [937; 921]); (8180, [911; 921]); (8182, [937; 834]);
  (8183, [937; 834; 921]); (8188, [937; 921]); (64256, [70; 70]); (64257, [70; 73]);
  (64258, [70; 76]); (64259, [70; 70; 73]); (64260, [70; 70; 76]); (64261, [83; 84]);
  (64262, [83; 84]); (64275, [1348; 1350]); (64276, [1348; 1333]); (64277, [1348; 1339]);
  (64278, [1358; 1350]); (64279, [1348; 1341])]%N.

Definition upper_special : list (N * list N) := upper_special_0.

Definition in_ranges (rs : list (N * N)) (c : pchar) : bool :=
  existsb (fun r => in_range (fst r) (snd r) c) rs.

(** [unicodedata.decimal(c, None)]. *)
Definition decimal_value (c : pchar) : option N :=
  match find (fun z => in_range z (z + 9) c) decimal_zeros with
  | Some z => Some (c - z)%N
  | None => None
  end.

Fixpoint lstrip (s : pstr) : pstr :=
  match s with
  | c :: t => if is_space c then lstrip t else s
  | [] => []
  end.

(** [str.strip()]. *)
Definition strip (s : pstr) : pstr := rev (lstrip (rev (lstrip s))).

(** [str.split()]: maximal runs of non-whitespace characters. *)
Fixpoint split_aux (s cur : pstr) : list pstr :=
  match s with
  | [] => match cur with [] => [] | _ => [rev cur] end
  | c :: t =>
      if is_space c then
        match cur with
        | [] => split_aux t []
        | _ => rev cur :: split_aux t []
        end
      else split_aux t (c :: cur)
  end.

Definition split (s : pstr) : list pstr := split_aux s [].

(** The simple lowercase mapping that [re.IGNORECASE] applies to a subject
    character. *)
Definition lower (c : pchar) : pchar :=
  if in_range 65 90 c then (c + 32)%N
  else if N.eqb c 304 then 105%N        (* LATIN CAPITAL LETTER I WITH DOT ABOVE *)
  else if N.eqb c 8490 then 107%N       (* KELVIN SIGN *)
  else if in_range 192 222 c && negb (N.eqb c 215) then (c + 32)%N
  else c.

(** A lowercase ASCII literal [x] of an [re.IGNORECASE] pattern matches the
    subject character [c]: equal lowercase forms, or one of the two extra
    equivalences of [sre_compile] for ASCII letters (i/dotless i, s/long s). *)
Definition ci_eq (x c : pchar) : bool :=
  let l := lower c in
  N.eqb l x || (N.eqb x 105 && N.eqb l 305) || (N.eqb x 115 && N.eqb l 383).

Fixpoint ci_prefix (lit s : pstr) : bool :=
  match lit, s with
  | [], _ => true
  | x :: lit', c :: s' => ci_eq x c && ci_prefix lit' s'
  | _ :: _, [] => false
  end.

(** [re.search(lit, s, re.IGNORECASE)] for a literal pattern. *)
Fixpoint ci_contains (lit s : pstr) : bool :=
  ci_prefix lit s || match s with [] => false | _ :: s' => ci_contains lit s' end.

(* ------------------------------------------------------------------ *)
(** *** [float(s)] succeeds

    [PyFloat_FromString] first maps the text to ASCII
    ([_PyUnicode_TransformDecimalAndSpaceToASCII]), then strips ASCII
    whitespace ([Py_ISSPACE]) and accepts
    [[sign] (floatnumber | "inf" | "infinity" | "nan")], the words in any
    ASCII case, where
    [floatnumber ::= ([digitpart] "." digitpart | digitpart ["."]) [exponent]],
    [digitpart ::= digit (["_"] digit)*] and
    [exponent ::= ("e"|"E") ["+"|"-"] digitpart]. *)

(** [_PyUnicode_TransformDecimalAndSpaceToASCII] on a text that is not
    ASCII: characters below 127 are kept, other whitespace becomes a space
    and other decimal digits their ASCII digit; the first other character
    becomes ['?'] and ends the text. *)
Fixpoint transform_chars (s : pstr) : pstr :=
  match s with
  | [] => []
  | c :: t =>
      if (c <? 127)%N then c :: transform_chars t
      else if is_space c then 32%N :: transform_chars t
      else match decimal_value c with
           | Some d => (48 + d)%N :: transform_chars t
           | None => [63%N]
           end
  end.

(** An ASCII text is returned as it is. *)
Definition to_ascii_text (s : pstr) : pstr :=
  if forallb (fun c => (c <? 128)%N) s then s else transform_chars s.

(** [Py_ISSPACE]. *)
Definition is_ascii_space (c : pchar) : bool := existsb (N.eqb c) [32; 9; 10; 11; 12; 13]%N.

Fixpoint lstrip_ascii (s : pstr) : pstr :=
  match s with
  | c :: t => if is_ascii_space c then lstrip_ascii t else s
  | [] => []
  end.

Definition strip_ascii (s : pstr) : pstr := rev (lstrip_ascii (rev (lstrip_ascii s))).

Definition ascii_lower (c : pchar) : pchar := if in_range 65 90 c then (c + 32)%N else c.

Fixpoint ascii_ci_word (w s : pstr) : bool :=
  match w, s with
  | [], [] => true
  | x :: w', c :: s' => N.eqb (ascii_lower c) x && ascii_ci_word w' s'
  | _, _ => false
  end.

Definition skip_sign (s : pstr) : pstr :=
  match s with
  | c :: t => if N.eqb c 43 || N.eqb c 45 then t else s
  | [] => []
  end.

(** The rest of a [digitpart] after its first digit. *)
Fixpoint digits_tail (s : pstr) : pstr :=
  match s with
  | c :: t =>
      if is_digit c then digits_tail t
      else if N.eqb c 95 then
        match t with
        | d :: t' => if is_digit d then digits_tail t' else s
        | [] => s
        end
      else s
  | [] => []
  end.

Definition digitpart (s : pstr) : option pstr :=
  match s with
  | d :: t => if is_digit d then Some (digits_tail t) else None
  | [] => None
  end.

Definition number (s : pstr) : option pstr :=
  match digitpart s with
  | Some r =>
      match r with
      | c :: r' =>
          if N.eqb c 46 then
            match digitpart r' with Some r'' => Some r'' | None => Some r' end
          else Some r
      | [] => Some []
      end
  | None =>
      match s with
      | c :: r => if N.eqb c 46 then digitpart r else None
      | [] => None
      end
  end.

Definition exponent_opt (r : pstr) : option pstr :=
  match r with
  | c :: t => if N.eqb c 101 || N.eqb c 69 then digitpart (skip_sign t) else Some r
  | [] => Some []
  end.

(** [float(s)] returns instead of raising [ValueError]. *)
Definition py_float_ok (s : pstr) : bool :=
  let t := skip_sign (strip_ascii (to_ascii_text s)) in
  ascii_ci_word (u "inf") t || ascii_ci_word (u "infinity") t
  || ascii_ci_word (u "nan") t
  || match number t with
     | Some r => match exponent_opt r with Some [] => true | _ => false end
     | None => false
     end.

(** [s.replace(',', '.')]. *)
Definition replace_comma (s : pstr) : pstr :=
  map (fun c => if N.eqb c 44 then 46%N else c) s.

(* ================================================================== *)
(** ** pandas cells *)

Inductive value :=
| VNaN                 (* None or NaN: [pd.isna] holds *)
| VNum (repr : pstr)   (* a number; [repr] is its [str] *)
| VBool (b : bool)
| VStr (s : pstr).

(** [str(cell)] of a cell that is neither None nor NaN. *)
Definition cell_text (v : value) : option pstr :=
  match v with
  | VNaN => None
  | VNum r => Some r
  | VBool b => Some (if b then u "True" else u "False")
  | VStr s => Some s
  end.

Definition is_emptyb {A} (l : list A) : bool := match l with [] => true | _ => false end.

Definition is_some {A} (o : option A) : bool := match o with Some _ => true | None => false end.

(* ================================================================== *)
(** ** [is_header_row] *)

Definition header_keywords : list pstr :=
  map u ["name"; "company"; "currency"; "price"; "amount"; "total";
         "invoice"; "date"; "sum"; "vendor"]%string.

(** [header_pattern.search(cell_str)]. *)
Definition header_pattern_search (s : pstr) : bool :=
  existsb (fun kw => ci_contains kw s) header_keywords.

(** The [for cell in row] loop: returns [(non_numeric_count,
    header_keyword_count)]. *)
Fixpoint header_loop (row : list value) (nn hk : nat) : nat * nat :=
  match row with
  | [] => (nn, hk)
  | cell :: rest =>
      match cell_text cell with
      | None => header_loop rest nn hk
      | Some s =>
          let cell_str := strip s in
          if is_emptyb cell_str then header_loop rest nn hk
          else
            let hk' := if header_pattern_search cell_str then S hk else hk in
            let nn' := if py_float_ok (replace_comma cell_str) then nn else S nn in
            header_loop rest nn' hk'
      end
  end.

Definition cell_non_empty (cell : value) : bool :=
  match cell_text cell with
  | None => false
  | Some s => negb (is_emptyb (strip s))
  end.

Definition non_empty_cells (row : list value) : nat :=
  length (filter cell_non_empty row).

Definition Qltb (x y : Q) : bool := negb (Qle_bool y x).

Definition ratio (k n : nat) : Q := (inject_Z (Z.of_nat k) / inject_Z (Z.of_nat n))%Q.

Definition is_header_row (row : list value) : bool :=
  let '(non_numeric_count, header_keyword_count) := header_loop row 0 0 in
  let n := non_empty_cells row in
  if Nat.eqb n 0 then false
  else
    let header_keyword_ratio := ratio header_keyword_count n in
    let non_numeric_ratio := ratio non_numeric_count n in
    Qltb (3 # 10)%Q header_keyword_ratio || Qltb (7 # 10)%Q non_numeric_ratio.

(** The specification's reading of a row: the stripped text of each
    non-empty cell, and the ratios over them. *)
Definition row_texts (row : list value) : list pstr :=
  filter (fun s => negb (is_emptyb s))
    (map strip (flat_map (fun cell => match cell_text cell with
                                      | Some s => [s]
                                      | None => []
                                      end) row)).

Definition keyword_hits (row : list value) : nat :=
  length (filter header_pattern_search (row_texts row)).

Definition nonnumeric_hits (row : list value) : nat :=
  length (filter (fun s => negb (py_float_ok (replace_comma s))) (row_texts row)).

Definition keyword_ratio (row : list value) : Q :=
  ratio (keyword_hits row) (length (row_texts row)).

Definition nonnumeric_ratio (row : list value) : Q :=
  ratio (nonnumeric_hits row) (length (row_texts row)).

(** Characters that can occur in a string [float] accepts. *)
Definition float_char (c : pchar) : bool :=
  is_digit c || is_space c || is_some (decimal_value c)
  || existsb (N.eqb c) [43; 45; 46; 95; 101; 69]%N
  || existsb (N.eqb (ascii_lower c)) [105; 110; 102; 116; 121; 97]%N.

(** Letters of which every header keyword has one: m c p o v d. *)
Definition key_letter (x : pchar) : bool :=
  existsb (N.eqb x) [109; 99; 112; 111; 118; 100]%N.

(* ================================================================== *)
(** ** More of Python's character tables *)

(** [\w] of a [str] pattern ([str.isalnum] or underscore). *)
Definition is_word (c : pchar) : bool := in_ranges word_ranges c.

(** [str.upper] of one character (a character may become up to three). *)
Definition upper_char (c : pchar) : pstr :=
  match find (fun e => N.eqb (fst e) c) upper_special with
  | Some e => snd e
  | None =>
      match find (fun r => let '(lo, hi, step, _) := r in
                           in_range lo hi c && N.eqb ((c - lo) mod step) 0) upper_runs with
      | Some (_, _, _, delta) => [Z.to_N (Z.of_N c + delta)]
      | None => [c]
      end
  end.

Definition upper (s : pstr) : pstr := flat_map upper_char s.

(** A lowercase or titlecase character: [str.isupper] is false on a text
    that has one. *)
Definition is_lower_char (c : pchar) : bool := in_ranges lower_title_ranges c.

Definition is_upper_char (c : pchar) : bool := in_ranges upper_ranges c.

(** [str.isupper()]: no lowercase character and at least one uppercase one. *)
Definition str_isupper (s : pstr) : bool :=
  forallb (fun c => negb (is_lower_char c)) s && existsb is_upper_char s.

Fixpoint pstr_eqb (a b : pstr) : bool :=
  match a, b with
  | [], [] => true
  | x :: a', y :: b' => N.eqb x y && pstr_eqb a' b'
  | _, _ => false
  end.

(* ------------------------------------------------------------------ *)
(** *** The column-name regexes

    The label patterns of the classifiers are built from case-insensitive
    literals, [\s], concatenation and [*]; [pattern.search] only needs to
    know whether some substring matches, decided with derivatives. *)

Inductive rx :=
| RNone
| REps
| RLit (x : pchar)    (* a lowercase ASCII literal under [re.IGNORECASE] *)
| RSpace              (* [\s] *)
| RCat (a b : rx)
| RAlt (a b : rx)
| RStar (a : rx).

Fixpoint nullable (r : rx) : bool :=
  match r with
  | RNone | RLit _ | RSpace => false
  | REps | RStar _ => true
  | RCat a b => nullable a && nullable b
  | RAlt a b => nullable a || nullable b
  end.

Fixpoint deriv (c : pchar) (r : rx) : rx :=
  match r with
  | RNone | REps => RNone
  | RLit x => if ci_eq x c then REps else RNone
  | RSpace => if is_space c then REps else RNone
  | RCat a b =>
      if nullable a then RAlt (RCat (deriv c a) b) (deriv c b) else RCat (deriv c a) b
  | RAlt a b => RAlt (deriv c a) (deriv c b)
  | RStar a => RCat (deriv c a) (RStar a)
  end.

(** Some prefix of [s] matches [r]. *)
Fixpoint rx_prefix (r : rx) (s : pstr) : bool :=
  nullable r || match s with [] => false | c :: t => rx_prefix (deriv c r) t end.

(** [re.search(r, s)] is not None. *)
Fixpoint rx_search (r : rx) (s : pstr) : bool :=
  rx_prefix r s || match s with [] => false | _ :: t => rx_search r t end.

Definition rlit (s : string) : rx := fold_right (fun x r => RCat (RLit x) r) REps (u s).
Definition ws_star : rx := RStar RSpace.
(** [a\s*b] *)
Definition rws (a b : rx) : rx := RCat a (RCat ws_star b).

(* ------------------------------------------------------------------ *)
(** *** Numbers in pandas

    A number cell [VNum r] denotes the value its [str] [r] spells: an
    integer numeral, a decimal numeral with a fraction or an exponent, or
    [inf], [-inf]. *)

Inductive xnum := XFin (q : Q) | XPInf | XNInf.

Fixpoint plain_digits (s : pstr) : pstr :=
  match s with
  | c :: t => if is_digit c then plain_digits t else s
  | [] => []
  end.

(** The digits at the head of [s], as a number, with their count. *)
Fixpoint take_digits (s : pstr) (acc : Z) (k : nat) : Z * nat * pstr :=
  match s with
  | c :: t => if is_digit c then take_digits t (acc * 10 + Z.of_N (c - 48))%Z (S k)
              else (acc, k, s)
  | [] => (acc, k, [])
  end.

(** The value of a decimal numeral [[sign] digits ["." digits] [("e"|"E") [sign] digits]]. *)
Definition numeral_value (t : pstr) : Q :=
  let sgn := match t with c :: _ => if N.eqb c 45 then (-1)%Z else 1%Z | [] => 1%Z end in
  let '(ip, _, r1) := take_digits (skip_sign t) 0 0 in
  let '(fp, nf, r2) :=
    match r1 with
    | c :: r => if N.eqb c 46 then take_digits r 0 0 else (0%Z, 0%nat, r1)
    | [] => (0%Z, 0%nat, [])
    end in
  let ex :=
    match r2 with
    | c :: r =>
        let esgn := match r with d :: _ => if N.eqb d 45 then (-1)%Z else 1%Z | [] => 1%Z end in
        let '(e, _, _) := take_digits (skip_sign r) 0 0 in (esgn * e)%Z
    | [] => 0%Z
    end in
  (inject_Z (sgn * (ip * 10 ^ Z.of_nat nf + fp)) / inject_Z (10 ^ Z.of_nat nf)
   * Qpower (inject_Z 10) ex)%Q.

(** The value of a number cell. *)
Definition num_value (r : pstr) : xnum :=
  if pstr_eqb r (u "inf") then XPInf
  else if pstr_eqb r (u "-inf") then XNInf
  else XFin (numeral_value r).

Definition digits_value (t : pstr) : Z :=
  fold_left (fun acc c => (acc * 10 + Z.of_N (c - 48))%Z) t 0%Z.

(** A number cell is a Python [int] when its [str] is an integer numeral
    [["-"] digits]; a [float]'s [str] always has a ["."], an exponent or is
    [inf]. *)
Definition int_repr (r : pstr) : option Z :=
  let '(neg, t) := match r with
                   | c :: t => if N.eqb c 45 then (true, t) else (false, r)
                   | [] => (false, [])
                   end in
  if negb (is_emptyb t) && forallb is_digit t then
    Some (if neg then (- digits_value t)%Z else digits_value t)
  else None.

(** Decimal text of numbers. *)
Fixpoint N_digits_rev (fuel : nat) (n : N) : pstr :=
  match fuel with
  | O => []
  | S f => (48 + n mod 10)%N :: (if (n <? 10)%N then [] else N_digits_rev f (n / 10)%N)
  end.

Definition N_text (n : N) : pstr := rev (N_digits_rev (S (N.to_nat (N.size n))) n).

(** [str] of a Python [int]. *)
Definition Z_text (z : Z) : pstr :=
  if (z <? 0)%Z then 45%N :: N_text (Z.abs_N z) else N_text (Z.to_N z).

(* ------------------------------------------------------------------ *)
(** *** IEEE doubles *)

Definition f64_round (m e : Z) : spec_float := binary_normalize 53 1024 m e false.
Definition f64_mul : spec_float -> spec_float -> spec_float := SFmul 53 1024.
Definition f64_add : spec_float -> spec_float -> spec_float := SFadd 53 1024.
Definition f64_div : spec_float -> spec_float -> spec_float := SFdiv 53 1024.

(** A numeral of the exact value of a double: its digits, a ["."] and at
    least one fraction digit ([str] gives the shortest numeral that reads
    back as the same double; both denote the same number here). *)
(** Binary zeros of a mantissa moved into the exponent. *)
Fixpoint trim2 (m : positive) (e : Z) : positive * Z :=
  match m with
  | xO m' => if (e <? 0)%Z then trim2 m' (e + 1) else (m, e)
  | _ => (m, e)
  end.

Definition float_text (x : spec_float) : pstr :=
  match x with
  | S754_zero s => (if s then [45%N] else []) ++ u "0.0"
  | S754_infinity s => (if s then [45%N] else []) ++ u "inf"
  | S754_nan => u "nan"
  | S754_finite s m0 e0 =>
      let '(m, e) := trim2 m0 e0 in
      let sign := if s then [45%N] else [] in
      if (0 <=? e)%Z then sign ++ N_text (Npos m * 2 ^ Z.to_N e)%N ++ u ".0"
      else
        let k := Z.to_nat (- e) in
        let d := N_text (Npos m * 5 ^ Z.to_N (- e))%N in
        let d := repeat 48%N (S k - length d) ++ d in
        sign ++ firstn (length d - k) d ++ [46%N] ++ skipn (length d - k) d
  end.

(* ------------------------------------------------------------------ *)
(** *** pandas' string parser ([floatify])

    [floatify] encodes the [str] to UTF-8 and reads it as a C string, up to
    its first NUL.  [precise_xstrtod] parses it with double arithmetic; when
    that fails, the text is compared with the words [inf], [infinity]
    (optionally signed) in any ASCII case.  A character outside ASCII is
    never a digit, a sign, a point, an exponent mark or whitespace for
    the parser. *)

(** C [int] arithmetic on the exponent: 32 bits; a signed overflow wraps
    in the compiled code. *)
Definition wrap32 (z : Z) : Z := ((z + 2 ^ 31) mod 2 ^ 32 - 2 ^ 31)%Z.

Definition max_digits : Z := 17.

Definition digit_f64 (c : pchar) : spec_float := f64_round (Z.of_N (c - 48)) 0.

(** [number = number * 10. + (c - '0')]. *)
Definition push_digit (number : spec_float) (c : pchar) : spec_float :=
  f64_add (f64_mul number (f64_round 10 0)) (digit_f64 c).

(** The digits before the point: at most [max_digits] are accumulated,
    each further one raises [exponent]. *)
Fixpoint int_digits (s : pstr) (number : spec_float) (num_digits exponent : Z)
  : spec_float * Z * Z * pstr :=
  match s with
  | c :: t =>
      if is_digit c then
        if (num_digits <? max_digits)%Z
        then int_digits t (push_digit number c) (num_digits + 1) exponent
        else int_digits t number num_digits (exponent + 1)
      else (number, num_digits, exponent, s)
  | [] => (number, num_digits, exponent, [])
  end.

(** The digits after the point, while fewer than [max_digits] digits were
    read; the caller consumes the remaining digits. *)
Fixpoint frac_digits (s : pstr) (number : spec_float) (num_digits num_decimals : Z)
  : spec_float * Z * Z * pstr :=
  match s with
  | c :: t =>
      if (num_digits <? max_digits)%Z && is_digit c
      then frac_digits t (push_digit number c) (num_digits + 1) (num_decimals + 1)
      else (number, num_digits, num_decimals, s)
  | [] => (number, num_digits, num_decimals, [])
  end.

(** The exponent digits: at most [max_digits]. *)
Fixpoint exp_digits (s : pstr) (n num_digits : Z) : Z * Z * pstr :=
  match s with
  | c :: t =>
      if (num_digits <? max_digits)%Z && is_digit c
      then exp_digits t (wrap32 (n * 10 + Z.of_N (c - 48))) (num_digits + 1)
      else (n, num_digits, s)
  | [] => (n, num_digits, [])
  end.

(** The table [e] of powers of ten, [1e0] to [1e308], as the compiler
    rounds the literals. *)
Definition e10 (k : Z) : spec_float := f64_round (10 ^ k) 0.

Definition is_inf (x : spec_float) : bool :=
  match x with S754_infinity _ => true | _ => false end.

(** [precise_xstrtod(str, &endptr, '.', 'E', '\0', 1, &error, &maybe_int)]:
    the number, whether [error] was set, [maybe_int], and the text from
    [endptr] on. *)
Definition precise_xstrtod (str : pstr) : spec_float * bool * bool * pstr :=
  let p := lstrip_ascii str in
  let '(negative, p) :=
    match p with
    | c :: t => if N.eqb c 45 then (true, t) else if N.eqb c 43 then (false, t) else (false, p)
    | [] => (false, [])
    end in
  let '(number, num_digits, exponent, p) := int_digits p (S754_zero false) 0 0 in
  let '(maybe_int, number, num_digits, exponent, p) :=
    match p with
    | c :: t =>
        if N.eqb c 46 then
          let '(number, num_digits, num_decimals, p) := frac_digits t number num_digits 0 in
          (false, number, num_digits, (exponent - num_decimals)%Z, plain_digits p)
        else (true, number, num_digits, exponent, p)
    | [] => (true, number, num_digits, exponent, [])
    end in
  if (num_digits =? 0)%Z then (S754_zero false, true, maybe_int, p)
  else
    let number := if negative then SFopp number else number in
    let '(maybe_int, exponent, p) :=
      match p with
      | c :: t =>
          if N.eqb c 101 || N.eqb c 69 then
            let '(eneg, signed, t') :=
              match t with
              | d :: t'' => if N.eqb d 45 then (true, true, t'')
                            else if N.eqb d 43 then (false, true, t'') else (false, false, t)
              | [] => (false, false, [])
              end in
            let '(n, nd, rest) := exp_digits t' 0 0 in
            let exponent := if eneg then wrap32 (exponent - n) else wrap32 (exponent + n) in
            (* with no digits after the mark, [p--] steps back onto the sign or the mark *)
            (false, exponent, if (nd =? 0)%Z then (if signed then t else p) else rest)
          else (maybe_int, exponent, p)
      | [] => (maybe_int, exponent, [])
      end in
    if (308 <? exponent)%Z then (S754_infinity false, true, maybe_int, p)
    else
      let number :=
        if (0 <? exponent)%Z then f64_mul number (e10 exponent)
        else if (exponent <? -308)%Z then
          if (exponent <? -616)%Z then S754_zero false
          else f64_div (f64_div number (e10 (-308 - exponent))) (e10 308)
        else f64_div number (e10 (- exponent)) in
      (number, is_inf number, maybe_int, lstrip_ascii p).

(** The C string of the UTF-8 text: up to the first NUL. *)
Fixpoint c_string (s : pstr) : pstr :=
  match s with
  | [] => []
  | c :: t => if N.eqb c 0 then [] else c :: c_string t
  end.

Definition pd_inf_word (s : pstr) : bool :=
  existsb (fun w => ascii_ci_word w s)
    (map u ["inf"; "+inf"; "infinity"; "+infinity"]%string).

Definition pd_neg_inf_word (s : pstr) : bool :=
  existsb (fun w => ascii_ci_word w s) (map u ["-inf"; "-infinity"]%string).

(** [floatify(val, &fval, &maybe_int)]: the double and [maybe_int], or
    [None] when it raises [ValueError] (a lone surrogate cannot be encoded
    to UTF-8: [UnicodeEncodeError]). *)
Definition floatify (s : pstr) : option (spec_float * bool) :=
  if existsb (in_range 55296 57343) s then None
  else
    let data := c_string s in
    let '(number, error, maybe_int, rest) := precise_xstrtod data in
    if negb error && is_emptyb rest then Some (number, maybe_int)
    else if pd_inf_word data then Some (S754_infinity false, false)
    else if pd_neg_inf_word data then Some (S754_infinity true, false)
    else None.

Definition skip_plus (t : pstr) : pstr :=
  match t with
  | c :: r => if N.eqb c 43 then r else t
  | [] => []
  end.

(** What the loop of [maybe_convert_numeric] records for one cell of an
    object column: nothing (NaN), a float (its text), an [int] (its value
    and the text of its float), or a [bool]. *)
Inductive num_cell := NCNull | NCFloat (r : pstr) | NCInt (z : Z) (r : pstr) | NCBool (b : bool).

(** One cell, [errors='coerce']: a [str] that [floatify] rejects is NaN;
    with [maybe_int] its [int(val)] is taken, which raises on a NUL. *)
Definition classify_cell (v : value) : num_cell :=
  match v with
  | VNaN => NCNull
  | VBool b => NCBool b
  | VNum r => match int_repr r with
              | Some z => NCInt z (float_text (f64_round z 0))
              | None => NCFloat r
              end
  | VStr s =>
      match floatify s with
      | None => NCNull
      | Some (x, false) => NCFloat (float_text x)
      | Some (x, true) =>
          if existsb (N.eqb 0) s then NCNull
          else
            let t := strip_ascii s in
            NCInt (match int_repr (skip_plus t) with Some z => z | None => 0%Z end) (float_text x)
      end
  end.

(* ================================================================== *)
(** ** DataFrames *)

Inductive col_dtype := DNumeric | DObject.

(** A column: its label ([str(col)]), its dtype and its cells. *)
Record column := mkcol { label : pstr; dtype : col_dtype; values : list value }.

(** A parsed table: its row count (the length of its index), its columns
    in order, and its row labels: [None] for the default [RangeIndex]
    [0, 1, ...]; [Some labels] when [pd.read_csv] took the first field of
    each row as the index (the data rows having one field more than the
    header). *)
Record frame := mkframe { nrows : nat; cols : list column; row_labels : option (list value) }.

(* ------------------------------------------------------------------ *)
(** *** [pd.to_numeric(column, errors='coerce')]

    A column of a numeric dtype (numbers or [bool]s) is returned as it is.
    The cells of an object column go through [maybe_convert_numeric]. *)

Definition int64_min : Z := (- 2 ^ 63)%Z.
Definition int64_max : Z := (2 ^ 63 - 1)%Z.
Definition uint64_max : Z := (2 ^ 64 - 1)%Z.

(** The value of [values.astype("i8")] at a cell, when it equals the cell:
    an [int] or an integral [float] in the int64 range, or a [bool]. *)
Definition i8_value (v : value) : option Z :=
  match v with
  | VBool b => Some (if b then 1 else 0)%Z
  | VNum r =>
      match num_value r with
      | XFin q =>
          if (Z.modulo (Qnum q) (Zpos (Qden q)) =? 0)%Z then
            let z := (Qnum q / Zpos (Qden q))%Z in
            if (int64_min <=? z)%Z && (z <=? int64_max)%Z then Some z else None
          else None
      | _ => None
      end
  | _ => None
  end.

(** The fast path of [maybe_convert_numeric]: when the first cell is an
    [int] and [values.astype("i8") == values] holds everywhere, the int64
    array is returned. *)
Definition fast_path (vs : list value) : option (list value) :=
  match vs with
  | VNum r :: _ =>
      match int_repr r with
      | Some _ =>
          let zs := map i8_value vs in
          if forallb is_some zs
          then Some (map (fun o => VNum (Z_text (match o with Some z => z | None => 0%Z end))) zs)
          else None
      | None => None
      end
  | _ => None
  end.

Definition cell_ints (cells : list num_cell) : list Z :=
  flat_map (fun x => match x with NCInt z _ => [z] | _ => [] end) cells.

(** [maybe_convert_numeric(values, set(), coerce_numeric=True)]: the
    flags [seen.float_], [seen.int_], [seen.uint_], [seen.sint_] decide
    between a float64, a (u)int64 and a bool result. *)
Definition convert_numeric (vs : list value) : list value :=
  match fast_path vs with
  | Some out => out
  | None =>
      let cells := map classify_cell vs in
      let ints := cell_ints cells in
      let sint_ := existsb (fun z => (int64_min <=? z)%Z && (z <? 0)%Z) ints in
      let uint_ := existsb (fun z => (int64_max <? z)%Z && (z <=? uint64_max)%Z) ints in
      let float_ :=
        existsb (fun x => match x with
                          | NCNull | NCFloat _ => true
                          | NCInt z _ => negb ((int64_min <=? z)%Z && (z <=? uint64_max)%Z)
                          | NCBool _ => false
                          end) cells
        || (sint_ && uint_) in
      if float_ then
        map (fun x => match x with
                      | NCNull => VNaN
                      | NCFloat r | NCInt _ r => VNum r
                      | NCBool b => VNum (if b then u "1.0" else u "0.0")
                      end) cells
      else if negb (is_emptyb ints) then
        map (fun x => match x with
                      | NCInt z _ => VNum (Z_text z)
                      | NCBool b => VNum (if b then u "1" else u "0")
                      | _ => VNaN
                      end) cells
      else map (fun x => match x with NCBool b => VBool b | _ => VNaN end) cells
  end.

Definition to_numeric_column (c : column) : list value :=
  match dtype c with
  | DNumeric => values c
  | DObject => convert_numeric (values c)
  end.

(** A cell of a converted column as a number; [None] is NaN (a numeric
    column holds no [str]). *)
Definition value_number (v : value) : option xnum :=
  match v with
  | VNaN | VStr _ => None
  | VNum r => Some (num_value r)
  | VBool b => Some (XFin (if b then 1 else 0)%Q)
  end.

Definition numeric_cells (c : column) : list (option xnum) :=
  map value_number (to_numeric_column c).

(** Equality of row labels in [df.drop]'s index lookup: numbers by value,
    NaN with NaN, [bool]s and [str]s by value.  The labels of one index
    are of one kind (numbers, [bool]s, or [str]s with NaN). *)
Definition label_eqb (a b : value) : bool :=
  match a, b with
  | VNaN, VNaN => true
  | VNum r, VNum r' =>
      match num_value r, num_value r' with
      | XFin x, XFin y => Qeq_bool x y
      | XPInf, XPInf | XNInf, XNInf => true
      | _, _ => false
      end
  | VBool x, VBool y => Bool.eqb x y
  | VStr s, VStr s' => pstr_eqb s s'
  | _, _ => false
  end.

(** [df[l]], or [None] for a [KeyError]. *)
Definition lookup (df : frame) (l : pstr) : option column :=
  find (fun c => pstr_eqb (label c) l) (cols df).

(** [df[col].dropna().astype(str).head(k)]. *)
Definition sample_texts (c : column) (k : nat) : list pstr :=
  firstn k (flat_map (fun v => match cell_text v with Some s => [s] | None => [] end)
                     (values c)).

Definition count {A} (p : A -> bool) (l : list A) : nat := length (filter p l).

Definition Qnat (n : nat) : Q := inject_Z (Z.of_nat n).

(** [Series.mean()] of a non-empty series. *)
Definition mean (l : list Q) : Q := (fold_right Qplus 0 l / Qnat (length l))%Q.

(** [l.sort(key=lambda x: x[1], reverse=True)]: a stable sort by
    decreasing score, by insertion. *)
Fixpoint insert_desc (x : pstr * Q) (l : list (pstr * Q)) : list (pstr * Q) :=
  match l with
  | [] => [x]
  | y :: l' => if Qle_bool (snd x) (snd y) then y :: insert_desc x l' else x :: l
  end.

Definition sort_desc (l : list (pstr * Q)) : list (pstr * Q) :=
  fold_left (fun acc x => insert_desc x acc) l [].

(** [is_numeric(val)]. *)
Definition is_numeric (s : pstr) : bool := py_float_ok (replace_comma s).

(** [for pattern in patterns: for col in df.columns: if pattern.search(str(col)): return col]. *)
Fixpoint first_label_match (pats : list rx) (cs : list column) : option pstr :=
  match pats with
  | [] => None
  | p :: ps =>
      match find (fun c => rx_search p (label c)) cs with
      | Some c => Some (label c)
      | None => first_label_match ps cs
      end
  end.

(** [string_columns[0][0]] if its score passes [ok]. *)
Definition top_scored (ok : Q -> bool) (l : list (pstr * Q)) : option pstr :=
  match sort_desc l with
  | (col, score) :: _ => if ok score then Some col else None
  | [] => None
  end.

(* ------------------------------------------------------------------ *)
(** *** [detect_full_company_name] *)

Definition full_name_patterns : list rx :=
  [ rws (rlit "company") (RCat (RStar (rlit "full")) (RCat ws_star (rlit "name")));
    rws (rlit "full") (rlit "name");
    rws (rlit "vendor") (rlit "name");
    rws (rlit "supplier") (rlit "name");
    rws (rlit "business") (rlit "name");
    rws (rlit "client") (rlit "name");
    rws (rlit "full") (rlit "company");
    rlit "company" ].

(** [re.search(r'[A-Z][a-z]', x)]. *)
Fixpoint has_cap_pair (s : pstr) : bool :=
  match s with
  | a :: ((b :: _) as t) => (in_range 65 90 a && in_range 97 122 b) || has_cap_pair t
  | _ => false
  end.

Definition boundary (prev next : option pchar) : bool :=
  let w o := match o with Some c => is_word c | None => false end in
  xorb (w prev) (w next).

Fixpoint exact_prefix (lit s : pstr) : bool :=
  match lit, s with
  | [], _ => true
  | x :: lit', c :: s' => N.eqb x c && exact_prefix lit' s'
  | _ :: _, [] => false
  end.

(** [re.search(r'\b(w1|w2|...)\b', s)], case-sensitive. *)
Fixpoint word_search (ws : list pstr) (prev : option pchar) (s : pstr) : bool :=
  (boundary prev (hd_error s)
   && existsb (fun w => exact_prefix w s
                        && boundary (last (map Some w) None) (nth_error s (length w))) ws)
  || match s with [] => false | c :: t => word_search ws (Some c) t end.

Definition business_words : list pstr :=
  map u ["Inc"; "LLC"; "Ltd"; "GmbH"; "Corp"; "Company"; "Co"]%string.

Definition full_name_score (sample : list pstr) : Q :=
  let n := length sample in
  let avg_words := mean (map (fun x => Qnat (length (split x))) sample) in
  let has_capitalization := Qltb (1 # 2) (ratio (count has_cap_pair sample) n) in
  let avg_length := mean (map (fun x => Qnat (length x)) sample) in
  let business_terms :=
    Qltb (1 # 5) (ratio (count (word_search business_words None) sample) n) in
  (avg_words * 2 + (if has_capitalization then 3 else 0) + avg_length * (1 # 10)
   + (if business_terms then 4 else 0))%Q.

Definition full_name_candidates (df : frame) : list (pstr * Q) :=
  flat_map (fun c =>
    let sample := sample_texts c 10 in
    if forallb is_numeric sample then [] else [(label c, full_name_score sample)])
  (cols df).

Definition detect_full_company_name (df : frame) : option pstr :=
  match first_label_match full_name_patterns (cols df) with
  | Some col => Some col
  | None => top_scored (fun sc => Qltb 2 sc) (full_name_candidates df)
  end.

(* ------------------------------------------------------------------ *)
(** *** [detect_short_company_name] *)

Definition short_name_patterns : list rx :=
  [ rws (rlit "short") (RCat (RStar (rlit "company")) (RCat ws_star (rlit "name")));
    rws (rlit "company") (rws (rlit "short") (rlit "name"));
    rlit "abbrev";
    rlit "short";
    rlit "code";
    rlit "acronym" ].

Definition short_name_score (sample : list pstr) : Q :=
  let n := length sample in
  let avg_words := mean (map (fun x => Qnat (length (split x))) sample) in
  let is_uppercase := Qltb (1 # 2) (ratio (count str_isupper sample) n) in
  let avg_length := mean (map (fun x => Qnat (length x)) sample) in
  let length_score := if Qltb avg_length 15 then (10 / (avg_length + 1))%Q else 0%Q in
  let uppercase_score := if is_uppercase then 2%Q else 0%Q in
  let word_score := if Qle_bool avg_words 2 then 3%Q else 0%Q in
  (length_score + uppercase_score + word_score)%Q.

(** [col == full_name_col]. *)
Definition is_col (full_name_col : option pstr) (l : pstr) : bool :=
  match full_name_col with Some f => pstr_eqb l f | None => false end.

Definition short_name_candidates (df : frame) (full_name_col : option pstr)
  : list (pstr * Q) :=
  flat_map (fun c =>
    if is_col full_name_col (label c) then []
    else
      let sample := sample_texts c 10 in
      if forallb is_numeric sample then [] else [(label c, short_name_score sample)])
  (cols df).

Definition detect_short_company_name (df : frame) (full_name_col : option pstr)
  : option pstr :=
  match first_label_match short_name_patterns (cols df) with
  | Some col => Some col
  | None => top_scored (fun sc => Qltb 2 sc) (short_name_candidates df full_name_col)
  end.

(* ------------------------------------------------------------------ *)
(** *** [detect_currency] *)

Definition currency_patterns : list rx := [rlit "currency"; rlit "curr"; rlit "ccy"].

Definition currency_codes : list pstr :=
  map u ["USD"; "EUR"; "GBP"; "JPY"; "AUD"; "CAD"; "CHF"; "CNY"; "INR"]%string.

(** [$ € £ ¥ ₹ ₽ ₩] *)
Definition currency_symbols : list pchar := [36; 8364; 163; 165; 8377; 8381; 8361]%N.

Definition currency_score (sample : list pstr) : nat :=
  let code_matches :=
    count (fun v => existsb (fun code => pstr_eqb code (upper (strip v))) currency_codes) sample in
  let symbol_matches :=
    count (fun v => existsb (fun sym => existsb (N.eqb sym) v) currency_symbols) sample in
  (* the mean of an empty sample is NaN, and [1 <= NaN] is false *)
  let length_score :=
    match sample with
    | [] => 0%nat
    | _ => let avg_length := mean (map (fun x => Qnat (length x)) sample) in
           if Qle_bool 1 avg_length && Qle_bool avg_length 4 then 2%nat else 0%nat
    end in
  (code_matches * 2 + symbol_matches * 2 + length_score)%nat.

(** The [for col in df.columns] loop with [best_match], [best_score]. *)
Fixpoint currency_scan (cs : list column) (best_match : option pstr) (best_score : nat)
  : option pstr * nat :=
  match cs with
  | [] => (best_match, best_score)
  | c :: rest =>
      match dtype c with
      | DNumeric => currency_scan rest best_match best_score
      | DObject =>
          let score := currency_score (sample_texts c 20) in
          if Nat.ltb best_score score then currency_scan rest (Some (label c)) score
          else currency_scan rest best_match best_score
      end
  end.

Definition detect_currency (df : frame) : option pstr :=
  match first_label_match currency_patterns (cols df) with
  | Some col => Some col
  | None =>
      let '(best_match, best_score) := currency_scan (cols df) None 0 in
      if Nat.leb 2 best_score then best_match else None
  end.

(* ------------------------------------------------------------------ *)
(** *** [is_numeric_column] and [detect_price] *)

(** [pd.to_numeric(column, errors='coerce').notna().mean() >= 0.5]; the
    mean of an empty column is NaN. *)
Definition is_numeric_column (c : column) : bool :=
  let n := length (values c) in
  if Nat.eqb n 0 then false
  else Qle_bool (1 # 2) (ratio (count is_some (numeric_cells c)) n).

Definition price_patterns : list rx :=
  map rlit ["price"; "amount"; "total"; "sum"; "cost"; "fee"; "value"]%string.

(** The name-pattern tier of [detect_price]: a label match is returned only
    when [is_numeric_column] accepts the column. *)
Fixpoint price_name_tier (pats : list rx) (cs : list column) : option pstr :=
  match pats with
  | [] => None
  | p :: ps =>
      match find (fun c => rx_search p (label c) && is_numeric_column c) cs with
      | Some c => Some (label c)
      | None => price_name_tier ps cs
      end
  end.

Definition xpositive (x : xnum) : bool :=
  match x with XFin q => Qltb 0 q | XPInf => true | XNInf => false end.

(** [x % 1 != 0]; for an infinity [x % 1] is NaN. *)
Definition xhas_decimals (x : xnum) : bool :=
  match x with
  | XFin q => negb (Z.eqb (Z.modulo (Qnum q) (Zpos (Qden q))) 0)
  | _ => true
  end.

Fixpoint all_finite (l : list xnum) : option (list Q) :=
  match l with
  | [] => Some []
  | XFin q :: t => option_map (cons q) (all_finite t)
  | _ :: _ => None
  end.

Definition price_score (non_na_values : list xnum) : Q :=
  let n := length non_na_values in
  let positive_ratio := ratio (count xpositive non_na_values) n in
  let has_decimals := ratio (count xhas_decimals non_na_values) n in
  (* with an infinity the mean is infinite or NaN, outside [0.1, 1e6] *)
  let magnitude_score :=
    match all_finite non_na_values with
    | Some qs => let mean_value := mean qs in
                 if Qle_bool (1 # 10) mean_value && Qle_bool mean_value 1000000 then 1%Q
                 else 0%Q
    | None => 0%Q
    end in
  (positive_ratio * 2 + has_decimals * 2 + magnitude_score)%Q.

Definition price_candidates (df : frame) : list (pstr * Q) :=
  flat_map (fun c =>
    if is_numeric_column c then
      let vals := numeric_cells c in
      if Qltb (Qnat (nrows df) * (7 # 10)) (Qnat (count (fun o => negb (is_some o)) vals))
      then []
      else
        let non_na_values := flat_map (fun o => match o with Some x => [x] | None => [] end) vals in
        match non_na_values with
        | [] => []
        | _ => [(label c, price_score non_na_values)]
        end
    else [])
  (cols df).

Definition detect_price (df : frame) : option pstr :=
  match price_name_tier price_patterns (cols df) with
  | Some col => Some col
  | None => top_scored (fun sc => Qle_bool 2 sc) (price_candidates df)
  end.

(* ------------------------------------------------------------------ *)
(** *** [detect_columns] *)

Record detected := mkdet {
  d_full_name : option pstr;
  d_short_name : option pstr;
  d_currency : option pstr;
  d_price : option pstr }.

Definition detect_columns (df : frame) : detected :=
  let full_name := detect_full_company_name df in
  mkdet full_name (detect_short_company_name df full_name)
        (detect_currency df) (detect_price df).

Definition detected_items (d : detected) : list (pstr * option pstr) :=
  [(u "full_name", d_full_name d); (u "short_name", d_short_name d);
   (u "currency", d_currency d); (u "price", d_price d)].

(** [[k for k, v in detected_columns.items() if v is None]]. *)
Definition missing_columns (d : detected) : list pstr :=
  map fst (filter (fun kv => negb (is_some (snd kv))) (detected_items d)).

(* ------------------------------------------------------------------ *)
(** *** [generate_short_name] *)

(** The alternatives of [r'\b(Inc|LLC|Ltd|GmbH|Corp|Company|Co|Corporation|Limited|Group)\b'],
    in order, lowercased for [re.IGNORECASE]. *)
Definition suffix_words : list pstr :=
  map u ["inc"; "llc"; "ltd"; "gmbh"; "corp"; "company"; "co"; "corporation";
         "limited"; "group"]%string.

(** The length of the first alternative that matches at the head of [s]
    and is followed by [\b]. *)
Definition kw_match (s : pstr) : option nat :=
  match find (fun w => ci_prefix w s
                       && boundary (nth_error s (length w - 1)) (nth_error s (length w)))
             suffix_words with
  | Some w => Some (length w)
  | None => None
  end.

(** [re.sub(r'\b(Inc|...|Group)\b', '', s, flags=re.IGNORECASE)]: [prev] is
    the character before [s], [skip] the number of characters of the
    current match still to delete. *)
Fixpoint sub_suffixes (prev : option pchar) (skip : nat) (s : pstr) : pstr :=
  match s with
  | [] => []
  | c :: t =>
      match skip with
      | S k => sub_suffixes (Some c) k t
      | O =>
          if boundary prev (Some c) then
            match kw_match s with
            | Some n => sub_suffixes (Some c) (n - 1) t
            | None => c :: sub_suffixes (Some c) 0 t
            end
          else c :: sub_suffixes (Some c) 0 t
      end
  end.

(** [,\s*\w+$] matches at the head of [c :: t] exactly when [c] is a comma
    and [t] is whitespace followed by one or more word characters (the
    subject never ends in a newline here: it has just been stripped). *)
Definition comma_tail (t : pstr) : bool :=
  let w := lstrip t in negb (is_emptyb w) && forallb is_word w.

(** [re.sub(r',\s*\w+$', '', s, flags=re.IGNORECASE)]: the leftmost match
    runs to the end of [s]. *)
Fixpoint sub_comma_clause (s : pstr) : pstr :=
  match s with
  | [] => []
  | c :: t => if N.eqb c 44 && comma_tail t then [] else c :: sub_comma_clause t
  end.

(** [bool(full_name)]. *)
Definition value_truthy (v : value) : bool :=
  match v with
  | VNaN => true
  | VStr s => negb (is_emptyb s)
  | VNum r => match num_value r with
              | XFin q => negb (Qeq_bool q 0)
              | _ => true
              end
  | VBool b => b
  end.

Definition generate_short_name (full_name : value) : pstr :=
  match full_name with
  | VNaN => u "Unknown"
  | _ =>
      if negb (value_truthy full_name) then u "Unknown"
      else
        let full := strip (match cell_text full_name with Some s => s | None => [] end) in
        let cleaned_name := strip (sub_suffixes None 0 full) in
        let cleaned_name := strip (sub_comma_clause cleaned_name) in
        let words := split cleaned_name in
        let acronym := flat_map (fun w => match w with c :: _ => upper_char c | [] => [] end) words in
        if Nat.ltb 1 (length words) && Nat.leb 2 (length acronym) then acronym
        else if Nat.leb (length cleaned_name) 10 then cleaned_name
        else firstn 10 cleaned_name
  end.

(** The short-name derivation on a string. *)
Definition derive (x : pstr) : pstr := generate_short_name (VStr x).

(* ------------------------------------------------------------------ *)
(** *** The standardized frame

    [pd.DataFrame()] and column assignment.  Assigning a scalar broadcasts
    it over the current rows (none, in a frame without index).  Assigning a
    non-empty Series to a frame without rows first gives the frame the
    Series' index: the columns already there are reindexed to it and hold
    NaN. *)

Record sframe := mksframe { s_nrows : nat; s_cols : list (pstr * list value) }.

Definition empty_sframe : sframe := mksframe 0 [].

Definition set_scalar (f : sframe) (name : pstr) (v : value) : sframe :=
  mksframe (s_nrows f) (s_cols f ++ [(name, repeat v (s_nrows f))]).

Definition set_series (f : sframe) (name : pstr) (vs : list value) : sframe :=
  if Nat.eqb (s_nrows f) 0 && negb (is_emptyb vs) then
    mksframe (length vs)
      (map (fun nc => (fst nc, repeat VNaN (length vs))) (s_cols f) ++ [(name, vs)])
  else mksframe (s_nrows f) (s_cols f ++ [(name, vs)]).

Definition s_get (f : sframe) (name : pstr) : option (list value) :=
  match find (fun nc => pstr_eqb (fst nc) name) (s_cols f) with
  | Some nc => Some (snd nc)
  | None => None
  end.

Definition unknown : value := VStr (u "Unknown").

(** [if detected_columns[role]:], a column label being truthy when non-empty. *)
Definition truthy_col (o : option pstr) : option pstr :=
  match o with Some l => if is_emptyb l then None else Some l | None => None end.

(** [standardize_dataframe]; [None] for a [KeyError]. *)
Definition standardize_dataframe (df : frame) (d : detected) : option sframe :=
  let step1 :=
    match truthy_col (d_full_name d) with
    | Some l => option_map (fun c => set_series empty_sframe (u "company_full_name") (values c))
                           (lookup df l)
    | None => Some (set_scalar empty_sframe (u "company_full_name") unknown)
    end in
  match step1 with
  | None => None
  | Some f1 =>
  let step2 :=
    match truthy_col (d_short_name d) with
    | Some l => option_map (fun c => set_series f1 (u "company_short_name") (values c))
                           (lookup df l)
    | None =>
        match truthy_col (d_full_name d) with
        | Some _ =>
            option_map (fun vs =>
              set_series f1 (u "company_short_name")
                (map (fun x => match x with
                               | VNaN => unknown
                               | _ => VStr (generate_short_name x)
                               end) vs))
              (s_get f1 (u "company_full_name"))
        | None => Some (set_scalar f1 (u "company_short_name") unknown)
        end
    end in
  match step2 with
  | None => None
  | Some f2 =>
  let step3 :=
    match truthy_col (d_currency d) with
    | Some l => option_map (fun c => set_series f2 (u "currency") (values c)) (lookup df l)
    | None => Some (set_scalar f2 (u "currency") unknown)
    end in
  match step3 with
  | None => None
  | Some f3 =>
    match truthy_col (d_price d) with
    | Some l => option_map (fun c => set_series f3 (u "price") (to_numeric_column c))
                           (lookup df l)
    | None => Some (set_scalar f3 (u "price") VNaN)
    end
  end
  end
  end.

(* ------------------------------------------------------------------ *)
(** *** [process_file] after [pd.read_csv] *)

Definition frame_row (df : frame) (i : nat) : list value :=
  map (fun c => nth i (values c) VNaN) (cols df).

(** The rows at the positions [keep], with a fresh [RangeIndex]. *)
Definition keep_rows (df : frame) (keep : list nat) : frame :=
  mkframe (length keep)
    (map (fun c => mkcol (label c) (dtype c) (map (fun i => nth i (values c) VNaN) keep))
         (cols df))
    None.

(** The [rows_to_drop] loop: the labels of the header rows (the positions,
    for a [RangeIndex]). *)
Definition header_positions (df : frame) : list nat :=
  filter (fun i => is_header_row (frame_row df i)) (seq 0 (nrows df)).

(** Row [i] carries the label of row [j]. *)
Definition same_label (df : frame) (j i : nat) : bool :=
  match row_labels df with
  | None => Nat.eqb j i
  | Some labels => label_eqb (nth j labels VNaN) (nth i labels VNaN)
  end.

(** [df.drop(rows_to_drop)] removes every row whose label is one of them. *)
Definition dropped (df : frame) (i : nat) : bool :=
  existsb (fun j => same_label df j i) (header_positions df).

(** [if rows_to_drop: df = df.drop(rows_to_drop).reset_index(drop=True)]. *)
Definition drop_header_rows (df : frame) : frame :=
  let rows_to_drop := header_positions df in
  if is_emptyb rows_to_drop then df
  else keep_rows df (filter (fun i => negb (dropped df i)) (seq 0 (nrows df))).

(** [df.empty]. *)
Definition frame_empty (df : frame) : bool := Nat.eqb (nrows df) 0 || is_emptyb (cols df).

Inductive pipeline_error :=
| EEmptyFile
| EOnlyHeaders
| ESchemaDetection (missing : list pstr)
| EKeyError.

(** [process_file] from the parsed [df] on. *)
Definition process_parsed (df0 : frame) : pipeline_error + sframe :=
  if frame_empty df0 then inl EEmptyFile
  else
    let df := drop_header_rows df0 in
    if frame_empty df then inl EOnlyHeaders
    else
      let detected_columns := detect_columns df in
      let missing := missing_columns detected_columns in
      if Nat.ltb 2 (length missing) then inl (ESchemaDetection missing)
      else
        match standardize_dataframe df detected_columns with
        | Some s => inr s
        | None => inl EKeyError
        end.

(* ================================================================== *)
(** ** [database.py]: the [invoices] table and [save_invoice_data] *)

(** A parameter of [cursor.execute]: an element of [tuple(row)].  A cell of
    the standardized frame is [None]/NaN, a number ([int] or [float]), a
    [bool] or a [str]; the [processed_date] column holds a
    [pandas.Timestamp]. *)
Inductive sql_param := PNull | PNum (r : pstr) | PText (s : pstr) | PTimestamp.

(** A [bool] is an [int] for sqlite3. *)
Definition param_of_value (v : value) : sql_param :=
  match v with
  | VNaN => PNull
  | VNum r => PNum r
  | VBool b => PNum (if b then u "1" else u "0")
  | VStr s => PText s
  end.

Definition sql_param_eqb (a b : sql_param) : bool :=
  match a, b with
  | PNull, PNull | PTimestamp, PTimestamp => true
  | PNum x, PNum y | PText x, PText y => pstr_eqb x y
  | _, _ => false
  end.

(** Binding one parameter ([bind_param]).  sqlite3 binds [int], [float],
    [str] (and their subclasses), buffers, and objects with an adapter
    registered for their exact type.  An [int] outside the signed 64-bit
    range raises [OverflowError] ("Python int too large to convert to
    SQLite INTEGER").  A [pandas.Timestamp] is a subclass of
    [datetime.datetime], whose adapter is keyed by [datetime.datetime]
    itself: binding it raises [sqlite3.ProgrammingError] ("type
    'Timestamp' is not supported"). *)
Inductive bind_result := BindOk | BindOverflow | BindUnsupported.

Definition bind_param (p : sql_param) : bind_result :=
  match p with
  | PTimestamp => BindUnsupported
  | PNum r =>
      match int_repr r with
      | Some z => if (int64_min <=? z)%Z && (z <=? int64_max)%Z then BindOk else BindOverflow
      | None => BindOk
      end
  | PNull | PText _ => BindOk
  end.

(** [bind_parameters]: the parameters are bound in order, and the first
    failure raises. *)
Fixpoint bind_all (ps : list sql_param) : bind_result :=
  match ps with
  | [] => BindOk
  | p :: t => match bind_param p with BindOk => bind_all t | e => e end
  end.

(** A stored row: column name and value; [id] is left out. *)
Definition db_row := list (pstr * sql_param).
Definition table := list db_row.

(** The [UNIQUE(session_id)] key of a row: NULL (absent column or [None])
    never conflicts. *)
Definition session_key (r : db_row) : option sql_param :=
  match find (fun kv => pstr_eqb (fst kv) (u "session_id")) r with
  | Some (_, PNull) | None => None
  | Some (_, p) => Some p
  end.

(** How [cursor.execute] ends: [sqlite3.IntegrityError], another
    [sqlite3.Error], or [OverflowError]. *)
Inductive exec_result := ExecOk | ExecIntegrityError | ExecOtherError | ExecOverflowError.

(** [cursor.execute("INSERT INTO invoices (cols) VALUES (?, ...)", params)]. *)
Definition execute_insert (db : table) (cols : list pstr) (params : list sql_param)
  : table * exec_result :=
  match bind_all params with
  | BindOverflow => (db, ExecOverflowError)
  | BindUnsupported => (db, ExecOtherError)
  | BindOk =>
      let r := combine cols params in
      match session_key r with
      | Some k =>
          if existsb (fun r' => match session_key r' with
                                | Some k' => sql_param_eqb k k'
                                | None => false
                                end) db
          then (db, ExecIntegrityError)
          else (db ++ [r], ExecOk)
      | None => (db ++ [r], ExecOk)
      end
  end.

Definition table_columns : list pstr :=
  map u ["evse_id"; "session_id"; "currency"; "price"; "file_name"; "processed_date"]%string.

(** [df_filtered.columns] once [file_name] and [processed_date] are set. *)
Definition save_columns (df : sframe) : list pstr :=
  filter (fun col => existsb (pstr_eqb col)
                       (map fst (s_cols df) ++ [u "file_name"; u "processed_date"]))
         table_columns.

Definition save_cell (df : sframe) (file_name : pstr) (col : pstr) (i : nat) : sql_param :=
  if pstr_eqb col (u "processed_date") then PTimestamp
  else if pstr_eqb col (u "file_name") then PText file_name
  else match s_get df col with
       | Some vs => param_of_value (nth i vs VNaN)
       | None => PNull
       end.

(** [tuple(row) for _, row in df_filtered.iterrows()]. *)
Definition save_rows (df : sframe) (file_name : pstr) : list (list sql_param) :=
  map (fun i => map (fun col => save_cell df file_name col i) (save_columns df))
      (seq 0 (s_nrows df)).

(** An exception that leaves [save_invoice_data]. *)
Inductive py_exception := OverflowError.

(** The insert loop with [inserted_count] and [skipped_count]: an
    [IntegrityError] and any other [sqlite3.Error] are both counted as
    skipped.  An [OverflowError] is no [sqlite3.Error]: it leaves the loop
    and [save_invoice_data] before [conn.commit()], and nothing of the
    transaction is committed. *)
Fixpoint insert_rows (db : table) (cols : list pstr) (rows : list (list sql_param))
    (inserted_count skipped_count : nat) : py_exception + (table * (nat * nat)) :=
  match rows with
  | [] => inr (db, (inserted_count, skipped_count))
  | row :: rest =>
      let '(db', res) := execute_insert db cols row in
      match res with
      | ExecOk => insert_rows db' cols rest (S inserted_count) skipped_count
      | ExecIntegrityError => insert_rows db' cols rest inserted_count (S skipped_count)
      | ExecOtherError => insert_rows db' cols rest inserted_count (S skipped_count)
      | ExecOverflowError => inl OverflowError
      end
  end.

(** [save_invoice_data]: the committed store and the counts, or the
    exception it raises (the store is then unchanged). *)
Definition save_invoice_data (db : table) (df : sframe) (file_name : pstr)
  : py_exception + (table * (nat * nat)) :=
  insert_rows db (save_columns df) (save_rows df file_name) 0 0.


(** [y] is, case-insensitively, one of the suffix words. *)
Definition is_suffix_word (y : pstr) : bool :=
  existsb (fun w => ci_prefix w y && Nat.eqb (length w) (length y)) suffix_words.

(* ================================================================== *)
(** ** Concrete tables *)

(** A table whose every column holds numbers: no column passes as a full
    company name, ["Code"] is a short name by its label. *)
Definition codes_table : frame :=
  mkframe 1 [mkcol (u "Code") DNumeric [VNum (u "7")];
             mkcol (u "Currency") DNumeric [VNum (u "978")];
             mkcol (u "Price") DNumeric [VNum (u "12.5")]] None.

Definition short_company_table : frame :=
  mkframe 1 [mkcol (u "Short Company Name") DObject [VStr (u "ACME")]] None.

Definition firm_table : frame :=
  mkframe 1 [mkcol (u "Firm") DObject [VStr (u "Acme Widgets International")];
             mkcol (u "Tag") DObject [VStr (u "AW")]] None.

(** An export with a repeated header row before its data row. *)
Definition invoice_table : frame :=
  mkframe 2 [mkcol (u "Company") DObject [VStr (u "Company"); VStr (u "Acme Inc")];
             mkcol (u "Currency") DObject [VStr (u "Currency"); VStr (u "EUR")];
             mkcol (u "Amount") DObject [VStr (u "Amount"); VStr (u "12.50")]] None.

(** A one-row export whose price does not fit in a signed 64-bit
    integer: [read_csv] gives the column the dtype [uint64]. *)
Definition overflow_table : frame :=
  mkframe 1 [mkcol (u "Company") DObject [VStr (u "Acme Inc")];
             mkcol (u "Currency") DObject [VStr (u "EUR")];
             mkcol (u "Price") DNumeric [VNum (u "10000000000000000000")]] None.

(** Four ligatures U+FB03 separated by spaces. *)
Definition ffi4 : pstr := [64259; 32; 64259; 32; 64259; 32; 64259]%N.

(** A [Price] column of booleans ([read_csv] reads [True] as a [bool]). *)
Definition bool_price_table : frame :=
  mkframe 1 [mkcol (u "Price") DNumeric [VBool true]] None.

(** A [Price] column of decimal-comma texts. *)
Definition comma_price_table : frame :=
  mkframe 1 [mkcol (u "Price") DObject [VStr (u "12,5")]] None.

(* ================================================================== *)
(** ** [detect_encoding_and_delimiter] *)

(** *** Decoders: [bytes.decode(encoding)], strict errors. *)

Definition utf8_cont (b : N) : bool := in_range 128 191 b.

(** [bytes.decode('utf-8')]: [None] is [UnicodeDecodeError].  Overlong
    forms, surrogates and code points above U+10FFFF are rejected, as
    CPython does. *)
Fixpoint utf8_decode (bs : list N) : option pstr :=
  match bs with
  | [] => Some []
  | b0 :: r0 =>
      if (b0 <? 128)%N then option_map (cons b0) (utf8_decode r0)
      else if in_range 194 223 b0 then
        match r0 with
        | b1 :: r1 =>
            if utf8_cont b1
            then option_map (cons ((b0 - 192) * 64 + (b1 - 128))%N) (utf8_decode r1)
            else None
        | [] => None
        end
      else if in_range 224 239 b0 then
        match r0 with
        | b1 :: b2 :: r2 =>
            let lo := if N.eqb b0 224 then 160%N else 128%N in
            let hi := if N.eqb b0 237 then 159%N else 191%N in
            if in_range lo hi b1 && utf8_cont b2
            then option_map (cons ((b0 - 224) * 4096 + (b1 - 128) * 64 + (b2 - 128))%N)
                   (utf8_decode r2)
            else None
        | _ => None
        end
      else if in_range 240 244 b0 then
        match r0 with
        | b1 :: b2 :: b3 :: r3 =>
            let lo := if N.eqb b0 240 then 144%N else 128%N in
            let hi := if N.eqb b0 244 then 143%N else 191%N in
            if in_range lo hi b1 && utf8_cont b2 && utf8_cont b3
            then option_map (cons ((b0 - 240) * 262144 + (b1 - 128) * 4096
                                   + (b2 - 128) * 64 + (b3 - 128))%N)
                   (utf8_decode r3)
            else None
        | _ => None
        end
      else None
  end.

(** [bytes.decode('latin1')] and [bytes.decode('iso-8859-1')]: every byte
    is the code point of the same value. *)
Definition latin1_decode (bs : list N) : option pstr := Some bs.

(** The code points of bytes 0x80 to 0x9F in Windows-1252; 0 marks the
    five bytes the codec leaves undefined. *)
Definition cp1252_high : list N :=
  [8364; 0; 8218; 402; 8222; 8230; 8224; 8225; 710; 8240; 352; 8249; 338; 0; 381; 0;
   0; 8216; 8217; 8220; 8221; 8226; 8211; 8212; 732; 8482; 353; 8250; 339; 0; 382; 376]%N.

Definition cp1252_char (b : N) : option N :=
  if in_range 128 159 b then
    match nth (N.to_nat (b - 128)) cp1252_high 0%N with
    | 0%N => None
    | c => Some c
    end
  else Some b.

(** [bytes.decode('cp1252')]. *)
Fixpoint cp1252_decode (bs : list N) : option pstr :=
  match bs with
  | [] => Some []
  | b :: r =>
      match cp1252_char b, cp1252_decode r with
      | Some c, Some t => Some (c :: t)
      | _, _ => None
      end
  end.

(** [encodings = ['utf-8', 'latin1', 'iso-8859-1', 'cp1252']]. *)
Definition encodings : list (string * (list N -> option pstr)) :=
  [("utf-8"%string, utf8_decode); ("latin1"%string, latin1_decode);
   ("iso-8859-1"%string, latin1_decode); ("cp1252"%string, cp1252_decode)].

(** *** The loop over encodings

    [sniff sample] is [csv.Sniffer().sniff(sample).delimiter], with [None]
    for [csv.Error].  The loop is written for any sniffer; the delimiter
    guesser of the [csv] module is modelled below. *)

Section Detect.

Variable sniff : pstr -> option pchar.

Fixpoint try_encodings (encs : list (string * (list N -> option pstr))) (file_content : list N)
  : string * pchar :=
  match encs with
  | [] => ("utf-8"%string, 44%N)
  | (encoding, decode) :: rest =>
      match decode file_content with
      | None => try_encodings rest file_content
      | Some decoded_content =>
          match sniff (firstn 4096 decoded_content) with
          | Some delimiter => (encoding, delimiter)
          | None => try_encodings rest file_content
          end
      end
  end.

Definition detect_encoding_and_delimiter (file_content : list Byte.byte) : string * pchar :=
  try_encodings encodings (map Byte.to_N file_content).

End Detect.

(** *** [csv.Sniffer._guess_delimiter]

    [Sniffer.sniff] first runs [_guess_quote_and_delimiter], whose four
    regular expressions each need a quote character (a double or a single quote) in the
    text they match; on a sample without one it finds no delimiter, and
    [sniff] returns what [_guess_delimiter] returns, or raises [csv.Error]
    when that is [''].  The model below is [sniff] on such samples. *)

Definition has_quote (s : pstr) : bool := existsb (fun c => N.eqb c 34 || N.eqb c 39) s.

(** [list(filter(None, data.split('\n')))]. *)
Fixpoint split_nl (s : pstr) : list pstr :=
  match s with
  | [] => [[]]
  | c :: t =>
      if N.eqb c 10 then [] :: split_nl t
      else match split_nl t with
           | l :: ls => (c :: l) :: ls
           | [] => [[c]]
           end
  end.

Definition sniff_lines (data : pstr) : list pstr :=
  filter (fun l => negb (is_emptyb l)) (split_nl data).

(** [[chr(c) for c in range(127)]]. *)
Definition ascii127 : list pchar := map N.of_nat (seq 0 127).

(** [metaFrequency[freq] = metaFrequency.get(freq, 0) + 1], keys in
    insertion order. *)
Fixpoint bump (freq : nat) (meta : list (nat * nat)) : list (nat * nat) :=
  match meta with
  | [] => [(freq, 1%nat)]
  | (f, k) :: t => if Nat.eqb f freq then (f, S k) :: t else (f, k) :: bump freq t
  end.

(** [charFrequency], one meta-frequency table per character of [ascii127],
    in that order (the order the first line inserts them in). *)
Definition add_line (charFrequency : list (list (nat * nat))) (line : pstr)
  : list (list (nat * nat)) :=
  map (fun '(c, meta) => bump (count (N.eqb c) line) meta) (combine ascii127 charFrequency).

(** [d[k] = v] on a dict kept as an association list in insertion order. *)
Fixpoint set_assoc {V} (k : pchar) (v : V) (d : list (pchar * V)) : list (pchar * V) :=
  match d with
  | [] => [(k, v)]
  | (k', v') :: t => if N.eqb k k' then (k', v) :: t else (k', v') :: set_assoc k v t
  end.

(** [max(items, key=lambda x: x[1])]: the first item of largest count. *)
Fixpoint max_count (best : nat * nat) (items : list (nat * nat)) : nat * nat :=
  match items with
  | [] => best
  | x :: t => max_count (if (snd best <? snd x)%nat then x else best) t
  end.

(** [items.remove(x)]. *)
Fixpoint remove_item (x : nat * nat) (items : list (nat * nat)) : list (nat * nat) :=
  match items with
  | [] => []
  | y :: t => if Nat.eqb (fst x) (fst y) && Nat.eqb (snd x) (snd y) then t
              else y :: remove_item x t
  end.

Definition sum_counts (items : list (nat * nat)) : nat := fold_right (fun i a => snd i + a)%nat 0%nat items.

(** The [for char in charFrequency.keys()] loop building [modes]. *)
Definition update_modes (charFrequency : list (list (nat * nat))) (modes : list (pchar * (nat * Z)))
  : list (pchar * (nat * Z)) :=
  fold_left
    (fun modes '(char, items) =>
       match items with
       | [] => modes
       | [(f, k)] => if Nat.eqb f 0 then modes else set_assoc char (f, Z.of_nat k) modes
       | x :: rest =>
           let m := max_count x rest in
           set_assoc char (fst m, (Z.of_nat (snd m) - Z.of_nat (sum_counts (remove_item m items)))%Z)
             modes
       end)
    (combine ascii127 charFrequency) modes.

(** The values [consistency] takes while [consistency >= 0.9]: the floats
    1.0, 0.99, ..., 0.91 (ten of them; the eleventh is below 0.9).  For a
    count [v[1]] and a [total] of at most 2048 lines (a sample of 4096
    characters has no more non-empty lines), [v[1]/total >= consistency] in
    floating point holds exactly when [v[1]/total >= (100-k)/100] holds in
    the rationals, so the thresholds are written as those rationals. *)
Definition consistency_levels : list Q :=
  map (fun k => Qmake (100 - Z.of_nat k) 100) (seq 0 10).

(** The [while len(delims) == 0 and consistency >= threshold] loop. *)
Fixpoint scan_levels (levels : list Q) (modeList : list (pchar * (nat * Z))) (total : nat)
    (delims : list (pchar * (nat * Z))) : list (pchar * (nat * Z)) :=
  match levels with
  | [] => delims
  | consistency :: rest =>
      match delims with
      | _ :: _ => delims
      | [] =>
          let delims' :=
            fold_left
              (fun delims '(k, v) =>
                 if (0 <? fst v)%nat && (0 <? snd v)%Z
                    && Qle_bool consistency (inject_Z (snd v) / inject_Z (Z.of_nat total))
                 then set_assoc k v delims else delims)
              modeList delims in
          scan_levels rest modeList total delims'
      end
  end.

(** [data[start:end]] for [start = 0, chunkLength, 2*chunkLength, ...]. *)
Fixpoint chunks {A} (fuel n : nat) (l : list A) : list (list A) :=
  match fuel with
  | O => []
  | S fuel' => match l with [] => [] | _ => firstn n l :: chunks fuel' n (skipn n l) end
  end.

(** The [while start < len(data)] loop: [inl delim] when a chunk leaves
    exactly one delimiter, [inr delims] when the data runs out. *)
Fixpoint guess_chunks (nlines chunkLength : nat) (chs : list (list pstr)) (iteration : nat)
    (charFrequency : list (list (nat * nat))) (modes delims : list (pchar * (nat * Z)))
  : pchar + list (pchar * (nat * Z)) :=
  match chs with
  | [] => inr delims
  | ch :: rest =>
      let iteration := S iteration in
      let charFrequency := fold_left add_line ch charFrequency in
      let modes := update_modes charFrequency modes in
      let total := Nat.min (chunkLength * iteration) nlines in
      let delims := scan_levels consistency_levels modes total delims in
      match delims with
      | [(delim, _)] => inl delim
      | _ => guess_chunks nlines chunkLength rest iteration charFrequency modes delims
      end
  end.

(** [self.preferred]. *)
Definition preferred : list pchar := [44; 9; 59; 32; 58]%N.

Definition item_lt (a b : pchar * (nat * Z)) : bool :=
  let '(ka, (fa, na)) := a in
  let '(kb, (fb, nb)) := b in
  (fa <? fb)%nat || (Nat.eqb fa fb && ((na <? nb)%Z || (Z.eqb na nb && (ka <? kb)%N))).

(** [_guess_delimiter(data, None)]'s delimiter; [None] is [''], on which
    [sniff] raises [csv.Error]. *)
Definition guess_delimiter (data : pstr) : option pchar :=
  let lines := sniff_lines data in
  let chunkLength := Nat.min 10 (length lines) in
  match guess_chunks (length lines) chunkLength (chunks (length lines) chunkLength lines) 0
          (map (fun _ => []) ascii127) [] [] with
  | inl delim => Some delim
  | inr [] => None
  | inr (d :: ds) =>
      match find (fun p => existsb (fun kv => N.eqb (fst kv) p) (d :: ds)) preferred with
      | Some p => Some p
      | None => Some (fst (fold_left (fun best x => if item_lt best x then x else best) ds d))
      end
  end.

(** [csv.Sniffer().sniff(sample).delimiter] on a sample without quote
    characters. *)
Definition sniff_quote_free (sample : pstr) : option pchar := guess_delimiter sample.

(** Two lines of a comma and 1023 e-acutes (2048 bytes each in UTF-8),
    then fifty times the lines [q] and [qq]. *)
Definition eacute_line : list Byte.byte :=
  [Byte.x2c] ++ concat (repeat [Byte.xc3; Byte.xa9] 1023) ++ [Byte.x0a].

Definition sniff_bytes : list Byte.byte :=
  eacute_line ++ eacute_line ++ concat (repeat [Byte.x71; Byte.x0a; Byte.x71; Byte.x71; Byte.x0a] 50).


(** An export whose labels match no pattern: every role is found from the
    column contents. *)
Definition ledger_table : frame :=
  mkframe 2 [mkcol (u "Firm") DObject [VStr (u "Acme Widgets International");
                                       VStr (u "Globex Corporation Ltd")];
             mkcol (u "Tag") DObject [VStr (u "AW"); VStr (u "GC")];
             mkcol (u "Unit") DObject [VStr (u "EUR"); VStr (u "USD")];
             mkcol (u "Net") DNumeric [VNum (u "12.5"); VNum (u "7.25")]] None.

(** The head of an accumulator is its largest score. *)
Definition head_max (l : list (pstr * Q)) : Prop :=
  match l with
  | [] => True
  | h :: _ => forall p, In p l -> (snd p <= snd h)%Q
  end.



(** Every column of [df] holds one value per row, as a frame from
    [pd.read_csv] does. *)
Definition well_formed (df : frame) : Prop :=
  forall c, In c (cols df) -> length (values c) = nrows df.

(** A standardized frame with [n] rows, each column holding [n] values. *)
Definition rectangular (n : nat) (f : sframe) : Prop :=
  s_nrows f = n /\ forall nc, In nc (s_cols f) -> length (snd nc) = n.

(** A small ASCII export: [a,b] and [1,2] on two lines. *)
Definition ascii_csv : list Byte.byte :=
  [Byte.x61; Byte.x2c; Byte.x62; Byte.x0a; Byte.x31; Byte.x2c; Byte.x32; Byte.x0a].

(* ================================================================== *)
(** ** [app.py]: the Process Files loop *)

(** How a file fails: both [pd.read_csv] attempts raising (the
    [ValueError] Failed to parse of [process_file]), an error of the steps
    of [process_file] after it, or an exception of [save_invoice_data]. *)
Inductive file_failure := ParseFailed | PipelineFailed (e : pipeline_error)
                        | SaveFailed (e : py_exception).

(** [process_file] on an upload.  [detect_encoding_and_delimiter] never
    raises; the upload is given by what [pd.read_csv] made of its bytes: the
    parsed frame, or [None] when both attempts raised. *)
Definition process_file (read : option frame) : file_failure + sframe :=
  match read with
  | None => inl ParseFailed
  | Some df => match process_parsed df with
               | inl e => inl (PipelineFailed e)
               | inr s => inr s
               end
  end.

(** The Python class of the exception: [process_file] raises [ValueError]
    itself; a missing column in [standardize_dataframe] is a [KeyError];
    [OverflowError] is an [ArithmeticError]. *)
Definition is_value_error (f : file_failure) : bool :=
  match f with PipelineFailed EKeyError | SaveFailed _ => false | _ => true end.

(** An entry of [st.session_state.processing_errors]: its message is
    determined by these fields. *)
Inductive notification :=
| NSkipped (file_name : pstr) (skipped_count inserted_count : nat)
| NAllDuplicates (file_name : pstr)
| NValidationError (file_name : pstr) (f : file_failure)
| NUnexpectedError (file_name : pstr) (f : file_failure).

Definition level (n : notification) : pstr :=
  match n with
  | NSkipped _ _ _ => u "warning"
  | NAllDuplicates _ => u "info"
  | NValidationError _ _ | NUnexpectedError _ _ => u "error"
  end.

(** The session state the loop writes: the number of rows of
    [combined_data], [processed_files] and [processing_errors]. *)
Record session := mksession {
  combined_rows : nat;
  processed_files : nat;
  processing_errors : list notification }.

(** One iteration of [for i, file in enumerate(uploaded_files)].  The frame
    [processed_df] is the one [save_invoice_data] extended with [file_name]
    and [processed_date], so [processed_df.empty] means no rows.  The
    [sqlite3.Error] handler is not reached: [save_invoice_data] catches the
    [sqlite3.Error]s of [cursor.execute]; its [OverflowError] reaches the
    handler of unexpected errors, before [combined_data] is extended. *)
Definition process_upload (db : table) (st : session) (file : pstr * option frame)
  : table * session :=
  let '(name, read) := file in
  match process_file read with
  | inl f =>
      (db, mksession (combined_rows st) (processed_files st)
             (processing_errors st ++ [if is_value_error f then NValidationError name f
                                       else NUnexpectedError name f]))
  | inr processed_df =>
      match save_invoice_data db processed_df name with
      | inl e =>
          (db, mksession (combined_rows st) (processed_files st)
                 (processing_errors st ++ [NUnexpectedError name (SaveFailed e)]))
      | inr (db', (inserted_count, skipped_count)) =>
      let combined := if Nat.eqb (combined_rows st) 0 then s_nrows processed_df
                      else combined_rows st + s_nrows processed_df in
      let processed := if Nat.ltb 0 inserted_count then S (processed_files st)
                       else processed_files st in
      let errors :=
        if Nat.ltb 0 skipped_count then
          processing_errors st ++ [NSkipped name skipped_count inserted_count]
        else if Nat.eqb inserted_count 0 && negb (Nat.eqb (s_nrows processed_df) 0) then
          processing_errors st ++ [NAllDuplicates name]
        else processing_errors st in
      (db', mksession combined processed errors)
      end
  end.

(** The Process Files button: the session state reset, then the loop. *)
Definition process_files (db : table) (uploaded_files : list (pstr * option frame))
  : table * session :=
  fold_left (fun acc file => process_upload (fst acc) (snd acc) file) uploaded_files
            (db, mksession 0 0 []).

(** [if st.session_state.processed_files > 0]: the success message, the
    combined table and its download button. *)
Definition shows_results (st : session) : bool := Nat.ltb 0 (processed_files st).

(** [df] has a column labelled [l]. *)
Definition has_label (df : frame) (l : pstr) : Prop :=
  exists c, In c (cols df) /\ label c = l.

(* ================================================================== *)
(** * Proofs *)

Example is_header_row_ex1 :
  is_header_row [VStr (u "Company Name"); VStr (u "Currency"); VStr (u "Price")] = true.
Proof. vm_compute. reflexivity. Qed.

Example is_header_row_ex2 :
  is_header_row [VStr (u "Acme GmbH"); VStr (u "EUR"); VStr (u "12,50")] = false.
Proof. vm_compute. reflexivity. Qed.

Example py_float_ex :
  map py_float_ok [u " 1_000.5e-3 "; u "-Infinity"; u "1_"; u "."; u "1e"; u ".5"; u "5."]
  = [true; true; false; false; false; true; true].
Proof. vm_compute. reflexivity. Qed.

(* ================================================================== *)
(** ** Lemmas on text *)

Lemma Qltb_iff (x y : Q) : Qltb x y = true <-> (x < y)%Q.
Proof.
  unfold Qltb. rewrite negb_true_iff. split.
  - intro H. apply Qnot_le_lt. intro H'. apply Qle_bool_iff in H'. congruence.
  - intro H. destruct (Qle_bool y x) eqn:E; [|reflexivity].
    apply Qle_bool_iff in E. exfalso. apply (Qlt_not_le _ _ H E).
Qed.

Lemma header_loop_counts (row : list value) (nn hk : nat) :
  header_loop row nn hk = (nn + nonnumeric_hits row, hk + keyword_hits row).
Proof.
  unfold nonnumeric_hits, keyword_hits, row_texts.
  revert nn hk. induction row as [|cell rest IH]; intros nn hk; simpl.
  - f_equal; lia.
  - destruct (cell_text cell) as [s|]; simpl; [|apply IH].
    destruct (is_emptyb (strip s)); simpl; [apply IH|].
    rewrite IH.
    destruct (header_pattern_search (strip s)), (py_float_ok (replace_comma (strip s)));
      simpl; f_equal; lia.
Qed.

Lemma non_empty_cells_texts (row : list value) :
  non_empty_cells row = length (row_texts row).
Proof.
  unfold non_empty_cells, row_texts, cell_non_empty.
  induction row as [|cell rest IH]; simpl; [reflexivity|].
  destruct (cell_text cell) as [s|]; simpl; [|exact IH].
  destruct (is_emptyb (strip s)); simpl; [exact IH|]. rewrite IH. reflexivity.
Qed.

Lemma lstrip_in (s : pstr) (c : pchar) :
  In c s -> is_space c = true \/ In c (lstrip s).
Proof.
  induction s as [|d t IH]; simpl; [tauto|].
  destruct (is_space d) eqn:E; intros [H|H]; subst; auto.
  - simpl; auto.
  - simpl; auto.
Qed.

Lemma strip_in (s : pstr) (c : pchar) :
  In c s -> is_space c = true \/ In c (strip s).
Proof.
  intro H. unfold strip. destruct (lstrip_in s c H) as [H1|H1]; [auto|].
  apply in_rev in H1. destruct (lstrip_in _ c H1) as [H2|H2]; [auto|].
  right. apply in_rev. rewrite rev_involutive. exact H2.
Qed.

Lemma skip_sign_in (t : pstr) (c : pchar) :
  In c t -> (N.eqb c 43 || N.eqb c 45) = true \/ In c (skip_sign t).
Proof.
  destruct t as [|d t]; simpl; [tauto|].
  destruct (N.eqb d 43 || N.eqb d 45) eqn:E; intros [H|H]; subst; simpl; auto.
Qed.

Lemma ascii_ci_word_in (w t : pstr) (c : pchar) :
  ascii_ci_word w t = true -> In c t -> In (ascii_lower c) w.
Proof.
  revert t. induction w as [|x w IH]; intros [|d t]; simpl; try discriminate; try tauto.
  intros H [H1|H1]; apply andb_true_iff in H as [H2 H3].
  - subst. apply N.eqb_eq in H2. left; congruence.
  - right. eauto.
Qed.

Lemma digits_tail_in (t : pstr) (c : pchar) :
  In c t -> (is_digit c || N.eqb c 95) = true \/ In c (digits_tail t).
Proof.
  remember (length t) as n eqn:En. revert t En.
  induction n as [n IH] using (well_founded_induction Wf_nat.lt_wf).
  intros [|d t] En; simpl; [tauto|]. intros Hin.
  destruct (is_digit d) eqn:Ed.
  - destruct Hin as [H|H]; [subst; rewrite Ed; auto|].
    apply (IH (length t)); simpl in En; auto; lia.
  - destruct (N.eqb d 95) eqn:E95.
    + destruct t as [|d' t'].
      * right; exact Hin.
      * destruct (is_digit d') eqn:Ed'.
        -- destruct Hin as [H|[H|H]]; try subst c.
           ++ rewrite E95, orb_true_r; auto.
           ++ rewrite Ed'; auto.
           ++ apply (IH (length t')); simpl in En; auto; lia.
        -- right; exact Hin.
    + right; exact Hin.
Qed.

Lemma digitpart_in (t r : pstr) (c : pchar) :
  digitpart t = Some r -> In c t -> float_char c = true \/ In c r.
Proof.
  destruct t as [|d t]; simpl; [discriminate|].
  destruct (is_digit d) eqn:Ed; [|discriminate]. intros H; injection H as <-.
  intros [H|H].
  - subst c. left. unfold float_char. rewrite Ed. reflexivity.
  - destruct (digits_tail_in t c H) as [H1|H1]; [|auto].
    left. unfold float_char. apply orb_true_iff in H1 as [H1|H1].
    + rewrite H1. reflexivity.
    + apply N.eqb_eq in H1. subst c. reflexivity.
Qed.

Lemma number_in (t r : pstr) (c : pchar) :
  number t = Some r -> In c t -> float_char c = true \/ In c r.
Proof.
  unfold number. destruct (digitpart t) as [r0|] eqn:E0.
  - intros H Hin. destruct (digitpart_in t r0 c E0 Hin) as [H1|H1]; [auto|].
    destruct r0 as [|d r']; [injection H as <-; auto|].
    destruct (N.eqb d 46) eqn:Ed.
    + destruct H1 as [H1|H1].
      * subst c. apply N.eqb_eq in Ed. subst d. left. reflexivity.
      * destruct (digitpart r') as [r''|] eqn:E1.
        -- injection H as <-. eapply digitpart_in; eauto.
        -- injection H as <-. auto.
    + injection H as <-. auto.
  - destruct t as [|d t]; [discriminate|].
    destruct (N.eqb d 46) eqn:Ed; [|discriminate].
    intros H [H1|H1].
    + subst c. apply N.eqb_eq in Ed. subst d. left. reflexivity.
    + eapply digitpart_in; eauto.
Qed.

Lemma exponent_opt_in (r r' : pstr) (c : pchar) :
  exponent_opt r = Some r' -> In c r -> float_char c = true \/ In c r'.
Proof.
  destruct r as [|d t]; simpl; [intros _ []|].
  destruct (N.eqb d 101 || N.eqb d 69) eqn:Ed.
  - intros H [H1|H1].
    + subst c. left. unfold float_char.
      apply orb_true_iff in Ed as [E|E]; apply N.eqb_eq in E; subst d; reflexivity.
    + destruct (skip_sign_in t c H1) as [H2|H2].
      * left. unfold float_char.
        apply orb_true_iff in H2 as [E|E]; apply N.eqb_eq in E; subst c; reflexivity.
      * eapply digitpart_in; eauto.
  - intros H; injection H as <-. auto.
Qed.

Lemma ascii_ci_word_float (w t : pstr) (c : pchar) :
  forallb (fun x => existsb (N.eqb x) [105; 110; 102; 116; 121; 97]%N) w = true ->
  ascii_ci_word w t = true -> In c t -> float_char c = true.
Proof.
  intros Hw H Hin. pose proof (ascii_ci_word_in w t c H Hin) as H1.
  rewrite forallb_forall in Hw. specialize (Hw _ H1).
  unfold float_char. rewrite Hw. rewrite !orb_true_r. reflexivity.
Qed.

Lemma lstrip_ascii_in (s : pstr) (c : pchar) :
  In c s -> is_ascii_space c = true \/ In c (lstrip_ascii s).
Proof.
  induction s as [|d t IH]; simpl; [tauto|].
  destruct (is_ascii_space d) eqn:E; intros [H|H]; subst; auto.
  - simpl; auto.
  - simpl; auto.
Qed.

Lemma strip_ascii_in (s : pstr) (c : pchar) :
  In c s -> is_ascii_space c = true \/ In c (strip_ascii s).
Proof.
  intro H. unfold strip_ascii. destruct (lstrip_ascii_in s c H) as [H1|H1]; [auto|].
  apply in_rev in H1. destruct (lstrip_ascii_in _ c H1) as [H2|H2]; [auto|].
  right. apply in_rev. rewrite rev_involutive. exact H2.
Qed.

(** A character of the text is kept by the ASCII transformation, or is
    whitespace or a decimal digit, or the transformation produced ['?']. *)
Lemma to_ascii_text_in (s : pstr) (c : pchar) :
  In c s ->
  In c (to_ascii_text s) \/ is_space c = true \/ is_some (decimal_value c) = true
  \/ In 63%N (to_ascii_text s).
Proof.
  unfold to_ascii_text. destruct (forallb (fun d => (d <? 128)%N) s); [auto|].
  induction s as [|d t IH]; simpl; [tauto|]. intros [H|H].
  - subst d. destruct (c <? 127)%N; [left; left; reflexivity|].
    destruct (is_space c) eqn:Es; [auto|].
    destruct (decimal_value c) as [v|]; simpl; [auto|]. right; right; right; left; reflexivity.
  - destruct (IH H) as [H1|[H1|[H1|H1]]]; [| auto | auto |].
    + destruct (d <? 127)%N; [left; right; exact H1|].
      destruct (is_space d); [left; right; exact H1|].
      destruct (decimal_value d); [left; right; exact H1|].
      right; right; right; left; reflexivity.
    + destruct (d <? 127)%N; [right; right; right; right; exact H1|].
      destruct (is_space d); [right; right; right; right; exact H1|].
      destruct (decimal_value d); [right; right; right; right; exact H1|].
      right; right; right; left; reflexivity.
Qed.

(** Every character of the ASCII text of a string [float] accepts is a
    [float_char]. *)
Lemma py_float_ok_text_chars (s : pstr) (c : pchar) :
  py_float_ok s = true -> In c (to_ascii_text s) -> float_char c = true.
Proof.
  unfold py_float_ok. intros H Hin.
  destruct (strip_ascii_in _ c Hin) as [Hs|Hs].
  { unfold is_ascii_space in Hs. simpl in Hs.
    repeat (apply orb_true_iff in Hs as [Hs|Hs]; [apply N.eqb_eq in Hs; subst c; reflexivity|]).
    discriminate. }
  destruct (skip_sign_in _ c Hs) as [Hg|Hg].
  { unfold float_char. apply orb_true_iff in Hg as [E|E]; apply N.eqb_eq in E;
    subst c; reflexivity. }
  set (t := skip_sign (strip_ascii (to_ascii_text s))) in *.
  apply orb_true_iff in H as [H|H]; [apply orb_true_iff in H as [H|H];
    [apply orb_true_iff in H as [H|H]|]|].
  - eapply ascii_ci_word_float; [|exact H|exact Hg]; vm_compute; reflexivity.
  - eapply ascii_ci_word_float; [|exact H|exact Hg]; vm_compute; reflexivity.
  - eapply ascii_ci_word_float; [|exact H|exact Hg]; vm_compute; reflexivity.
  - destruct (number t) as [r|] eqn:En; [|discriminate].
    destruct (exponent_opt r) as [[|x r']|] eqn:Ee; try discriminate.
    destruct (number_in t r c En Hg) as [H1|H1]; [exact H1|].
    destruct (exponent_opt_in r [] c Ee H1) as [H2|[]]. exact H2.
Qed.

(** Every character of a string [float] accepts is a [float_char]. *)
Lemma py_float_ok_chars (s : pstr) (c : pchar) :
  py_float_ok s = true -> In c s -> float_char c = true.
Proof.
  intros H Hin. destruct (to_ascii_text_in s c Hin) as [H1|[H1|[H1|H1]]].
  - exact (py_float_ok_text_chars s c H H1).
  - unfold float_char. rewrite H1, orb_true_r. reflexivity.
  - unfold float_char. rewrite H1, orb_true_r. reflexivity.
  - pose proof (py_float_ok_text_chars s _ H H1) as F. vm_compute in F. discriminate.
Qed.

Lemma ci_prefix_in (lit s : pstr) (x : pchar) :
  ci_prefix lit s = true -> In x lit -> exists c, In c s /\ ci_eq x c = true.
Proof.
  revert s. induction lit as [|y lit IH]; intros [|c s]; simpl; try discriminate; try tauto.
  intros H [Hx|Hx]; apply andb_true_iff in H as [H1 H2].
  - subst y. exists c. auto.
  - destruct (IH s H2 Hx) as [c' [Hc' Hc'']]. exists c'. auto.
Qed.

Lemma ci_contains_in (lit s : pstr) (x : pchar) :
  ci_contains lit s = true -> In x lit -> exists c, In c s /\ ci_eq x c = true.
Proof.
  induction s as [|c s IH]; intros H Hx; simpl in H.
  - rewrite orb_false_r in H. eapply ci_prefix_in; eauto.
  - apply orb_true_iff in H as [H|H].
    + eapply ci_prefix_in; eauto.
    + destruct (IH H Hx) as [c' [Hc' Hc'']]. exists c'. simpl. auto.
Qed.

(** Below U+0100 every character whose lowercase form is a key letter is
    outside [float]'s alphabet and is not a comma; checked by evaluation. *)
Lemma key_letter_latin1 :
  forallb (fun c => implb (key_letter (lower c)) (negb (float_char c) && negb (N.eqb c 44)))
    (map N.of_nat (seq 0 256)) = true.
Proof. vm_compute. reflexivity. Qed.

Lemma key_letter_not_float (c : pchar) :
  key_letter (lower c) = true -> float_char c = false /\ N.eqb c 44 = false.
Proof.
  intro H. destruct (N.lt_ge_cases c 256) as [Hc|Hc].
  - pose proof key_letter_latin1 as L. rewrite forallb_forall in L.
    assert (Hin : In c (map N.of_nat (seq 0 256))).
    { apply in_map_iff. exists (N.to_nat c). split; [apply N2Nat.id|].
      apply in_seq. lia. }
    specialize (L c Hin). rewrite H in L. simpl in L.
    apply andb_true_iff in L as [L1 L2]. apply negb_true_iff in L1, L2. auto.
  - exfalso. revert H. unfold lower, in_range.
    replace (65 <=? c)%N with true by (symmetry; apply N.leb_le; lia).
    replace (c <=? 90)%N with false by (symmetry; apply N.leb_gt; lia).
    replace (c <=? 222)%N with false by (symmetry; apply N.leb_gt; lia).
    replace (192 <=? c)%N with true by (symmetry; apply N.leb_le; lia).
    simpl.
    destruct (N.eqb c 304) eqn:E1; [intro H; vm_compute in H; discriminate|].
    destruct (N.eqb c 8490) eqn:E2; [intro H; vm_compute in H; discriminate|].
    unfold key_letter; simpl. intro H.
    repeat (apply orb_true_iff in H as [H|H]; [apply N.eqb_eq in H; lia|]).
    discriminate H.
Qed.

Lemma header_keywords_key :
  forallb (fun kw => existsb key_letter kw) header_keywords = true.
Proof. vm_compute. reflexivity. Qed.

(** A cell whose comma-replaced text [float] accepts contains no header
    keyword. *)
Lemma numeric_text_no_keyword (s : pstr) :
  py_float_ok (replace_comma s) = true -> header_pattern_search s = false.
Proof.
  intro Hf. destruct (header_pattern_search s) eqn:Hh; [|reflexivity]. exfalso.
  unfold header_pattern_search in Hh. apply existsb_exists in Hh as [kw [Hkw Hc]].
  pose proof header_keywords_key as K. rewrite forallb_forall in K.
  specialize (K kw Hkw). apply existsb_exists in K as [x [Hx Kx]].
  destruct (ci_contains_in kw s x Hc Hx) as [c [Hcs Hxc]].
  assert (Hl : lower c = x).
  { unfold ci_eq in Hxc. unfold key_letter in Kx.
    apply orb_true_iff in Hxc as [Hxc|Hxc]; [apply orb_true_iff in Hxc as [Hxc|Hxc]|].
    - apply N.eqb_eq in Hxc. exact Hxc.
    - apply andb_true_iff in Hxc as [E _]. apply N.eqb_eq in E. subst x. discriminate.
    - apply andb_true_iff in Hxc as [E _]. apply N.eqb_eq in E. subst x. discriminate. }
  subst x. destruct (key_letter_not_float c Kx) as [F1 F2].
  assert (Hin : In (if N.eqb c 44 then 46%N else c) (replace_comma s)).
  { unfold replace_comma. apply in_map_iff. exists c. auto. }
  rewrite F2 in Hin. pose proof (py_float_ok_chars _ c Hf Hin). congruence.
Qed.

(* ================================================================== *)
(** ** Header-row filter *)

(** Claim C1: a row is a header iff [keyword_ratio > 0.3] or
    [nonnumeric_ratio > 0.7], both ratios over the row's non-empty cells
    (keyword hits of the case-insensitive keyword regex; cells whose
    comma-replaced text [float] rejects); a row with no non-empty cell is
    not a header. *)
Theorem is_header_row_ratios (row : list value) :
  (is_header_row row = true <->
     (0 < length (row_texts row))%nat /\
     ((3 # 10) < keyword_ratio row \/ (7 # 10) < nonnumeric_ratio row)%Q)
  /\ (length (row_texts row) = 0%nat -> is_header_row row = false).
Proof.
  unfold is_header_row, keyword_ratio, nonnumeric_ratio.
  rewrite header_loop_counts, non_empty_cells_texts. simpl.
  destruct (Nat.eqb_spec (length (row_texts row)) 0) as [E|E].
  - split; [|reflexivity]. split; [discriminate|]. intros [H _]. lia.
  - split; [|intro H; contradiction].
    rewrite orb_true_iff, !Qltb_iff. split; [intro H; split; [lia|exact H]|].
    intros [_ H]. exact H.
Qed.

(** Claim C8: a row whose every non-empty cell is a number for [float]
    (after replacing commas by dots) is not a header row. *)
Theorem numeric_row_not_header (row : list value) :
  (forall s, In s (row_texts row) -> py_float_ok (replace_comma s) = true) ->
  is_header_row row = false.
Proof.
  intro Hnum.
  assert (Hk : keyword_hits row = 0%nat).
  { unfold keyword_hits. apply length_zero_iff_nil.
    destruct (filter header_pattern_search (row_texts row)) as [|s l] eqn:E; [reflexivity|].
    exfalso. assert (Hs : In s (filter header_pattern_search (row_texts row))) by
      (rewrite E; left; reflexivity).
    apply filter_In in Hs as [Hs Hh].
    rewrite (numeric_text_no_keyword s (Hnum s Hs)) in Hh. discriminate. }
  assert (Hn : nonnumeric_hits row = 0%nat).
  { unfold nonnumeric_hits. apply length_zero_iff_nil.
    destruct (filter _ (row_texts row)) as [|s l] eqn:E; [reflexivity|].
    exfalso. assert (Hs : In s (filter (fun s => negb (py_float_ok (replace_comma s)))
                                   (row_texts row))) by (rewrite E; left; reflexivity).
    apply filter_In in Hs as [Hs Hh].
    rewrite (Hnum s Hs) in Hh. discriminate. }
  unfold is_header_row. rewrite header_loop_counts, non_empty_cells_texts, Hk, Hn.
  simpl. destruct (Nat.eqb (length (row_texts row)) 0); reflexivity.
Qed.

Lemma numeric_row_not_header_witness :
  (forall s, In s (row_texts [VNum (u "12.5"); VStr (u " 3,40 "); VStr [1633; 1634]%N; VNaN;
                              VStr (u "")]) ->
     py_float_ok (replace_comma s) = true)
  /\ is_header_row [VNum (u "12.5"); VStr (u " 3,40 "); VStr [1633; 1634]%N; VNaN;
                    VStr (u "")] = false.
Proof.
  assert (H : forall s, In s (row_texts [VNum (u "12.5"); VStr (u " 3,40 ");
                                         VStr [1633; 1634]%N; VNaN; VStr (u "")]) ->
     py_float_ok (replace_comma s) = true).
  { intros s Hs. vm_compute in Hs. destruct Hs as [<-|[<-|[<-|[]]]]; vm_compute; reflexivity. }
  split; [exact H|]. apply numeric_row_not_header. exact H.
Defined.

(* ================================================================== *)
(** ** The store *)

Lemma execute_insert_overflow (db : table) (cols : list pstr) (row : list sql_param) :
  snd (execute_insert db cols row) = ExecOverflowError -> bind_all row = BindOverflow.
Proof.
  unfold execute_insert. destruct (bind_all row); simpl; try discriminate; [|reflexivity].
  destruct (session_key _); [destruct (existsb _ _)|]; simpl; discriminate.
Qed.

Lemma insert_rows_counts (db : table) (cols : list pstr) (rows : list (list sql_param))
    (i s : nat) (db' : table) (a b : nat) :
  insert_rows db cols rows i s = inr (db', (a, b)) -> a + b = length rows + i + s.
Proof.
  revert db i s. induction rows as [|row rest IH]; intros db i s; simpl.
  - intro H. injection H as _ <- <-. reflexivity.
  - destruct (execute_insert db cols row) as [db1 res].
    destruct res; try discriminate; intro H; rewrite (IH _ _ _ H); lia.
Qed.

Lemma insert_rows_overflow (db : table) (cols : list pstr) (rows : list (list sql_param))
    (i s : nat) (e : py_exception) :
  insert_rows db cols rows i s = inl e ->
  exists row, In row rows /\ bind_all row = BindOverflow.
Proof.
  revert db i s. induction rows as [|row rest IH]; intros db i s; simpl; [discriminate|].
  destruct (execute_insert db cols row) as [db1 res] eqn:E.
  destruct res; intro H;
    try (destruct (IH _ _ _ H) as [r [Hr Hb]]; exists r; auto).
  exists row. split; [auto|]. apply (execute_insert_overflow db cols). rewrite E. reflexivity.
Qed.

Lemma save_rows_length (df : sframe) (file_name : pstr) :
  length (save_rows df file_name) = s_nrows df.
Proof. unfold save_rows. rewrite length_map, length_seq. reflexivity. Qed.

(** Claim C10, as the code behaves: when [save_invoice_data] returns, it
    has counted every submitted row once, as inserted or as skipped, so the
    two counts add up to the number of rows.  It does not always return:
    a row with an integer outside SQLite's 64-bit range raises
    [OverflowError], which is no [sqlite3.Error] and leaves the function. *)
Theorem save_invoice_data_counts (db : table) (df : sframe) (file_name : pstr) :
  match save_invoice_data db df file_name with
  | inr (_, (i, k)) => i + k = s_nrows df
  | inl OverflowError =>
      exists row, In row (save_rows df file_name) /\ bind_all row = BindOverflow
  end.
Proof.
  unfold save_invoice_data.
  destruct (insert_rows db _ _ 0 0) as [[]|[db' [i k]]] eqn:E.
  - exact (insert_rows_overflow _ _ _ _ _ _ E).
  - rewrite (insert_rows_counts _ _ _ _ _ _ _ _ E), save_rows_length. lia.
Qed.

Lemma pstr_eqb_refl (s : pstr) : pstr_eqb s s = true.
Proof. induction s as [|c t IH]; simpl; [reflexivity|]. rewrite N.eqb_refl. exact IH. Qed.

Lemma processed_date_saved (df : sframe) :
  In (u "processed_date") (save_columns df).
Proof.
  unfold save_columns. apply filter_In. split; [vm_compute; tauto|].
  apply existsb_exists. exists (u "processed_date"). split; [|apply pstr_eqb_refl].
  apply in_or_app. right. right. left. reflexivity.
Qed.

Lemma bind_all_in (ps : list sql_param) (p : sql_param) :
  In p ps -> bind_param p <> BindOk -> bind_all ps <> BindOk.
Proof.
  induction ps as [|q t IH]; simpl; [tauto|]. intros [E|H] Hp; [subst q|].
  - destruct (bind_param p); congruence.
  - destruct (bind_param q); [exact (IH H Hp)|discriminate|discriminate].
Qed.

Lemma save_rows_unbindable (df : sframe) (file_name : pstr) (row : list sql_param) :
  In row (save_rows df file_name) -> bind_all row <> BindOk.
Proof.
  unfold save_rows. intro H. apply in_map_iff in H as [i [<- _]].
  apply (bind_all_in _ PTimestamp); [|discriminate].
  apply in_map_iff. exists (u "processed_date"). split; [|apply processed_date_saved].
  unfold save_cell. rewrite pstr_eqb_refl. reflexivity.
Qed.

Lemma insert_rows_unbindable (db : table) (cols : list pstr) (rows : list (list sql_param))
    (i s : nat) :
  (forall row, In row rows -> bind_all row <> BindOk) ->
  insert_rows db cols rows i s = inr (db, (i, s + length rows))
  \/ insert_rows db cols rows i s = inl OverflowError.
Proof.
  revert i s. induction rows as [|row rest IH]; intros i s H; simpl.
  - rewrite Nat.add_0_r. auto.
  - unfold execute_insert. pose proof (H row (or_introl eq_refl)) as Hr.
    destruct (bind_all row); [congruence|auto|].
    destruct (IH i (S s)) as [E|E]; [intros r Hin; apply H; right; exact Hin| |];
      rewrite E; [left|right]; [do 3 f_equal; lia|reflexivity].
Qed.

Lemma save_invoice_data_nothing (db : table) (df : sframe) (file_name : pstr) :
  save_invoice_data db df file_name = inr (db, (0, s_nrows df))
  \/ save_invoice_data db df file_name = inl OverflowError.
Proof.
  unfold save_invoice_data. rewrite <- (save_rows_length df file_name).
  apply insert_rows_unbindable, save_rows_unbindable.
Qed.

(* ================================================================== *)
(** ** The standardized frame's columns *)

Lemma set_scalar_names (f : sframe) (name : pstr) (v : value) :
  map fst (s_cols (set_scalar f name v)) = map fst (s_cols f) ++ [name].
Proof. unfold set_scalar. simpl. rewrite map_app. reflexivity. Qed.

Lemma set_series_names (f : sframe) (name : pstr) (vs : list value) :
  map fst (s_cols (set_series f name vs)) = map fst (s_cols f) ++ [name].
Proof.
  unfold set_series. destruct (_ && _); simpl; rewrite map_app; [|reflexivity].
  rewrite map_map. reflexivity.
Qed.

Ltac case_match_in H :=
  match type of H with
  | context [match ?x with _ => _ end] => destruct x eqn:?
  end.

Lemma standardize_names (df : frame) (d : detected) (s : sframe) :
  standardize_dataframe df d = Some s ->
  map fst (s_cols s)
  = [u "company_full_name"; u "company_short_name"; u "currency"; u "price"].
Proof.
  unfold standardize_dataframe. intro H.
  repeat match goal with
         | E : context [match ?x with _ => _ end] |- _ =>
             destruct x eqn:?; cbv beta iota delta [option_map] in E; try discriminate
         | E : option_map _ ?o = Some _ |- _ =>
             destruct o eqn:?; cbv beta iota delta [option_map] in E; try discriminate
         | E : Some _ = Some _ |- _ => injection E as <-
         end.
  all: repeat (rewrite set_scalar_names || rewrite set_series_names); reflexivity.
Qed.

Lemma process_parsed_inr (df0 : frame) (s : sframe) :
  process_parsed df0 = inr s ->
  standardize_dataframe (drop_header_rows df0) (detect_columns (drop_header_rows df0)) = Some s.
Proof.
  unfold process_parsed.
  destruct (frame_empty df0); [discriminate|].
  destruct (frame_empty (drop_header_rows df0)); [discriminate|].
  destruct (Nat.ltb 2 _); [discriminate|].
  destruct (standardize_dataframe _ _); [|discriminate].
  intro H. injection H as <-. reflexivity.
Qed.





(** Claim C10, counterexample: [overflow_table]'s price 10^19 is read by
    [pandas] as a [uint64]; binding it raises [OverflowError], which
    escapes [save_invoice_data] instead of counting the row. *)
Lemma save_overflow_escapes :
  match process_parsed overflow_table with
  | inr s =>
      s_nrows s = 1%nat
      /\ save_rows s (u "prices.csv")
         = [[PText (u "EUR"); PNum (u "10000000000000000000"); PText (u "prices.csv");
             PTimestamp]]
      /\ save_invoice_data [] s (u "prices.csv") = inl OverflowError
  | inl _ => False
  end.
Proof. vm_compute. split; [reflexivity|split; reflexivity]. Qed.

(* ================================================================== *)
(** ** The classifiers return labels of the table *)

Lemma first_label_match_in (pats : list rx) (cs : list column) (l : pstr) :
  first_label_match pats cs = Some l -> exists c, In c cs /\ label c = l.
Proof.
  induction pats as [|p ps IH]; simpl; [discriminate|].
  destruct (find _ cs) as [c|] eqn:E; [|exact IH].
  intro H. injection H as <-. apply find_some in E as [Hin _]. eauto.
Qed.

Lemma price_name_tier_in (pats : list rx) (cs : list column) (l : pstr) :
  price_name_tier pats cs = Some l -> exists c, In c cs /\ label c = l.
Proof.
  induction pats as [|p ps IH]; simpl; [discriminate|].
  destruct (find _ cs) as [c|] eqn:E; [|exact IH].
  intro H. injection H as <-. apply find_some in E as [Hin _]. eauto.
Qed.

Lemma insert_desc_in (x p : pstr * Q) (l : list (pstr * Q)) :
  In p (insert_desc x l) -> p = x \/ In p l.
Proof.
  induction l as [|y l IH]; simpl.
  - intros [H|[]]. left. symmetry. exact H.
  - destruct (Qle_bool (snd x) (snd y)); simpl.
    + intros [H|H]; [right; left; exact H|]. apply IH in H as [H|H]; auto.
    + intros [H|H]; [left; symmetry; exact H|]. right. exact H.
Qed.

Lemma sort_desc_in (p : pstr * Q) (l : list (pstr * Q)) :
  In p (sort_desc l) -> In p l.
Proof.
  unfold sort_desc.
  assert (G : forall acc, In p (fold_left (fun acc x => insert_desc x acc) l acc) ->
                          In p acc \/ In p l).
  { induction l as [|x l IH]; simpl; intros acc H; [left; exact H|].
    apply IH in H as [H|H]; [|right; right; exact H].
    apply insert_desc_in in H as [H|H]; [right; left; symmetry; exact H|left; exact H]. }
  intro H. apply G in H as [[]|H]. exact H.
Qed.

Lemma top_scored_in (ok : Q -> bool) (l : list (pstr * Q)) (x : pstr) :
  top_scored ok l = Some x -> exists sc, In (x, sc) l.
Proof.
  unfold top_scored. destruct (sort_desc l) as [|[col score] rest] eqn:E; [discriminate|].
  destruct (ok score); [|discriminate]. intro H. injection H as <-.
  exists score. apply sort_desc_in. rewrite E. left. reflexivity.
Qed.

Lemma candidates_in (f : column -> list (pstr * Q)) (cs : list column) (x : pstr) (sc : Q) :
  (forall c p, In p (f c) -> fst p = label c) ->
  In (x, sc) (flat_map f cs) -> exists c, In c cs /\ label c = x.
Proof.
  intros Hf H. apply in_flat_map in H as [c [Hc Hp]].
  exists c. split; [exact Hc|]. apply Hf in Hp. symmetry. exact Hp.
Qed.

Ltac candidate_label :=
  let c := fresh "c" in let p := fresh "p" in let Hp := fresh "Hp" in
  intros c p Hp; cbv beta in Hp;
  repeat match type of Hp with
         | context [match ?x with _ => _ end] => destruct x
         end;
  simpl in Hp; repeat destruct Hp as [<-|Hp]; try contradiction; reflexivity.

Lemma currency_scan_in (cs : list column) (bm : option pstr) (bs : nat) (l : pstr) :
  fst (currency_scan cs bm bs) = Some l -> bm = Some l \/ exists c, In c cs /\ label c = l.
Proof.
  revert bm bs. induction cs as [|c rest IH]; intros bm bs; simpl; [intro H; left; exact H|].
  destruct (dtype c).
  - intro H. apply IH in H as [H|[c' [Hc' Hl]]]; [left; exact H|]. right. eauto.
  - destruct (Nat.ltb bs _); intro H; apply IH in H as [H|[c' [Hc' Hl]]].
    + injection H as <-. right. eauto.
    + right. eauto.
    + left. exact H.
    + right. eauto.
Qed.

Lemma detect_full_in (df : frame) (l : pstr) :
  detect_full_company_name df = Some l -> has_label df l.
Proof.
  unfold detect_full_company_name, has_label.
  destruct (first_label_match _ _) as [col|] eqn:E.
  - intro H. injection H as <-. exact (first_label_match_in _ _ _ E).
  - intro H. apply top_scored_in in H as [sc H].
    unfold full_name_candidates in H. eapply candidates_in; [|exact H]. candidate_label.
Qed.

Lemma detect_short_in (df : frame) (f : option pstr) (l : pstr) :
  detect_short_company_name df f = Some l -> has_label df l.
Proof.
  unfold detect_short_company_name, has_label.
  destruct (first_label_match _ _) as [col|] eqn:E.
  - intro H. injection H as <-. exact (first_label_match_in _ _ _ E).
  - intro H. apply top_scored_in in H as [sc H].
    unfold short_name_candidates in H. eapply candidates_in; [|exact H]. candidate_label.
Qed.

Lemma detect_currency_in (df : frame) (l : pstr) :
  detect_currency df = Some l -> has_label df l.
Proof.
  unfold detect_currency, has_label.
  destruct (first_label_match _ _) as [col|] eqn:E.
  - intro H. injection H as <-. exact (first_label_match_in _ _ _ E).
  - destruct (currency_scan (cols df) None 0) as [bm bs] eqn:Es.
    destruct (Nat.leb 2 bs); [|discriminate]. intro H.
    assert (H' : fst (currency_scan (cols df) None 0) = Some l) by (rewrite Es; exact H).
    apply currency_scan_in in H' as [H'|H']; [discriminate|exact H'].
Qed.

Lemma detect_price_in (df : frame) (l : pstr) :
  detect_price df = Some l -> has_label df l.
Proof.
  unfold detect_price, has_label.
  destruct (price_name_tier _ _) as [col|] eqn:E.
  - intro H. injection H as <-. exact (price_name_tier_in _ _ _ E).
  - intro H. apply top_scored_in in H as [sc H].
    unfold price_candidates in H. eapply candidates_in; [|exact H]. candidate_label.
Qed.

Lemma lookup_has_label (df : frame) (l : pstr) :
  has_label df l -> exists c, lookup df l = Some c.
Proof.
  intros [c [Hc Hl]]. unfold lookup.
  destruct (find _ (cols df)) as [c'|] eqn:E; [eauto|].
  exfalso. apply (find_none _ _ E) in Hc. subst l. rewrite pstr_eqb_refl in Hc. discriminate.
Qed.

Lemma truthy_col_some (o : option pstr) (l : pstr) : truthy_col o = Some l -> o = Some l.
Proof.
  destruct o as [l'|]; simpl; [|discriminate].
  destruct (is_emptyb l'); [discriminate|]. exact id.
Qed.

Lemma s_get_first (vs : list value) (name : pstr) :
  s_get (set_series empty_sframe name vs) name = Some vs.
Proof.
  unfold set_series, s_get. simpl.
  destruct (negb (is_emptyb vs)); simpl; rewrite pstr_eqb_refl; reflexivity.
Qed.

Lemma standardize_some (df : frame) (d : detected) :
  (forall l, d_full_name d = Some l -> has_label df l) ->
  (forall l, d_short_name d = Some l -> has_label df l) ->
  (forall l, d_currency d = Some l -> has_label df l) ->
  (forall l, d_price d = Some l -> has_label df l) ->
  exists s, standardize_dataframe df d = Some s.
Proof.
  intros Hf Hs Hc Hp.
  assert (Hl : forall o, (forall l, o = Some l -> has_label df l) ->
                 forall l, truthy_col o = Some l -> exists c, lookup df l = Some c)
    by (intros o Ho l E; apply lookup_has_label, Ho, truthy_col_some, E).
  unfold standardize_dataframe.
  destruct (truthy_col (d_full_name d)) as [lf|] eqn:Ef.
  - destruct (Hl _ Hf lf Ef) as [cf Ecf]. rewrite Ecf. cbv beta iota delta [option_map].
    destruct (truthy_col (d_short_name d)) as [ls|] eqn:Es.
    + destruct (Hl _ Hs ls Es) as [cs Ecs]. rewrite Ecs. cbv beta iota delta [option_map].
      destruct (truthy_col (d_currency d)) as [lc|] eqn:Ec.
      * destruct (Hl _ Hc lc Ec) as [cc Ecc]. rewrite Ecc. cbv beta iota delta [option_map].
        destruct (truthy_col (d_price d)) as [lp|] eqn:Ep; try (eexists; reflexivity).
        destruct (Hl _ Hp lp Ep) as [cp Ecp]. rewrite Ecp. eexists; reflexivity.
      * destruct (truthy_col (d_price d)) as [lp|] eqn:Ep; try (eexists; reflexivity).
        destruct (Hl _ Hp lp Ep) as [cp Ecp]. rewrite Ecp. eexists; reflexivity.
    + rewrite s_get_first. cbv beta iota delta [option_map].
      destruct (truthy_col (d_currency d)) as [lc|] eqn:Ec.
      * destruct (Hl _ Hc lc Ec) as [cc Ecc]. rewrite Ecc. cbv beta iota delta [option_map].
        destruct (truthy_col (d_price d)) as [lp|] eqn:Ep; try (eexists; reflexivity).
        destruct (Hl _ Hp lp Ep) as [cp Ecp]. rewrite Ecp. eexists; reflexivity.
      * destruct (truthy_col (d_price d)) as [lp|] eqn:Ep; try (eexists; reflexivity).
        destruct (Hl _ Hp lp Ep) as [cp Ecp]. rewrite Ecp. eexists; reflexivity.
  - destruct (truthy_col (d_short_name d)) as [ls|] eqn:Es.
    + destruct (Hl _ Hs ls Es) as [cs Ecs]. rewrite Ecs. cbv beta iota delta [option_map].
      destruct (truthy_col (d_currency d)) as [lc|] eqn:Ec.
      * destruct (Hl _ Hc lc Ec) as [cc Ecc]. rewrite Ecc. cbv beta iota delta [option_map].
        destruct (truthy_col (d_price d)) as [lp|] eqn:Ep; try (eexists; reflexivity).
        destruct (Hl _ Hp lp Ep) as [cp Ecp]. rewrite Ecp. eexists; reflexivity.
      * destruct (truthy_col (d_price d)) as [lp|] eqn:Ep; try (eexists; reflexivity).
        destruct (Hl _ Hp lp Ep) as [cp Ecp]. rewrite Ecp. eexists; reflexivity.
    + destruct (truthy_col (d_currency d)) as [lc|] eqn:Ec.
      * destruct (Hl _ Hc lc Ec) as [cc Ecc]. rewrite Ecc. cbv beta iota delta [option_map].
        destruct (truthy_col (d_price d)) as [lp|] eqn:Ep; try (eexists; reflexivity).
        destruct (Hl _ Hp lp Ep) as [cp Ecp]. rewrite Ecp. eexists; reflexivity.
      * destruct (truthy_col (d_price d)) as [lp|] eqn:Ep; try (eexists; reflexivity).
        destruct (Hl _ Hp lp Ep) as [cp Ecp]. rewrite Ecp. eexists; reflexivity.
Qed.

Lemma detect_columns_in (df : frame) :
  (forall l, d_full_name (detect_columns df) = Some l -> has_label df l) /\
  (forall l, d_short_name (detect_columns df) = Some l -> has_label df l) /\
  (forall l, d_currency (detect_columns df) = Some l -> has_label df l) /\
  (forall l, d_price (detect_columns df) = Some l -> has_label df l).
Proof.
  unfold detect_columns; simpl.
  split; [apply detect_full_in|]. split; [apply detect_short_in|].
  split; [apply detect_currency_in|apply detect_price_in].
Qed.

(** Claim C2: once a non-empty table is left after the header rows are
    dropped, the classifiers yield a role map (each role a column or
    undetected); [process_file] raises the schema-detection error exactly
    when more than 2 of the 4 roles are undetected, and otherwise
    standardizes the table. *)
Theorem schema_detection_threshold (df0 : frame) :
  frame_empty df0 = false ->
  frame_empty (drop_header_rows df0) = false ->
  ((exists m, process_parsed df0 = inl (ESchemaDetection m))
     <-> 2 < length (missing_columns (detect_columns (drop_header_rows df0)))) /\
  (length (missing_columns (detect_columns (drop_header_rows df0))) <= 2 ->
     exists s, process_parsed df0 = inr s /\
       standardize_dataframe (drop_header_rows df0) (detect_columns (drop_header_rows df0))
       = Some s).
Proof.
  intros H0 H1.
  destruct (detect_columns_in (drop_header_rows df0)) as [Hf [Hs [Hc Hp]]].
  destruct (standardize_some _ _ Hf Hs Hc Hp) as [s Es].
  unfold process_parsed. rewrite H0, H1, Es.
  destruct (Nat.ltb 2 (length (missing_columns (detect_columns (drop_header_rows df0)))))
    eqn:Elt.
  - apply Nat.ltb_lt in Elt. split; [split; [intros _; exact Elt|intros _; eauto]|].
    intro Hle. lia.
  - apply Nat.ltb_ge in Elt. split; [split|].
    + intros [m Hm]. discriminate.
    + intro Hlt. lia.
    + intros _. eauto.
Qed.

Lemma schema_detection_threshold_witness :
  frame_empty invoice_table = false /\
  frame_empty (drop_header_rows invoice_table) = false /\
  length (missing_columns (detect_columns (drop_header_rows invoice_table))) = 0 /\
  exists s, process_parsed invoice_table = inr s /\
    standardize_dataframe (drop_header_rows invoice_table)
      (detect_columns (drop_header_rows invoice_table)) = Some s.
Proof.
  assert (H0 : frame_empty invoice_table = false) by (vm_compute; reflexivity).
  assert (H1 : frame_empty (drop_header_rows invoice_table) = false) by (vm_compute; reflexivity).
  assert (H2 : length (missing_columns (detect_columns (drop_header_rows invoice_table))) = 0)
    by (vm_compute; reflexivity).
  split; [exact H0|]. split; [exact H1|]. split; [exact H2|].
  apply (proj2 (schema_detection_threshold invoice_table H0 H1)). rewrite H2. lia.
Defined.

(* ================================================================== *)
(** ** Standardization of unresolved roles *)

(** Claim C3 (as the code behaves): in [codes_table] no column is taken for
    the full name while ["Code"] is the short name; the standardized
    [company_full_name] column then holds NaN, not ["Unknown"]: the scalar
    was set on a frame without rows, and the short-name Series assigned
    next reindexed it. *)
Theorem unresolved_full_name_is_nan :
  d_full_name (detect_columns codes_table) = None /\
  d_short_name (detect_columns codes_table) = Some (u "Code") /\
  exists s, process_parsed codes_table = inr s /\
            s_get s (u "company_full_name") = Some [VNaN] /\
            s_get s (u "company_short_name") = Some [VNum (u "7")].
Proof.
  split; [vm_compute; reflexivity|]. split; [vm_compute; reflexivity|].
  exists (match process_parsed codes_table with inr s => s | inl _ => empty_sframe end).
  vm_compute. split; [reflexivity|split; reflexivity].
Qed.

(* ================================================================== *)
(** ** The short-name derivation *)

(** Claim C4, counterexample.  ["Co"] has at most 10 characters; its
    short name is the empty string (the suffix word is removed), whose
    short name is ["Unknown"].  [ffi4] has 7 characters; its acronym is uppercased to the 12
    characters FFIFFIFFIFFI, a single word that the second derivation cuts
    to 10. *)
Lemma derive_not_idempotent_co :
  (length (u "Co") <= 10 /\ derive (u "Co") = [] /\ derive (derive (u "Co")) = u "Unknown")
  /\ (length ffi4 <= 10 /\ derive ffi4 = u "FFIFFIFFIFFI"
      /\ forallb is_word (derive ffi4) = true /\ is_suffix_word (derive ffi4) = false
      /\ derive (derive ffi4) = u "FFIFFIFFIF").
Proof.
  split; (split; [simpl; lia|]); vm_compute; repeat split; reflexivity.
Qed.

Lemma space_high (c : pchar) : (12289 <= c)%N -> is_space c = false.
Proof.
  intro Hc. destruct (is_space c) eqn:E; [exfalso|reflexivity].
  unfold is_space, in_range in E.
  repeat (apply orb_true_iff in E as [E|E]);
    first [apply andb_true_iff in E as [_ E]; apply N.leb_le in E; lia
          |apply N.eqb_eq in E; lia].
Qed.

Lemma word_char_plain (c : pchar) :
  is_word c = true -> is_space c = false /\ N.eqb c 44 = false.
Proof.
  intro H. destruct (N.lt_ge_cases c 12289) as [Hlt|Hge].
  - assert (L : forallb (fun c => implb (is_word c) (negb (is_space c) && negb (N.eqb c 44)))
                  (map N.of_nat (seq 0 (N.to_nat 12289))) = true)
      by (vm_compute; reflexivity).
    rewrite forallb_forall in L.
    assert (Hin : In c (map N.of_nat (seq 0 (N.to_nat 12289)))).
    { apply in_map_iff. exists (N.to_nat c). split; [apply N2Nat.id|]. apply in_seq.
      split; [apply Nat.le_0_l|]. rewrite Nat.add_0_l. apply Nat.compare_lt_iff.
      rewrite <- N2Nat.inj_compare. apply N.compare_lt_iff. exact Hlt. }
    specialize (L c Hin). rewrite H in L. simpl in L.
    apply andb_true_iff in L as [H1 H2]. apply negb_true_iff in H1, H2. auto.
  - split; [apply space_high; exact Hge|]. apply N.eqb_neq. lia.
Qed.

Lemma lstrip_nospace (s : pstr) :
  (forall c, In c s -> is_space c = false) -> lstrip s = s.
Proof.
  destruct s as [|c t]; simpl; [reflexivity|]. intro H. rewrite (H c (or_introl eq_refl)).
  reflexivity.
Qed.

Lemma strip_nospace (s : pstr) :
  (forall c, In c s -> is_space c = false) -> strip s = s.
Proof.
  intro H. unfold strip. rewrite (lstrip_nospace s H).
  rewrite lstrip_nospace; [apply rev_involutive|].
  intros c Hc. apply H. apply in_rev. exact Hc.
Qed.

Lemma words_nospace (y : pstr) :
  forallb is_word y = true -> forall c, In c y -> is_space c = false.
Proof.
  intros H c Hc. rewrite forallb_forall in H. exact (proj1 (word_char_plain c (H c Hc))).
Qed.

Lemma sub_suffixes_words (p : pchar) (t : pstr) :
  is_word p = true -> forallb is_word t = true -> sub_suffixes (Some p) 0 t = t.
Proof.
  revert p. induction t as [|c t IH]; intros p Hp Ht; simpl; [reflexivity|].
  simpl in Ht. apply andb_true_iff in Ht as [Hc Ht].
  unfold boundary. simpl. rewrite Hp, Hc. simpl. rewrite (IH c Hc Ht). reflexivity.
Qed.

Lemma sub_comma_words (y : pstr) : forallb is_word y = true -> sub_comma_clause y = y.
Proof.
  induction y as [|c t IH]; simpl; [reflexivity|]. intro H.
  apply andb_true_iff in H as [Hc Ht].
  rewrite (proj2 (word_char_plain c Hc)). simpl. rewrite (IH Ht). reflexivity.
Qed.

Lemma split_aux_nospace (s cur : pstr) :
  (forall c, In c s -> is_space c = false) -> s ++ cur <> [] ->
  split_aux s cur = [rev cur ++ s].
Proof.
  revert cur. induction s as [|c t IH]; intros cur H Hne; simpl.
  - destruct cur as [|d cur']; [contradiction|]. rewrite app_nil_r. reflexivity.
  - rewrite (H c (or_introl eq_refl)). rewrite IH.
    + simpl. rewrite <- app_assoc. reflexivity.
    + intros d Hd. apply H. right. exact Hd.
    + destruct t; simpl; discriminate.
Qed.

Lemma find_none_all {A} (f : A -> bool) (l : list A) :
  (forall x, In x l -> f x = false) -> find f l = None.
Proof.
  induction l as [|x l IH]; simpl; intro H; [reflexivity|].
  rewrite (H x (or_introl eq_refl)). apply IH. intros y Hy. apply H. right. exact Hy.
Qed.

Lemma ci_prefix_length (w s : pstr) : ci_prefix w s = true -> length w <= length s.
Proof.
  revert s. induction w as [|x w IH]; intros s; simpl; [lia|].
  destruct s as [|c s]; [discriminate|]. intro H. apply andb_true_iff in H as [_ H].
  apply IH in H. simpl. lia.
Qed.

Lemma nth_error_word (y : pstr) (k : nat) :
  forallb is_word y = true -> k < length y ->
  exists c, nth_error y k = Some c /\ is_word c = true.
Proof.
  intros H Hk. destruct (nth_error y k) as [c|] eqn:E.
  - exists c. split; [reflexivity|]. rewrite forallb_forall in H. apply H.
    eapply nth_error_In. exact E.
  - apply nth_error_None in E. lia.
Qed.

Lemma kw_match_word (y : pstr) :
  forallb is_word y = true -> is_suffix_word y = false -> kw_match y = None.
Proof.
  intros Hw Hs. unfold kw_match. rewrite find_none_all; [reflexivity|].
  intros w Hin. destruct (ci_prefix w y) eqn:Ep; [|reflexivity]. simpl.
  assert (Hne : length w <> length y).
  { intro Heq. unfold is_suffix_word in Hs.
    assert (Hx : existsb (fun w => ci_prefix w y && Nat.eqb (length w) (length y))
                   suffix_words = true).
    { apply existsb_exists. exists w. split; [exact Hin|]. rewrite Ep, Heq, Nat.eqb_refl.
      reflexivity. }
    congruence. }
  assert (Hpos : 0 < length w).
  { unfold suffix_words in Hin. simpl in Hin.
    repeat (destruct Hin as [<-|Hin]; [simpl; lia|]). contradiction. }
  pose proof (ci_prefix_length w y Ep) as Hle.
  destruct (nth_error_word y (length w - 1) Hw) as [c1 [E1 W1]]; [lia|].
  destruct (nth_error_word y (length w) Hw) as [c2 [E2 W2]]; [lia|].
  rewrite E1, E2. unfold boundary. rewrite W1, W2. reflexivity.
Qed.

Lemma derive_fixed (y : pstr) :
  y <> [] -> forallb is_word y = true -> is_suffix_word y = false -> length y <= 10 ->
  derive y = y.
Proof.
  intros Hne Hw Hs Hl. unfold derive, generate_short_name.
  assert (Hsp := words_nospace y Hw).
  destruct y as [|c t] eqn:Ey; [contradiction|]. rewrite <- Ey in *.
  simpl value_truthy. rewrite Ey at 1. simpl negb. cbv iota.
  simpl cell_text. cbv iota. rewrite (strip_nospace y Hsp).
  assert (Hsub : sub_suffixes None 0 y = y).
  { rewrite Ey. simpl. pose proof Hw as Hw'. rewrite Ey in Hw'. simpl in Hw'.
    apply andb_true_iff in Hw' as [Hc Ht].
    unfold boundary. simpl. rewrite Hc. simpl. rewrite <- Ey, (kw_match_word y Hw Hs), Ey.
    rewrite (sub_suffixes_words c t Hc Ht). reflexivity. }
  rewrite Hsub, (strip_nospace y Hsp), (sub_comma_words y Hw), (strip_nospace y Hsp).
  unfold split. rewrite (split_aux_nospace y [] Hsp) by (rewrite app_nil_r; exact Hne). simpl.
  apply Nat.leb_le in Hl. rewrite Hl. reflexivity.
Qed.

(** Claim C4, as the code behaves: for [x] of at most 10 characters whose
    short name has at most 10 characters, is a non-empty run of word
    characters ([\w]) and is not a suffix word (Inc, LLC, Ltd, GmbH, Corp,
    Company, Co, Corporation, Limited, Group, in any case), deriving again
    gives the same short name.  The length condition is needed because
    [str.upper] can lengthen an acronym (U+FB03 becomes FFI). *)
Theorem derive_idempotent_word (x : pstr) :
  length x <= 10 ->
  length (derive x) <= 10 ->
  derive x <> [] ->
  forallb is_word (derive x) = true ->
  is_suffix_word (derive x) = false ->
  derive (derive x) = derive x.
Proof.
  intros _ Hl Hne Hw Hs. apply derive_fixed; assumption.
Qed.

Lemma derive_idempotent_word_witness :
  length (u "IBM Corp") <= 10 /\ length (derive (u "IBM Corp")) <= 10 /\
  derive (u "IBM Corp") <> [] /\
  forallb is_word (derive (u "IBM Corp")) = true /\
  is_suffix_word (derive (u "IBM Corp")) = false /\
  derive (derive (u "IBM Corp")) = derive (u "IBM Corp").
Proof.
  assert (H1 : length (u "IBM Corp") <= 10) by (simpl; lia).
  assert (H0 : length (derive (u "IBM Corp")) <= 10) by (vm_compute; lia).
  assert (H2 : derive (u "IBM Corp") <> []) by (vm_compute; discriminate).
  assert (H3 : forallb is_word (derive (u "IBM Corp")) = true) by (vm_compute; reflexivity).
  assert (H4 : is_suffix_word (derive (u "IBM Corp")) = false) by (vm_compute; reflexivity).
  split; [exact H1|]. split; [exact H0|]. split; [exact H2|]. split; [exact H3|].
  split; [exact H4|].
  exact (derive_idempotent_word (u "IBM Corp") H1 H0 H2 H3 H4).
Defined.

(* ================================================================== *)
(** ** Full-name and short-name columns *)

(** Claim C5, counterexample: in [short_company_table] the single column
    ["Short Company Name"] matches the first full-name pattern
    [company\s*(?:full)*\s*name] and the first short-name pattern, and is
    taken for both roles. *)
Lemma short_equals_full_column :
  d_full_name (detect_columns short_company_table) = Some (u "Short Company Name") /\
  d_short_name (detect_columns short_company_table) = Some (u "Short Company Name").
Proof. split; vm_compute; reflexivity. Qed.

(** Claim C5, as the code behaves: when no label matches a short-name
    pattern, the short-name column found by content scoring is never the
    full-name column. *)
Theorem short_content_tier_excludes_full (df : frame) (l : pstr) :
  first_label_match short_name_patterns (cols df) = None ->
  d_short_name (detect_columns df) = Some l ->
  d_full_name (detect_columns df) <> Some l.
Proof.
  unfold detect_columns. cbv zeta. cbn [d_short_name d_full_name].
  intros H1 H2 Hf. rewrite Hf in H2.
  unfold detect_short_company_name in H2. rewrite H1 in H2.
  apply top_scored_in in H2 as [sc H2]. unfold short_name_candidates in H2.
  apply in_flat_map in H2 as [c [_ Hp]]. unfold is_col in Hp.
  destruct (pstr_eqb (label c) l) eqn:E; [contradiction|]. cbv zeta in Hp.
  destruct (forallb is_numeric _); simpl in Hp; [contradiction|].
  destruct Hp as [Hp|[]]. injection Hp as Hl _. rewrite Hl, pstr_eqb_refl in E.
  discriminate.
Qed.

Lemma short_content_tier_excludes_full_witness :
  first_label_match short_name_patterns (cols firm_table) = None /\
  d_short_name (detect_columns firm_table) = Some (u "Tag") /\
  d_full_name (detect_columns firm_table) <> Some (u "Tag").
Proof.
  assert (H1 : first_label_match short_name_patterns (cols firm_table) = None)
    by (vm_compute; reflexivity).
  assert (H2 : d_short_name (detect_columns firm_table) = Some (u "Tag"))
    by (vm_compute; reflexivity).
  split; [exact H1|]. split; [exact H2|].
  exact (short_content_tier_excludes_full firm_table (u "Tag") H1 H2).
Defined.

(* ================================================================== *)
(** ** What pandas parses, [float] parses *)

Lemma count_mono {A} (p q : A -> bool) (l : list A) :
  (forall x, p x = true -> q x = true) -> (count p l <= count q l)%nat.
Proof.
  intro H. unfold count. induction l as [|x l IH]; simpl; [lia|].
  destruct (p x) eqn:Ep; [rewrite (H x Ep); simpl; lia|].
  destruct (q x); simpl; lia.
Qed.

Lemma ratio_mono (k k' n : nat) : (k <= k')%nat -> (ratio k n <= ratio k' n)%Q.
Proof.
  intro H. unfold ratio, Qdiv. apply Qmult_le_compat_r.
  - rewrite <- Zle_Qle. lia.
  - apply Qinv_le_0_compat. change 0%Q with (inject_Z 0). rewrite <- Zle_Qle. lia.
Qed.

Lemma price_name_tier_spec (pats : list rx) (cs : list column) (l : pstr) :
  price_name_tier pats cs = Some l ->
  exists c, In c cs /\ label c = l /\ existsb (fun p => rx_search p l) pats = true
            /\ is_numeric_column c = true.
Proof.
  induction pats as [|p ps IH]; simpl; [discriminate|].
  destruct (find _ cs) as [c|] eqn:E.
  - intro H. injection H as <-. apply find_some in E as [Hin Hc].
    apply andb_true_iff in Hc as [Hp Hn]. exists c. rewrite Hp. auto.
  - intro H. destruct (IH H) as [c [H1 [H2 [H3 H4]]]].
    exists c. rewrite H3, orb_true_r. auto.
Qed.

Lemma is_numeric_column_ratio (c : column) :
  is_numeric_column c = true ->
  values c <> [] /\ (1 # 2 <= ratio (count is_some (numeric_cells c)) (length (values c)))%Q.
Proof.
  unfold is_numeric_column. destruct (Nat.eqb (length (values c)) 0) eqn:E0; [discriminate|].
  intro H. apply Qle_bool_imp_le in H. split; [|exact H].
  intros Hv. rewrite Hv in E0. discriminate.
Qed.

(** Claim C6, as the code behaves.  When the name tier of [detect_price]
    returns a label [l], [l] matches a price pattern and some column
    labelled [l] passes [is_numeric_column]: it is non-empty and at least
    half of its values are not NaN after [pd.to_numeric(errors='coerce')].
    A column whose label matches but which fails [is_numeric_column] is
    never the one the tier picks.  [pd.to_numeric] is not [float] with
    commas read as dots: a [bool] counts as a number, ['12,5'] does not. *)
Theorem price_name_tier_numeric (df : frame) (l : pstr) :
  price_name_tier price_patterns (cols df) = Some l ->
  exists c, In c (cols df) /\ label c = l
    /\ existsb (fun p => rx_search p l) price_patterns = true
    /\ is_numeric_column c = true
    /\ values c <> []
    /\ (1 # 2 <= ratio (count is_some (numeric_cells c)) (length (values c)))%Q.
Proof.
  intro H. destruct (price_name_tier_spec _ _ _ H) as [c [H1 [H2 [H3 H4]]]].
  destruct (is_numeric_column_ratio c H4) as [H5 H6]. exists c. auto 7.
Qed.

Lemma price_name_tier_numeric_witness :
  price_name_tier price_patterns (cols invoice_table) = Some (u "Amount") /\
  exists c, In c (cols invoice_table) /\ label c = u "Amount"
    /\ existsb (fun p => rx_search p (u "Amount")) price_patterns = true
    /\ is_numeric_column c = true
    /\ values c <> []
    /\ (1 # 2 <= ratio (count is_some (numeric_cells c)) (length (values c)))%Q.
Proof.
  assert (H : price_name_tier price_patterns (cols invoice_table) = Some (u "Amount"))
    by (vm_compute; reflexivity).
  split; [exact H|]. exact (price_name_tier_numeric invoice_table (u "Amount") H).
Defined.

(** Claim C6, counterexample.  The [Price] column of [bool_price_table]
    holds [True]: [pd.to_numeric] keeps it, so the name tier returns the
    column, but [float('True')] raises and none of its values parses as a
    number.  Conversely the [Price] column of [comma_price_table] holds
    ['12,5'], which parses with the comma read as a dot, but
    [pd.to_numeric] makes it NaN and the tier rejects the column. *)
Lemma price_tier_bool_column :
  price_name_tier price_patterns (cols bool_price_table) = Some (u "Price")
  /\ map (fun v => match cell_text v with Some s => is_numeric s | None => false end)
         (flat_map values (cols bool_price_table)) = [false]
  /\ price_name_tier price_patterns (cols comma_price_table) = None
  /\ map (fun v => match cell_text v with Some s => is_numeric s | None => false end)
         (flat_map values (cols comma_price_table)) = [true].
Proof. vm_compute. repeat split. Qed.

(* ================================================================== *)
(** ** Encoding and delimiter detection *)

(** Claim C9, as the code has it.  Whatever the sniffer, the result is
    decided by at most three sniffs: of the first 4096 characters of the
    UTF-8 decoding (when the bytes decode), of the first 4096 Latin-1
    characters (Latin-1 decodes every byte string), and of the first 4096
    Windows-1252 characters (when the bytes decode).  A sniffing failure
    moves on to the next encoding instead of falling back; ISO-8859-1,
    which decodes exactly as Latin-1, is never the answer; the fallback
    [('utf-8', ',')] comes only when every one of these attempts fails. *)
Theorem detect_encoding_attempts (sniff : pstr -> option pchar) (file_content : list Byte.byte) :
  let bs : pstr := map Byte.to_N file_content in
  detect_encoding_and_delimiter sniff file_content =
  match match utf8_decode bs with Some t => sniff (firstn 4096 t) | None => None end with
  | Some d => ("utf-8"%string, d)
  | None =>
      match sniff (firstn 4096 bs) with
      | Some d => ("latin1"%string, d)
      | None =>
          match match cp1252_decode bs with Some t => sniff (firstn 4096 t) | None => None end with
          | Some d => ("cp1252"%string, d)
          | None => ("utf-8"%string, 44%N)
          end
      end
  end.
Proof.
  cbv zeta. unfold detect_encoding_and_delimiter, encodings.
  set (bs := map Byte.to_N file_content : pstr).
  cbn [try_encodings]. unfold latin1_decode.
  destruct (utf8_decode bs) as [t|];
    [destruct (sniff (firstn 4096 t)) as [d|]; [reflexivity|]|];
    (destruct (sniff (firstn 4096 bs)) as [d|]; [reflexivity|]);
    destruct (cp1252_decode bs) as [t'|]; try reflexivity;
    destruct (sniff (firstn 4096 t')); reflexivity.
Qed.

(** Claim C9, counterexample.  [sniff_bytes] decodes as UTF-8 and its first
    4096 characters hold no quote character, and [csv.Sniffer] finds no
    delimiter in them ([csv.Error]); the result is nevertheless not the
    fallback [('utf-8', ',')] but [('latin1', ',')]: the first 4096 Latin-1
    characters are the two comma lines alone, also quote-free. *)
Lemma sniff_error_not_fallback :
  match utf8_decode (map Byte.to_N sniff_bytes) with
  | Some t => negb (has_quote (firstn 4096 t))
              && match sniff_quote_free (firstn 4096 t) with None => true | Some _ => false end
  | None => false
  end = true
  /\ has_quote (firstn 4096 (map Byte.to_N sniff_bytes)) = false
  /\ detect_encoding_and_delimiter sniff_quote_free sniff_bytes = ("latin1"%string, 44%N).
Proof. vm_compute. repeat split. Qed.

(* ================================================================== *)
(** ** The content tiers pick the best-scoring column *)

Lemma insert_desc_in_iff (x p : pstr * Q) (l : list (pstr * Q)) :
  In p (insert_desc x l) <-> p = x \/ In p l.
Proof.
  split; [apply insert_desc_in|].
  induction l as [|y l IH]; simpl.
  - intros [H|[]]. left. symmetry. exact H.
  - destruct (Qle_bool (snd x) (snd y)); simpl.
    + intros [H|[H|H]]; [right; apply IH; left; exact H|left; exact H|right; apply IH; right; exact H].
    + intros [H|[H|H]]; [left; symmetry; exact H|right; left; exact H|right; right; exact H].
Qed.

Lemma insert_desc_head_max (x : pstr * Q) (l : list (pstr * Q)) :
  head_max l -> head_max (insert_desc x l).
Proof.
  destruct l as [|y l]; simpl.
  - intros _ p [<-|[]]. apply Qle_refl.
  - intro H. destruct (Qle_bool (snd x) (snd y)) eqn:E; simpl.
    + apply Qle_bool_iff in E. intros p [<-|Hp]; [apply Qle_refl|].
      apply insert_desc_in in Hp as [->|Hp]; [exact E|]. apply H. right. exact Hp.
    + assert (Hlt : (snd y < snd x)%Q).
      { apply Qnot_le_lt. intro C. apply Qle_bool_iff in C. congruence. }
      intros p [<-|Hp]; [apply Qle_refl|].
      apply Qlt_le_weak. eapply Qle_lt_trans; [apply H; exact Hp|exact Hlt].
Qed.

Lemma sort_desc_spec (l : list (pstr * Q)) :
  head_max (sort_desc l) /\ forall p, In p (sort_desc l) <-> In p l.
Proof.
  unfold sort_desc.
  assert (G : forall acc, head_max acc ->
            head_max (fold_left (fun acc x => insert_desc x acc) l acc) /\
            forall p, In p (fold_left (fun acc x => insert_desc x acc) l acc) <-> In p l \/ In p acc).
  { induction l as [|x l IH]; intros acc Hacc; simpl.
    - split; [exact Hacc|]. intro p. tauto.
    - destruct (IH (insert_desc x acc) (insert_desc_head_max x acc Hacc)) as [H1 H2].
      split; [exact H1|]. intro p. rewrite H2, insert_desc_in_iff.
      split; intros [H|H]; try tauto; destruct H as [H|H]; subst; tauto. }
  destruct (G [] I) as [H1 H2]. split; [exact H1|]. intro p. rewrite H2. simpl. tauto.
Qed.

Lemma top_scored_max (ok : Q -> bool) (l : list (pstr * Q)) (x : pstr) :
  top_scored ok l = Some x ->
  exists sc, In (x, sc) l /\ ok sc = true /\ forall p, In p l -> (snd p <= sc)%Q.
Proof.
  unfold top_scored. destruct (sort_desc_spec l) as [Hm Hin].
  destruct (sort_desc l) as [|[col score] rest] eqn:E; [discriminate|].
  destruct (ok score) eqn:Eok; [|discriminate]. intro H. injection H as <-.
  exists score. split; [apply Hin; left; reflexivity|]. split; [exact Eok|].
  intros p Hp. apply (Hm p). apply Hin. exact Hp.
Qed.

Lemma currency_scan_spec (cs : list column) (bm : option pstr) (bs : nat) :
  bs <= snd (currency_scan cs bm bs) /\
  (forall c, In c cs -> dtype c = DObject ->
     currency_score (sample_texts c 20) <= snd (currency_scan cs bm bs)) /\
  ((fst (currency_scan cs bm bs) = bm /\ snd (currency_scan cs bm bs) = bs) \/
   exists c, In c cs /\ dtype c = DObject /\ fst (currency_scan cs bm bs) = Some (label c)
             /\ snd (currency_scan cs bm bs) = currency_score (sample_texts c 20)).
Proof.
  revert bm bs. induction cs as [|c rest IH]; intros bm bs; simpl.
  - split; [lia|]. split; [intros c []|]. left. auto.
  - destruct (dtype c) eqn:Ed.
    + destruct (IH bm bs) as [H1 [H2 H3]]. split; [exact H1|]. split.
      * intros c' [<-|Hc'] Hd; [congruence|]. apply H2; assumption.
      * destruct H3 as [H3|[c' [Hc' H3]]]; [left; exact H3|right; exists c'; auto].
    + destruct (Nat.ltb bs (currency_score (sample_texts c 20))) eqn:Elt.
      * apply Nat.ltb_lt in Elt.
        destruct (IH (Some (label c)) (currency_score (sample_texts c 20))) as [H1 [H2 H3]].
        split; [lia|]. split.
        -- intros c' [<-|Hc'] Hd; [exact H1|]. apply H2; assumption.
        -- right. destruct H3 as [[H3 H4]|[c' [Hc' H3]]]; [exists c; auto|exists c'; auto].
      * apply Nat.ltb_ge in Elt. destruct (IH bm bs) as [H1 [H2 H3]].
        split; [exact H1|]. split.
        -- intros c' [<-|Hc'] Hd; [lia|]. apply H2; assumption.
        -- destruct H3 as [H3|[c' [Hc' H3]]]; [left; exact H3|right; exists c'; auto].
Qed.

(** [detect_columns]: every role it resolves is the label of a column of
    the table, so standardizing never looks up a missing column. *)
Theorem detect_columns_labels (df : frame) (role : pstr) (l : pstr) :
  In (role, Some l) (detected_items (detect_columns df)) ->
  exists c, In c (cols df) /\ label c = l.
Proof.
  destruct (detect_columns_in df) as [Hf [Hs [Hc Hp]]].
  unfold detected_items. cbn [In].
  intros [E|[E|[E|[E|[]]]]]; injection E as _ E; [apply Hf|apply Hs|apply Hc|apply Hp];
    exact E.
Qed.

Lemma detect_columns_labels_witness :
  In (u "currency", Some (u "Unit")) (detected_items (detect_columns ledger_table)) /\
  exists c, In c (cols ledger_table) /\ label c = u "Unit".
Proof.
  assert (H : In (u "currency", Some (u "Unit")) (detected_items (detect_columns ledger_table)))
    by (vm_compute; right; right; left; reflexivity).
  split; [exact H|]. exact (detect_columns_labels ledger_table _ _ H).
Defined.



(** [detect_short_company_name], content tier: when no label matches a
    short-name pattern, the column returned is not [full_name_col], has a
    sampled value that is not a number, a score above 2, and the highest
    score among the other such columns. *)
Theorem detect_short_content_best (df : frame) (full_name_col : option pstr) (l : pstr) :
  first_label_match short_name_patterns (cols df) = None ->
  detect_short_company_name df full_name_col = Some l ->
  exists c, In c (cols df) /\ label c = l
    /\ is_col full_name_col (label c) = false
    /\ forallb is_numeric (sample_texts c 10) = false
    /\ (2 < short_name_score (sample_texts c 10))%Q
    /\ forall c', In c' (cols df) -> is_col full_name_col (label c') = false ->
         forallb is_numeric (sample_texts c' 10) = false ->
         (short_name_score (sample_texts c' 10) <= short_name_score (sample_texts c 10))%Q.
Proof.
  intros Hn H. unfold detect_short_company_name in H. rewrite Hn in H.
  apply top_scored_max in H as [sc [Hin [Hok Hmax]]].
  unfold short_name_candidates in Hin. apply in_flat_map in Hin as [c [Hc Hp]].
  destruct (is_col full_name_col (label c)) eqn:Ef; [destruct Hp|].
  destruct (forallb is_numeric (sample_texts c 10)) eqn:En; [destruct Hp|].
  destruct Hp as [E|[]]. injection E as El Es. subst sc.
  exists c. split; [exact Hc|]. split; [exact El|]. split; [exact Ef|]. split; [exact En|].
  split; [apply Qltb_iff; exact Hok|].
  intros c' Hc' Ef' En'. apply (Hmax (label c', short_name_score (sample_texts c' 10))).
  apply in_flat_map. exists c'. split; [exact Hc'|]. cbv beta zeta. rewrite Ef', En'. left. reflexivity.
Qed.

Lemma detect_short_content_best_witness :
  first_label_match short_name_patterns (cols ledger_table) = None /\
  detect_short_company_name ledger_table (Some (u "Firm")) = Some (u "Tag") /\
  exists c, In c (cols ledger_table) /\ label c = u "Tag"
    /\ is_col (Some (u "Firm")) (label c) = false
    /\ forallb is_numeric (sample_texts c 10) = false
    /\ (2 < short_name_score (sample_texts c 10))%Q
    /\ forall c', In c' (cols ledger_table) -> is_col (Some (u "Firm")) (label c') = false ->
         forallb is_numeric (sample_texts c' 10) = false ->
         (short_name_score (sample_texts c' 10) <= short_name_score (sample_texts c 10))%Q.
Proof.
  assert (H1 : first_label_match short_name_patterns (cols ledger_table) = None)
    by (vm_compute; reflexivity).
  assert (H2 : detect_short_company_name ledger_table (Some (u "Firm")) = Some (u "Tag"))
    by (vm_compute; reflexivity).
  split; [exact H1|]. split; [exact H2|]. exact (detect_short_content_best _ _ _ H1 H2).
Defined.

(** [detect_currency], content tier: when no label matches a currency
    pattern, the column returned has object dtype, a score of at least 2,
    and the highest score among the object columns. *)
Theorem detect_currency_content_best (df : frame) (l : pstr) :
  first_label_match currency_patterns (cols df) = None ->
  detect_currency df = Some l ->
  exists c, In c (cols df) /\ label c = l /\ dtype c = DObject
    /\ 2 <= currency_score (sample_texts c 20)
    /\ forall c', In c' (cols df) -> dtype c' = DObject ->
         currency_score (sample_texts c' 20) <= currency_score (sample_texts c 20).
Proof.
  intros Hn H. unfold detect_currency in H. rewrite Hn in H.
  destruct (currency_scan_spec (cols df) None 0) as [_ [Hmax Hres]].
  destruct (currency_scan (cols df) None 0) as [bm bs] eqn:Es. cbn [fst snd] in *.
  destruct (Nat.leb 2 bs) eqn:E2; [|discriminate]. apply Nat.leb_le in E2. subst bm.
  destruct Hres as [[H3 _]|[c [Hc [Hd [H3 H4]]]]]; [discriminate|].
  injection H3 as H3. subst l bs. exists c. repeat split; auto.
Qed.

Lemma detect_currency_content_best_witness :
  first_label_match currency_patterns (cols ledger_table) = None /\
  detect_currency ledger_table = Some (u "Unit") /\
  exists c, In c (cols ledger_table) /\ label c = u "Unit" /\ dtype c = DObject
    /\ 2 <= currency_score (sample_texts c 20)
    /\ forall c', In c' (cols ledger_table) -> dtype c' = DObject ->
         currency_score (sample_texts c' 20) <= currency_score (sample_texts c 20).
Proof.
  assert (H1 : first_label_match currency_patterns (cols ledger_table) = None)
    by (vm_compute; reflexivity).
  assert (H2 : detect_currency ledger_table = Some (u "Unit")) by (vm_compute; reflexivity).
  split; [exact H1|]. split; [exact H2|]. exact (detect_currency_content_best _ _ H1 H2).
Defined.

(** [detect_price]: whichever tier decides, the label returned is that
    of a column of the frame that passes [is_numeric_column]. *)
Theorem detect_price_numeric (df : frame) (l : pstr) :
  detect_price df = Some l ->
  exists c, In c (cols df) /\ label c = l /\ is_numeric_column c = true.
Proof.
  unfold detect_price. destruct (price_name_tier price_patterns (cols df)) as [col|] eqn:E.
  - intro H. injection H as <-. destruct (price_name_tier_spec _ _ _ E) as [c [H1 [H2 [_ H4]]]].
    eauto.
  - intro H. apply top_scored_max in H as [sc [Hin _]].
    unfold price_candidates in Hin. apply in_flat_map in Hin as [c [Hc Hp]].
    destruct (is_numeric_column c) eqn:En; [|destruct Hp].
    exists c. split; [exact Hc|]. split; [|exact En].
    destruct (Qltb _ _); [destruct Hp|].
    destruct (flat_map _ _); [destruct Hp|]. destruct Hp as [E'|[]]. injection E' as E' _.
    exact E'.
Qed.

Lemma detect_price_numeric_witness :
  detect_price ledger_table = Some (u "Net") /\
  exists c, In c (cols ledger_table) /\ label c = u "Net" /\ is_numeric_column c = true.
Proof.
  assert (H : detect_price ledger_table = Some (u "Net")) by (vm_compute; reflexivity).
  split; [exact H|]. exact (detect_price_numeric _ _ H).
Defined.





(* ================================================================== *)
(** ** [process_file]: dropping header rows, errors and the row count *)

Lemma filter_all_true {A} (p : A -> bool) (l : list A) :
  (forall x, In x l -> p x = true) -> filter p l = l.
Proof.
  induction l as [|x l IH]; simpl; intro H; [reflexivity|].
  rewrite (H x (or_introl eq_refl)). f_equal. apply IH. intros y Hy. apply H. right. exact Hy.
Qed.

Lemma forallb_ext_on {A} (p q : A -> bool) (l : list A) :
  (forall x, In x l -> p x = q x) -> forallb p l = forallb q l.
Proof.
  induction l as [|x l IH]; simpl; intro H; [reflexivity|].
  rewrite (H x (or_introl eq_refl)), IH; [reflexivity|]. intros y Hy. apply H. right. exact Hy.
Qed.

Lemma filter_map_comm {A B} (p : B -> bool) (f : A -> B) (l : list A) :
  filter p (map f l) = map f (filter (fun x => p (f x)) l).
Proof.
  induction l as [|x l IH]; simpl; [reflexivity|].
  destruct (p (f x)); simpl; rewrite IH; reflexivity.
Qed.

Lemma map_nth_seq {A} (l : list A) (d : A) :
  map (fun j => nth j l d) (seq 0 (length l)) = l.
Proof.
  induction l as [|x l IH]; [reflexivity|]. simpl. f_equal.
  rewrite <- seq_shift, map_map. exact IH.
Qed.

Lemma keep_rows_row (df : frame) (keep : list nat) (j : nat) :
  j < length keep -> frame_row (keep_rows df keep) j = frame_row df (nth j keep 0).
Proof.
  intro Hj. unfold frame_row, keep_rows. simpl. rewrite map_map. apply map_ext. intro c. simpl.
  rewrite (nth_indep _ VNaN (nth 0 (values c) VNaN)) by (rewrite length_map; exact Hj).
  apply (map_nth (fun i => nth i (values c) VNaN)).
Qed.

Lemma drop_header_rows_cases (df : frame) :
  let keep := filter (fun i => negb (dropped df i)) (seq 0 (nrows df)) in
  (drop_header_rows df = df /\ keep = seq 0 (nrows df)) \/
  drop_header_rows df = keep_rows df keep.
Proof.
  cbv zeta. unfold drop_header_rows.
  destruct (header_positions df) as [|j l] eqn:E; simpl; [left|right; reflexivity].
  split; [reflexivity|]. apply filter_all_true. intros i Hi.
  unfold dropped. rewrite E. reflexivity.
Qed.

Lemma drop_header_rows_nrows (df : frame) :
  nrows (drop_header_rows df)
  = length (filter (fun i => negb (dropped df i)) (seq 0 (nrows df))).
Proof.
  destruct (drop_header_rows_cases df) as [[-> ->]| ->].
  - rewrite length_seq. reflexivity.
  - reflexivity.
Qed.

Lemma label_eqb_refl (v : value) : label_eqb v v = true.
Proof.
  destruct v as [|r|b|t]; simpl.
  - reflexivity.
  - destruct (num_value r); [apply Qeq_bool_refl|reflexivity|reflexivity].
  - apply eqb_reflx.
  - apply pstr_eqb_refl.
Qed.

Lemma header_positions_in (df : frame) (i : nat) :
  In i (header_positions df) <-> i < nrows df /\ is_header_row (frame_row df i) = true.
Proof.
  unfold header_positions. rewrite filter_In, in_seq. split; intros [H1 H2]; split; auto; lia.
Qed.

(** Every header row is dropped; with a [RangeIndex] (no labels of the
    file's own) exactly the header rows are. *)
Lemma dropped_header (df : frame) (i : nat) :
  i < nrows df -> is_header_row (frame_row df i) = true -> dropped df i = true.
Proof.
  intros Hi Hh. unfold dropped. apply existsb_exists. exists i.
  split; [apply header_positions_in; auto|].
  unfold same_label. destruct (row_labels df); [apply label_eqb_refl|apply Nat.eqb_refl].
Qed.

Lemma dropped_range_index (df : frame) (i : nat) :
  row_labels df = None -> i < nrows df -> dropped df i = is_header_row (frame_row df i).
Proof.
  intros Hr Hi. destruct (is_header_row (frame_row df i)) eqn:Eh; [apply dropped_header; auto|].
  unfold dropped. apply not_true_iff_false. intro H. apply existsb_exists in H as [j [Hj Hs]].
  unfold same_label in Hs. rewrite Hr in Hs. apply Nat.eqb_eq in Hs. subst j.
  apply header_positions_in in Hj as [_ Hj]. congruence.
Qed.

Lemma drop_header_rows_cols (df : frame) :
  map label (cols (drop_header_rows df)) = map label (cols df) /\
  (forall c, In c (cols (drop_header_rows df)) -> exists c0, In c0 (cols df) /\ label c = label c0).
Proof.
  destruct (drop_header_rows_cases df) as [[-> _]| ->].
  - split; [reflexivity|]. intros c Hc. eauto.
  - unfold keep_rows. simpl. rewrite map_map. split; [reflexivity|].
    intros c Hc. apply in_map_iff in Hc as [c0 [<- Hc0]]. eauto.
Qed.

Lemma drop_header_rows_well_formed (df : frame) : well_formed (drop_header_rows df) \/ drop_header_rows df = df.
Proof.
  destruct (drop_header_rows_cases df) as [[-> _]| ->]; [right; reflexivity|left].
  intros c Hc. unfold keep_rows in Hc |- *. simpl in Hc |- *.
  apply in_map_iff in Hc as [c0 [<- _]]. simpl. apply length_map.
Qed.

(** [process_file]'s header-row removal: after
    [df.drop(rows_to_drop).reset_index(drop=True)] the rows of the frame
    are, in their order, the rows of the parsed frame that are not
    dropped; [df.drop] takes index labels, so a row is dropped when its
    label is the label of a header row.  Every header row is dropped; with
    the default [RangeIndex] exactly the header rows are.  Every column
    label is kept. *)
Theorem drop_header_rows_rows (df : frame) :
  map (frame_row (drop_header_rows df)) (seq 0 (nrows (drop_header_rows df)))
  = map (frame_row df) (filter (fun i => negb (dropped df i)) (seq 0 (nrows df))) /\
  (forall i, i < nrows df -> is_header_row (frame_row df i) = true -> dropped df i = true) /\
  (row_labels df = None ->
   forall i, i < nrows df -> dropped df i = is_header_row (frame_row df i)) /\
  map label (cols (drop_header_rows df)) = map label (cols df).
Proof.
  split; [|split; [exact (dropped_header df)|split; [intros Hr i Hi; exact (dropped_range_index df i Hr Hi)|]]];
    [|apply drop_header_rows_cols].
  destruct (drop_header_rows_cases df) as [[E Hk]|E]; rewrite E.
  - rewrite Hk. reflexivity.
  - set (keep := filter _ _). unfold keep_rows at 2. cbn [nrows].
    rewrite (map_ext_in _ (fun j => frame_row df (nth j keep 0))).
    + rewrite <- (map_map (fun j => nth j keep 0) (frame_row df)). rewrite map_nth_seq.
      reflexivity.
    + intros j Hj. apply in_seq in Hj. apply keep_rows_row. lia.
Qed.

(** [process_file] raises the only-headers error exactly when the parsed
    frame is not empty and every one of its rows is dropped; with the
    default [RangeIndex], when every row is a header row. *)
Theorem process_parsed_only_headers (df0 : frame) :
  (process_parsed df0 = inl EOnlyHeaders <->
   frame_empty df0 = false /\ forallb (dropped df0) (seq 0 (nrows df0)) = true) /\
  (row_labels df0 = None ->
   (process_parsed df0 = inl EOnlyHeaders <->
    frame_empty df0 = false /\
    forallb (fun i => is_header_row (frame_row df0 i)) (seq 0 (nrows df0)) = true)).
Proof.
  assert (Hd : frame_empty df0 = false ->
               (frame_empty (drop_header_rows df0) = true <->
                forallb (dropped df0) (seq 0 (nrows df0)) = true)).
  { intro H0. unfold frame_empty in H0. apply orb_false_iff in H0 as [Hn Hc].
    apply Nat.eqb_neq in Hn.
    destruct (drop_header_rows_cases df0) as [[E Hk]|E]; rewrite E.
    - unfold frame_empty. rewrite (proj2 (Nat.eqb_neq _ _) Hn), Hc. simpl.
      split; [discriminate|]. intro Hall. exfalso.
      destruct (nrows df0) as [|n] eqn:En; [lia|].
      assert (H0in : In 0 (seq 0 (S n))) by (apply in_seq; lia).
      rewrite <- Hk in H0in. apply filter_In in H0in as [_ Hf].
      rewrite forallb_forall in Hall.
      rewrite (Hall 0 (proj2 (in_seq _ _ _) (conj (le_n 0) (Nat.lt_0_succ n)))) in Hf.
      discriminate.
    - unfold frame_empty, keep_rows. cbn [nrows cols].
      destruct (cols df0) as [|c cs]; [discriminate|]. simpl is_emptyb. rewrite orb_false_r.
      rewrite Nat.eqb_eq, length_zero_iff_nil. split.
      + intro Hnil. apply forallb_forall. intros i Hi.
        destruct (dropped df0 i) eqn:Eh; [reflexivity|].
        assert (Hin : In i (filter (fun i => negb (dropped df0 i)) (seq 0 (nrows df0))))
          by (apply filter_In; rewrite Eh; auto).
        rewrite Hnil in Hin. destruct Hin.
      + intro Hall. rewrite forallb_forall in Hall.
        destruct (filter _ _) as [|i l] eqn:Ef; [reflexivity|].
        assert (Hin : In i (i :: l)) by (left; reflexivity). rewrite <- Ef in Hin.
        apply filter_In in Hin as [Hi Hh]. rewrite (Hall i Hi) in Hh. discriminate. }
  assert (Hmain : process_parsed df0 = inl EOnlyHeaders <->
                  frame_empty df0 = false /\ forallb (dropped df0) (seq 0 (nrows df0)) = true).
  { unfold process_parsed. destruct (frame_empty df0) eqn:E0.
    - split; [discriminate|intros [H _]; discriminate].
    - specialize (Hd eq_refl). rewrite <- Hd.
      destruct (frame_empty (drop_header_rows df0)).
      + split; intros _; [split; reflexivity|reflexivity].
      + split; [|intros [_ H]; discriminate].
        destruct (Nat.ltb 2 _); [discriminate|].
        destruct (standardize_dataframe _ _); discriminate. }
  split; [exact Hmain|]. intro Hr. rewrite Hmain.
  assert (Hs : forallb (dropped df0) (seq 0 (nrows df0))
               = forallb (fun i => is_header_row (frame_row df0 i)) (seq 0 (nrows df0))).
  { apply forallb_ext_on. intros i Hi. apply in_seq in Hi. apply dropped_range_index; auto; lia. }
  rewrite Hs. reflexivity.
Qed.

Lemma process_parsed_key_error_free (df0 : frame) : process_parsed df0 <> inl EKeyError.
Proof.
  unfold process_parsed.
  destruct (frame_empty df0); [discriminate|].
  destruct (frame_empty (drop_header_rows df0)); [discriminate|].
  destruct (Nat.ltb 2 _); [discriminate|].
  destruct (detect_columns_in (drop_header_rows df0)) as [Hf [Hs [Hc Hp]]].
  destruct (standardize_some _ _ Hf Hs Hc Hp) as [s Es]. rewrite Es. discriminate.
Qed.

(** [process_file] never fails with a [KeyError] in
    [standardize_dataframe]: every column the classifiers return is a
    column of the frame. *)
Theorem process_parsed_no_key_error (df0 : frame) : process_parsed df0 <> inl EKeyError.
Proof. exact (process_parsed_key_error_free df0). Qed.

Lemma process_parsed_no_key_error_witness :
  process_parsed codes_table <> inl EKeyError /\ process_parsed ledger_table = inl EOnlyHeaders.
Proof.
  split; [exact (process_parsed_no_key_error codes_table)|vm_compute; reflexivity].
Defined.

Lemma rect_empty : rectangular 0 empty_sframe.
Proof. split; [reflexivity|intros nc []]. Qed.

Lemma rect_set_scalar (k : nat) (f : sframe) (name : pstr) (v : value) :
  rectangular k f -> rectangular k (set_scalar f name v).
Proof.
  intros [Hn Hc]. unfold set_scalar. split; [exact Hn|]. simpl.
  intros nc Hnc. apply in_app_or in Hnc as [Hnc|[<-|[]]]; [auto|].
  simpl. rewrite repeat_length. exact Hn.
Qed.

Lemma rect_set_series0 (n : nat) (f : sframe) (name : pstr) (vs : list value) :
  rectangular 0 f -> length vs = n -> 0 < n -> rectangular n (set_series f name vs).
Proof.
  intros [Hn _] Hl Hpos. unfold set_series. rewrite Hn. simpl.
  destruct vs as [|v vs']; [simpl in Hl; lia|]. simpl. split; [exact Hl|].
  intros nc Hnc. apply in_app_or in Hnc as [Hnc|[<-|[]]]; [|exact Hl].
  apply in_map_iff in Hnc as [nc0 [<- _]]. simpl. rewrite repeat_length. exact Hl.
Qed.

Lemma rect_set_seriesn (n : nat) (f : sframe) (name : pstr) (vs : list value) :
  rectangular n f -> 0 < n -> length vs = n -> rectangular n (set_series f name vs).
Proof.
  intros [Hn Hc] Hpos Hl. unfold set_series. rewrite Hn.
  destruct n as [|n']; [lia|]. simpl. split; [reflexivity|].
  intros nc Hnc. apply in_app_or in Hnc as [Hnc|[<-|[]]]; [auto|exact Hl].
Qed.

Lemma rect_s_get (n : nat) (f : sframe) (name : pstr) (vs : list value) :
  rectangular n f -> s_get f name = Some vs -> length vs = n.
Proof.
  intros [_ Hc] E. unfold s_get in E.
  destruct (find _ (s_cols f)) as [nc|] eqn:Ef; [|discriminate].
  injection E as <-. apply Hc. exact (proj1 (find_some _ _ Ef)).
Qed.

Lemma lookup_length (df : frame) (l : pstr) (c : column) :
  well_formed df -> lookup df l = Some c -> length (values c) = nrows df.
Proof. intros WF E. apply WF. exact (proj1 (find_some _ _ E)). Qed.

Lemma length_map_eq {A B} (f : A -> B) (l : list A) (n : nat) :
  length l = n -> length (map f l) = n.
Proof. rewrite length_map. exact id. Qed.

Lemma to_numeric_column_length (c : column) (n : nat) :
  length (values c) = n -> length (to_numeric_column c) = n.
Proof.
  intros <-. unfold to_numeric_column. destruct (dtype c); [reflexivity|].
  unfold convert_numeric. destruct (fast_path (values c)) as [out|] eqn:E.
  - unfold fast_path in E. destruct (values c) as [|[|r|b|t] vs]; try discriminate.
    destruct (int_repr r); [|discriminate].
    destruct (forallb _ _); [|discriminate]. injection E as <-. simpl.
    rewrite !length_map. reflexivity.
  - cbv zeta. repeat match goal with |- context [if ?b then _ else _] => destruct b end;
      rewrite !length_map; reflexivity.
Qed.

Create HintDb rect.
#[local] Hint Resolve rect_empty rect_set_scalar rect_set_series0 rect_set_seriesn
  lookup_length length_map_eq to_numeric_column_length : rect.

Lemma standardize_rect (df : frame) (d : detected) (s : sframe) :
  well_formed df -> 0 < nrows df ->
  (truthy_col (d_full_name d) <> None \/ truthy_col (d_short_name d) <> None \/
   truthy_col (d_currency d) <> None \/ truthy_col (d_price d) <> None) ->
  standardize_dataframe df d = Some s -> rectangular (nrows df) s.
Proof.
  intros WF Hpos Hsome H. revert Hsome H. unfold standardize_dataframe.
  destruct (truthy_col (d_full_name d)) as [lf|],
           (truthy_col (d_short_name d)) as [ls|],
           (truthy_col (d_currency d)) as [lc|],
           (truthy_col (d_price d)) as [lp|];
    intros Hsome H;
    [..|exfalso; intuition congruence].
  all: repeat match goal with
         | E : context [match ?x with _ => _ end] |- _ =>
             destruct x eqn:?; cbv beta iota delta [option_map] in E; try discriminate
         | E : option_map _ ?o = Some _ |- _ =>
             destruct o eqn:?; cbv beta iota delta [option_map] in E; try discriminate
         | E : Some _ = Some _ |- _ => injection E as <-
         end.
  all: repeat match goal with
         | E : s_get (set_series empty_sframe _ _) _ = Some _ |- _ =>
             rewrite s_get_first in E; injection E as <-
         end.
  all: eauto 20 with rect.
Qed.

Lemma missing_le2 (d : detected) :
  length (missing_columns d) <= 2 ->
  d_full_name d <> None \/ d_short_name d <> None \/ d_currency d <> None \/ d_price d <> None.
Proof.
  destruct d as [f s c p]. unfold missing_columns. simpl.
  destruct f, s, c, p; simpl; intro H; try lia; (left + (right; left) + (right; right; left) + (right; right; right)); discriminate.
Qed.

Lemma truthy_col_label (df : frame) (o : option pstr) :
  (forall c, In c (cols df) -> label c <> []) ->
  (forall l, o = Some l -> has_label df l) -> o <> None -> truthy_col o <> None.
Proof.
  intros HL Ho Hn. destruct o as [l|]; [|contradiction]. simpl.
  destruct (Ho l eq_refl) as [c [Hc <-]].
  destruct (label c) eqn:El; [exfalso; exact (HL c Hc El)|]. discriminate.
Qed.

(** [process_file] on a parsed frame whose columns each hold one value per
    row and have non-empty labels (as [pd.read_csv] gives): when it returns
    a standardized frame, that frame has one row per row of the parsed
    frame that the header-row removal keeps (with the default
    [RangeIndex], per non-header row), and each of its columns holds that
    many values. *)
Theorem process_parsed_rows (df0 : frame) (s : sframe) :
  well_formed df0 -> (forall c, In c (cols df0) -> label c <> []) ->
  process_parsed df0 = inr s ->
  s_nrows s = length (filter (fun i => negb (dropped df0 i)) (seq 0 (nrows df0)))
  /\ forall nc, In nc (s_cols s) -> length (snd nc) = s_nrows s.
Proof.
  intros WF HL H.
  assert (Hf : frame_empty (drop_header_rows df0) = false /\
               length (missing_columns (detect_columns (drop_header_rows df0))) <= 2).
  { revert H. unfold process_parsed.
    destruct (frame_empty df0); [discriminate|].
    destruct (frame_empty (drop_header_rows df0)); [discriminate|].
    destruct (Nat.ltb 2 _) eqn:Elt; [discriminate|]. apply Nat.ltb_ge in Elt. auto. }
  destruct Hf as [Hne Hle].
  pose proof (process_parsed_inr _ _ H) as Hs.
  assert (WF' : well_formed (drop_header_rows df0)).
  { destruct (drop_header_rows_well_formed df0) as [W|E]; [exact W|rewrite E; exact WF]. }
  assert (HL' : forall c, In c (cols (drop_header_rows df0)) -> label c <> []).
  { intros c Hc. destruct (proj2 (drop_header_rows_cols df0) c Hc) as [c0 [Hc0 ->]]. auto. }
  assert (Hpos : 0 < nrows (drop_header_rows df0)).
  { unfold frame_empty in Hne. apply orb_false_iff in Hne as [Hn _].
    apply Nat.eqb_neq in Hn. lia. }
  destruct (detect_columns_in (drop_header_rows df0)) as [Hf1 [Hs1 [Hc1 Hp1]]].
  set (d := detect_columns (drop_header_rows df0)) in *.
  assert (Hd : truthy_col (d_full_name d) <> None \/ truthy_col (d_short_name d) <> None \/
               truthy_col (d_currency d) <> None \/ truthy_col (d_price d) <> None).
  { destruct (missing_le2 _ Hle) as [N|[N|[N|N]]];
      [ left | right; left | right; right; left | right; right; right ];
      eapply truthy_col_label; eauto. }
  destruct (standardize_rect _ _ _ WF' Hpos Hd Hs) as [R1 R2].
  rewrite drop_header_rows_nrows in R1, R2. rewrite R1. split; [reflexivity|exact R2].
Qed.

Lemma process_parsed_rows_witness :
  well_formed invoice_table /\ (forall c, In c (cols invoice_table) -> label c <> []) /\
  exists s, process_parsed invoice_table = inr s /\
    s_nrows s = length (filter (fun i => negb (dropped invoice_table i))
                                (seq 0 (nrows invoice_table)))
    /\ s_nrows s = 1
    /\ forall nc, In nc (s_cols s) -> length (snd nc) = s_nrows s.
Proof.
  assert (WF : well_formed invoice_table).
  { intros c Hc. simpl in Hc. repeat destruct Hc as [<-|Hc]; [reflexivity..|destruct Hc]. }
  assert (HL : forall c, In c (cols invoice_table) -> label c <> []).
  { intros c Hc. simpl in Hc. repeat destruct Hc as [<-|Hc]; [discriminate..|destruct Hc]. }
  split; [exact WF|]. split; [exact HL|].
  destruct (process_parsed invoice_table) as [e|s] eqn:E; [vm_compute in E; discriminate|].
  exists s. destruct (process_parsed_rows _ _ WF HL E) as [R1 R2].
  split; [reflexivity|]. split; [exact R1|]. split; [rewrite R1; vm_compute; reflexivity|exact R2].
Defined.

(* ================================================================== *)
(** ** [generate_short_name]: no whitespace in a short name *)

Lemma upper_char_nonempty (c : pchar) : upper_char c <> [].
Proof.
  unfold upper_char. destruct (find _ upper_special) as [e|] eqn:E1.
  - apply find_some in E1 as [Hin _].
    assert (L : forallb (fun e => negb (is_emptyb (snd e))) upper_special = true)
      by (vm_compute; reflexivity).
    rewrite forallb_forall in L. specialize (L e Hin). destruct (snd e); discriminate.
  - destruct (find _ upper_runs) as [[[[lo hi] step] delta]|]; discriminate.
Qed.

Lemma space_chars_in (x : pchar) : is_space x = true -> In x space_chars.
Proof.
  intro H. destruct (N.lt_ge_cases x 12289) as [Hlt|Hge].
  - assert (L : forallb (fun c => implb (is_space c) (existsb (N.eqb c) space_chars))
                  (map N.of_nat (seq 0 (N.to_nat 12289))) = true)
      by (vm_compute; reflexivity).
    rewrite forallb_forall in L.
    assert (Hin : In x (map N.of_nat (seq 0 (N.to_nat 12289)))).
    { apply in_map_iff. exists (N.to_nat x). split; [apply N2Nat.id|]. apply in_seq.
      split; [apply Nat.le_0_l|]. rewrite Nat.add_0_l. apply Nat.compare_lt_iff.
      rewrite <- N2Nat.inj_compare. apply N.compare_lt_iff. exact Hlt. }
    specialize (L x Hin). rewrite H in L. cbn [implb] in L.
    apply existsb_exists in L as [y [Hy E]]. apply N.eqb_eq in E. subst y. exact Hy.
  - rewrite (space_high x Hge) in H. discriminate.
Qed.

(** No character's uppercase form contains whitespace (the one space among
    them, for a space, is the character itself). *)
Lemma upper_char_nospace (c : pchar) :
  is_space c = false -> forall x, In x (upper_char c) -> is_space x = false.
Proof.
  intros Hc x Hx. unfold upper_char in Hx.
  destruct (find _ upper_special) as [e|] eqn:E1.
  - apply find_some in E1 as [Hin _].
    assert (L : forallb (fun e => forallb (fun x => negb (is_space x)) (snd e)) upper_special
                = true) by (vm_compute; reflexivity).
    rewrite forallb_forall in L. specialize (L e Hin). rewrite forallb_forall in L.
    apply negb_true_iff, L, Hx.
  - destruct (find _ upper_runs) as [[[[lo hi] step] delta]|] eqn:E2.
    + apply find_some in E2 as [Hin Hr]. apply andb_true_iff in Hr as [Hr _].
      unfold in_range in Hr. apply andb_true_iff in Hr as [Hlo Hhi].
      apply N.leb_le in Hlo, Hhi.
      destruct Hx as [<-|[]].
      destruct (is_space (Z.to_N (Z.of_N c + delta))) eqn:Es; [exfalso|reflexivity].
      apply space_chars_in in Es.
      assert (L : forallb (fun r => let '(lo, hi, _, delta) := r in
                    forallb (fun s => negb ((Z.of_N lo <=? Z.of_N s - delta)%Z
                                            && (Z.of_N s - delta <=? Z.of_N hi)%Z))
                            space_chars) upper_runs = true)
        by (vm_compute; reflexivity).
      rewrite forallb_forall in L. specialize (L _ Hin). cbv beta iota in L.
      rewrite forallb_forall in L. specialize (L _ Es).
      assert (Hpos : Z.to_N (Z.of_N c + delta) <> 0%N).
      { intro E0. rewrite E0 in Es. vm_compute in Es.
        repeat (destruct Es as [Es|Es]; [discriminate Es|]). exact Es. }
      assert (Hz : Z.of_N (Z.to_N (Z.of_N c + delta)) = (Z.of_N c + delta)%Z).
      { apply Z2N.id. destruct (Z.of_N c + delta)%Z; simpl in Hpos |- *; lia. }
      rewrite Hz in L. replace (Z.of_N c + delta - delta)%Z with (Z.of_N c) in L by lia.
      rewrite (proj2 (Z.leb_le _ _)) in L by lia.
      rewrite (proj2 (Z.leb_le _ _)) in L by lia. discriminate.
    + destruct Hx as [<-|[]]. exact Hc.
Qed.

Lemma split_aux_words (s cur w : pstr) :
  (forall x, In x cur -> is_space x = false) -> In w (split_aux s cur) ->
  w <> [] /\ forall x, In x w -> is_space x = false.
Proof.
  revert cur. induction s as [|c t IH]; intros cur Hcur Hw; simpl in Hw.
  - destruct cur as [|d cur']; [destruct Hw|]. destruct Hw as [<-|[]].
    split; [intro E; apply (f_equal (@length _)) in E; rewrite length_rev in E; discriminate|].
    intros x Hx. apply Hcur. apply in_rev. exact Hx.
  - destruct (is_space c) eqn:Ec.
    + destruct cur as [|d cur'].
      * apply (IH []); [intros x []|exact Hw].
      * destruct Hw as [<-|Hw]; [|apply (IH []); [intros x []|exact Hw]].
        split; [intro E; apply (f_equal (@length _)) in E; rewrite length_rev in E; discriminate|].
        intros x Hx. apply Hcur. apply in_rev. exact Hx.
    + apply (IH (c :: cur)); [|exact Hw]. intros x [<-|Hx]; [exact Ec|apply Hcur, Hx].
Qed.

Lemma split_aux_nonempty (s cur : pstr) :
  (cur <> [] \/ exists y, In y s /\ is_space y = false) -> split_aux s cur <> [].
Proof.
  revert cur. induction s as [|c t IH]; intros cur H; simpl.
  - destruct H as [H|[y [[] _]]]. destruct cur; [contradiction|discriminate].
  - destruct (is_space c) eqn:Ec.
    + destruct cur as [|d cur']; [|discriminate].
      apply IH. destruct H as [H|[y [[<-|Hy] Hs]]]; [contradiction|congruence|eauto].
    + apply IH. left. discriminate.
Qed.

Lemma split_two (p q cur : pstr) (c : pchar) :
  is_space c = true ->
  (cur <> [] \/ exists x, In x p /\ is_space x = false) ->
  (exists y, In y q /\ is_space y = false) ->
  2 <= length (split_aux (p ++ c :: q) cur).
Proof.
  intros Hc. revert cur. induction p as [|d p IH]; intros cur Hp Hq; simpl.
  - rewrite Hc. destruct cur as [|e cur'].
    + destruct Hp as [Hp|[x [[] _]]]. contradiction.
    + simpl. destruct (split_aux q []) eqn:E; [|simpl; lia].
      exfalso. exact (split_aux_nonempty q [] (or_intror Hq) E).
  - destruct (is_space d) eqn:Ed.
    + destruct cur as [|e cur'].
      * apply IH; [|exact Hq]. destruct Hp as [Hp|[x [[<-|Hx] Hs]]]; [contradiction|congruence|eauto].
      * simpl. destruct (split_aux (p ++ c :: q) []) eqn:E; [|simpl; lia].
        exfalso. refine (split_aux_nonempty _ [] (or_intror _) E).
        destruct Hq as [y [Hy Hs]]. exists y. split; [|exact Hs].
        apply in_or_app. right. right. exact Hy.
    + apply IH; [left; discriminate|exact Hq].
Qed.

Lemma lstrip_head (s : pstr) (x : pchar) (rest : pstr) :
  lstrip s = x :: rest -> is_space x = false.
Proof.
  induction s as [|c t IH]; simpl; [discriminate|].
  destruct (is_space c) eqn:Ec; [exact IH|]. intro E. injection E as <- _. exact Ec.
Qed.

Lemma lstrip_suffix (s : pstr) : exists pre, s = pre ++ lstrip s.
Proof.
  induction s as [|c t [pre IH]]; simpl; [exists []; reflexivity|].
  destruct (is_space c); [exists (c :: pre); simpl; rewrite <- IH; reflexivity|].
  exists []. reflexivity.
Qed.

Lemma strip_head (s : pstr) (x : pchar) (rest : pstr) :
  strip s = x :: rest -> is_space x = false.
Proof.
  unfold strip. intro H.
  destruct (lstrip_suffix (rev (lstrip s))) as [pre Hpre].
  assert (E : lstrip (rev (lstrip s)) = rev rest ++ [x]).
  { rewrite <- (rev_involutive (lstrip (rev (lstrip s)))), H. reflexivity. }
  rewrite E in Hpre. apply (f_equal (@rev _)) in Hpre.
  rewrite rev_involutive, app_assoc, rev_app_distr in Hpre. simpl in Hpre.
  exact (lstrip_head _ _ _ Hpre).
Qed.

Lemma strip_last (s : pstr) (init : pstr) (x : pchar) :
  strip s = init ++ [x] -> is_space x = false.
Proof.
  unfold strip. intro H. apply (f_equal (@rev _)) in H.
  rewrite rev_involutive, rev_app_distr in H. simpl in H. exact (lstrip_head _ _ _ H).
Qed.

Lemma strip_single_word (s : pstr) :
  length (split (strip s)) <= 1 -> forall c, In c (strip s) -> is_space c = false.
Proof.
  intros Hl c Hc. destruct (is_space c) eqn:Es; [|reflexivity]. exfalso.
  apply in_split in Hc as [p [q Hpq]].
  destruct p as [|x p'].
  - simpl in Hpq. rewrite (strip_head _ _ _ Hpq) in Es. discriminate.
  - destruct q as [|y q'] eqn:Eq.
    + rewrite (strip_last s (x :: p') c Hpq) in Es. discriminate.
    + destruct (exists_last (l := y :: q') ltac:(discriminate)) as [q'' [z Ez]].
      rewrite Ez in Hpq.
      assert (Hz : is_space z = false).
      { apply (strip_last s ((x :: p') ++ c :: q'')). rewrite Hpq, <- app_assoc. reflexivity. }
      assert (Hx : is_space x = false) by (exact (strip_head s x _ Hpq)).
      pose proof (split_two (x :: p') (q'' ++ [z]) [] c Es
                    (or_intror (ex_intro _ x (conj (or_introl eq_refl) Hx)))
                    (ex_intro _ z (conj (in_or_app _ _ _ (or_intror (in_eq z []))) Hz)))
        as H2.
      unfold split in Hl. rewrite Hpq in Hl. lia.
Qed.

Lemma acronym_length_ge (ws : list pstr) :
  (forall w, In w ws -> w <> []) ->
  length ws <= length (flat_map (fun w => match w with c :: _ => upper_char c | [] => [] end) ws).
Proof.
  induction ws as [|w ws IH]; simpl; intro H; [lia|]. rewrite length_app.
  destruct w as [|c w]; [exfalso; exact (H [] (or_introl eq_refl) eq_refl)|].
  destruct (upper_char c) eqn:E; [exfalso; exact (upper_char_nonempty c E)|].
  simpl. specialize (IH (fun w' Hw' => H w' (or_intror Hw'))). lia.
Qed.

Lemma short_name_body_nospace (s : pstr) :
  let cleaned_name := strip s in
  let words := split cleaned_name in
  let acronym := flat_map (fun w => match w with c :: _ => upper_char c | [] => [] end) words in
  forall c, In c (if Nat.ltb 1 (length words) && Nat.leb 2 (length acronym) then acronym
                  else if Nat.leb (length cleaned_name) 10 then cleaned_name
                  else firstn 10 cleaned_name) -> is_space c = false.
Proof.
  cbv zeta. intro c.
  assert (Hw : forall w, In w (split (strip s)) -> w <> [] /\ forall x, In x w -> is_space x = false)
    by (intros w; apply split_aux_words; intros x []).
  destruct (Nat.ltb 1 _ && Nat.leb 2 _) eqn:E.
  - intro Hc. apply in_flat_map in Hc as [w [Hin Hc]].
    destruct w as [|d w]; [destruct Hc|].
    apply (upper_char_nospace d); [|exact Hc].
    apply (proj2 (Hw _ Hin)). left. reflexivity.
  - assert (H1 : length (split (strip s)) <= 1).
    { apply andb_false_iff in E as [E|E]; [apply Nat.ltb_ge in E; exact E|].
      apply Nat.leb_gt in E. pose proof (acronym_length_ge (split (strip s))
        (fun w Hin => proj1 (Hw w Hin))). lia. }
    intro Hc. apply (strip_single_word s H1).
    destruct (Nat.leb _ 10); [exact Hc|].
    rewrite <- (firstn_skipn 10 (strip s)). apply in_or_app. left. exact Hc.
Qed.

(** [generate_short_name] never returns a name with whitespace in it
    (whitespace as [str.strip] and [str.split] see it): an acronym is made
    of the upper-cased first letters of the words, and the cleaned name is
    kept, possibly cut to 10 characters, only when it is a single word. *)
Theorem generate_short_name_no_space (v : value) :
  forall c, In c (generate_short_name v) -> is_space c = false.
Proof.
  assert (Hunk : forall c, In c (u "Unknown") -> is_space c = false).
  { assert (L : forallb (fun c => negb (is_space c)) (u "Unknown") = true)
      by (vm_compute; reflexivity).
    rewrite forallb_forall in L. intros c Hc. apply negb_true_iff, L, Hc. }
  unfold generate_short_name. destruct v as [|r|b|s]; [exact Hunk| | |];
    (destruct (negb (value_truthy _)); [exact Hunk|]); apply short_name_body_nospace.
Qed.

Lemma generate_short_name_no_space_witness :
  generate_short_name (VStr (u "Acme Widgets International")) = u "AWI" /\
  In 65%N (generate_short_name (VStr (u "Acme Widgets International"))) /\ is_space 65%N = false.
Proof.
  assert (H : In 65%N (generate_short_name (VStr (u "Acme Widgets International"))))
    by (vm_compute; left; reflexivity).
  split; [vm_compute; reflexivity|]. split; [exact H|].
  exact (generate_short_name_no_space _ _ H).
Defined.

(* ================================================================== *)
(** ** [app.py]: what a click on Process Files shows *)

Lemma process_file_value_error (read : option frame) (f : file_failure) :
  process_file read = inl f -> is_value_error f = true.
Proof.
  unfold process_file. destruct read as [df|]; [|intro H; injection H as <-; reflexivity].
  destruct (process_parsed df) as [e|s] eqn:E; [|discriminate].
  intro H. injection H as <-. destruct e; try reflexivity.
  exfalso. exact (process_parsed_key_error_free df E).
Qed.

Lemma process_upload_step (db : table) (st : session) (file : pstr * option frame) :
  process_upload db st file =
  (db, mksession
         (combined_rows st +
            match process_file (snd file) with
            | inr s => match save_invoice_data db s (fst file) with
                       | inr _ => s_nrows s
                       | inl _ => 0
                       end
            | inl _ => 0
            end)
         (processed_files st)
         (processing_errors st ++
            match process_file (snd file) with
            | inl f => [NValidationError (fst file) f]
            | inr s =>
                match save_invoice_data db s (fst file) with
                | inr _ => if Nat.eqb (s_nrows s) 0 then [] else [NSkipped (fst file) (s_nrows s) 0]
                | inl e => [NUnexpectedError (fst file) (SaveFailed e)]
                end
            end)).
Proof.
  destruct file as [name read]. unfold process_upload. cbn [fst snd].
  destruct (process_file read) as [f|s] eqn:E.
  - rewrite (process_file_value_error _ _ E), Nat.add_0_r. reflexivity.
  - destruct (save_invoice_data_nothing db s name) as [E'|E']; rewrite E';
      [|rewrite Nat.add_0_r; reflexivity].
    cbv beta iota zeta.
    replace (if Nat.eqb (combined_rows st) 0 then s_nrows s else combined_rows st + s_nrows s)
      with (combined_rows st + s_nrows s)
      by (destruct (Nat.eqb (combined_rows st) 0) eqn:Ec; [apply Nat.eqb_eq in Ec; lia|reflexivity]).
    destruct (s_nrows s) as [|n]; simpl; [rewrite app_nil_r|]; reflexivity.
Qed.

Lemma process_files_fold (ups : list (pstr * option frame)) (db : table) (st : session) :
  fold_left (fun acc file => process_upload (fst acc) (snd acc) file) ups (db, st) =
  (db, mksession
         (combined_rows st + list_sum (map (fun file =>
            match process_file (snd file) with
            | inr s => match save_invoice_data db s (fst file) with
                       | inr _ => s_nrows s
                       | inl _ => 0
                       end
            | inl _ => 0
            end) ups))
         (processed_files st)
         (processing_errors st ++ flat_map (fun file =>
            match process_file (snd file) with
            | inl f => [NValidationError (fst file) f]
            | inr s =>
                match save_invoice_data db s (fst file) with
                | inr _ => if Nat.eqb (s_nrows s) 0 then [] else [NSkipped (fst file) (s_nrows s) 0]
                | inl e => [NUnexpectedError (fst file) (SaveFailed e)]
                end
            end) ups)).
Proof.
  revert st. induction ups as [|file ups IH]; intro st; simpl.
  - rewrite Nat.add_0_r, app_nil_r. destruct st; reflexivity.
  - rewrite process_upload_step, IH. simpl. rewrite Nat.add_assoc, app_assoc. reflexivity.
Qed.

(** [app.py]: whatever files are uploaded, a click on Process Files leaves
    the invoices table as it was and [processed_files] at 0, so the success
    message, the combined table and its download button are never shown. *)
Theorem process_files_shows_nothing (db : table) (uploaded_files : list (pstr * option frame)) :
  fst (process_files db uploaded_files) = db /\
  processed_files (snd (process_files db uploaded_files)) = 0 /\
  shows_results (snd (process_files db uploaded_files)) = false.
Proof.
  unfold process_files. rewrite process_files_fold. simpl. auto.
Qed.

(** [app.py]: the notifications after Process Files are, file by file in
    upload order: one validation error for each file [process_file]
    rejects; for each file it accepts, one unexpected error when
    [save_invoice_data] raises [OverflowError], and otherwise, when the
    file has [n > 0] rows, one warning that [n] records were skipped and 0
    added.  No all-duplicates notification is ever produced. *)
Theorem process_files_notifications (db : table) (uploaded_files : list (pstr * option frame)) :
  processing_errors (snd (process_files db uploaded_files)) =
  flat_map (fun file =>
    match process_file (snd file) with
    | inl f => [NValidationError (fst file) f]
    | inr s =>
        match save_invoice_data db s (fst file) with
        | inr _ => if Nat.eqb (s_nrows s) 0 then [] else [NSkipped (fst file) (s_nrows s) 0]
        | inl e => [NUnexpectedError (fst file) (SaveFailed e)]
        end
    end) uploaded_files.
Proof.
  unfold process_files. rewrite process_files_fold. reflexivity.
Qed.

(** [app.py]: after Process Files the combined data holds as many rows as
    the standardized frames of the accepted files whose save returned,
    together; a file whose save raises adds no row. *)
Theorem process_files_combined_rows (db : table) (uploaded_files : list (pstr * option frame)) :
  combined_rows (snd (process_files db uploaded_files)) =
  list_sum (map (fun file =>
    match process_file (snd file) with
    | inr s => match save_invoice_data db s (fst file) with
               | inr _ => s_nrows s
               | inl _ => 0
               end
    | inl _ => 0
    end) uploaded_files).
Proof.
  unfold process_files. rewrite process_files_fold. reflexivity.
Qed.

(* ================================================================== *)
(** ** [detect_encoding_and_delimiter] on ASCII content *)

Lemma utf8_decode_ascii (bs : list N) :
  (forall b, In b bs -> (b < 128)%N) -> utf8_decode bs = Some bs.
Proof.
  induction bs as [|b r IH]; intro H; [reflexivity|]. simpl.
  rewrite (proj2 (N.ltb_lt b 128) (H b (or_introl eq_refl))).
  rewrite IH by (intros x Hx; apply H; right; exact Hx). reflexivity.
Qed.

Lemma cp1252_decode_ascii (bs : list N) :
  (forall b, In b bs -> (b < 128)%N) -> cp1252_decode bs = Some bs.
Proof.
  induction bs as [|b r IH]; intro H; [reflexivity|]. simpl.
  assert (Hb : cp1252_char b = Some b).
  { unfold cp1252_char, in_range. specialize (H b (or_introl eq_refl)).
    rewrite (proj2 (N.leb_gt 128 b)) by lia. reflexivity. }
  rewrite Hb, IH by (intros x Hx; apply H; right; exact Hx). reflexivity.
Qed.

(** [detect_encoding_and_delimiter], whatever the sniffer: content made of
    ASCII bytes only is always reported as UTF-8.  Its delimiter is the one
    the sniffer finds in the first 4096 characters, or the fallback comma
    when the sniffer finds none, since the three decodings tried give the
    same text. *)
Theorem detect_ascii_utf8 (sniff : pstr -> option pchar) (file_content : list Byte.byte) :
  (forall b, In b file_content -> (Byte.to_N b < 128)%N) ->
  detect_encoding_and_delimiter sniff file_content =
  ("utf-8"%string,
   match sniff (firstn (A := pchar) 4096 (map Byte.to_N file_content)) with Some d => d | None => 44%N end).
Proof.
  intro H. unfold detect_encoding_and_delimiter, encodings.
  assert (Ha : forall b, In b (map Byte.to_N file_content) -> (b < 128)%N).
  { intros b Hb. apply in_map_iff in Hb as [b' [<- Hb']]. apply H, Hb'. }
  cbn [try_encodings]. rewrite (utf8_decode_ascii _ Ha). unfold latin1_decode.
  rewrite (cp1252_decode_ascii _ Ha).
  destruct (sniff (firstn (A := pchar) 4096 (map Byte.to_N file_content))); reflexivity.
Qed.

Lemma detect_ascii_utf8_witness :
  (forall b, In b ascii_csv -> (Byte.to_N b < 128)%N) /\
  detect_encoding_and_delimiter sniff_quote_free ascii_csv =
  ("utf-8"%string,
   match sniff_quote_free (firstn (A := pchar) 4096 (map Byte.to_N ascii_csv)) with Some d => d | None => 44%N end)
  /\ sniff_quote_free (firstn (A := pchar) 4096 (map Byte.to_N ascii_csv)) = Some 44%N.
Proof.
  assert (H : forall b, In b ascii_csv -> (Byte.to_N b < 128)%N).
  { assert (L : forallb (fun b => N.ltb (Byte.to_N b) 128) ascii_csv = true)
      by (vm_compute; reflexivity).
    rewrite forallb_forall in L. intros b Hb. apply N.ltb_lt, L, Hb. }
  split; [exact H|]. split; [exact (detect_ascii_utf8 sniff_quote_free ascii_csv H)|].
  vm_compute. reflexivity.
Defined.

(* ================================================================== *)
(** ** The columns of the standardized frame and of the insert *)

(** [process_file] returns a frame with exactly the columns
    [company_full_name], [company_short_name], [currency] and [price], in
    that order; [save_invoice_data] then inserts into the columns
    [currency], [price], [file_name] and [processed_date] only, never
    [evse_id] or [session_id]. *)
Theorem process_parsed_columns (df0 : frame) (s : sframe) :
  process_parsed df0 = inr s ->
  map fst (s_cols s)
  = map u ["company_full_name"; "company_short_name"; "currency"; "price"]%string /\
  save_columns s = map u ["currency"; "price"; "file_name"; "processed_date"]%string.
Proof.
  intro H. pose proof (standardize_names _ _ _ (process_parsed_inr _ _ H)) as E.
  split; [exact E|]. unfold save_columns. rewrite E. vm_compute. reflexivity.
Qed.

Lemma process_parsed_columns_witness :
  exists s, process_parsed invoice_table = inr s /\
    map fst (s_cols s)
    = map u ["company_full_name"; "company_short_name"; "currency"; "price"]%string /\
    save_columns s = map u ["currency"; "price"; "file_name"; "processed_date"]%string.
Proof.
  destruct (process_parsed invoice_table) as [e|s] eqn:E; [vm_compute in E; discriminate|].
  exists s. split; [reflexivity|]. exact (process_parsed_columns _ _ E).
Defined.
